(** * vortex_ole_payload.py: the layer objects of [OLE_TemporalVortex]

    A shallow embedding of the class [OLE_TemporalVortex]: the header
    encoder, the per-byte recurrence of the layer builder, the integrity
    digest and the assembly of the archive.

    Conventions of the embedding.
    - A Python [int] is a [Z]; a [bytes]/[bytearray] value is a [list Z]
      whose elements lie in [0, 256).
    - A Python [float] (and numpy's [float64]) is idealised as a real
      number: [np.exp] is [exp], [np.sin] is [sin], [np.pi] is [PI],
      and [int(x)] truncates towards zero.  Rounding, overflow, underflow,
      infinities and NaN are outside the model, and so is the
      [OverflowError] of [int(inf)] and of the conversion of an int above
      the float range.  Statements that depend on them are made for
      arguments at which they do not arise: layer indices and layer counts
      of moderate size, a non-negative [alpha] where the decay is computed,
      and the [alpha] of the constructor where a field is given exactly.
    - The attribute [alpha] is a Python [float] and [layers] a Python
      [int], so that a division by them raises [ZeroDivisionError] at 0;
      [cascade_factor] is the numpy [float64] the constructor stores, and
      dividing by it does not raise.
    - A call either returns a value or raises; methods that read the wall
      clock or write the archive thread an explicit [World].
    - Lines 94-97 of the source close the arguments of [struct.pack] with
      [//] where a comment was meant; the embedding reads the text after
      [//] as the comment it was written to be.
    - [print] calls are not modelled: what a run writes to the console,
      and a console that refuses it, are outside the model. *)

From Stdlib Require Import ZArith Reals Lra Lia List String Ascii Bool.
From Stdlib Require Decimal DecimalFacts DecimalPos DecimalZ.
From Stdlib Require Import DecimalString.
Import ListNotations.

Local Open Scope Z_scope.

(** ** Python values, exceptions and outcomes *)

Inductive exn_class : Set :=
| ZeroDivisionError
| StructError
| IndexError
| ValueError
| OSError.

(** An exception: its class and the text [str(e)] yields. *)
Record exn : Set := Exn { exn_cls : exn_class; exn_msg : string }.

Inductive Outcome (A : Type) : Type :=
| Returned (a : A)
| Raised (e : exn).
Arguments Returned {A} a.
Arguments Raised {A} e.

Definition obind {A B} (c : Outcome A) (k : A -> Outcome B) : Outcome B :=
  match c with
  | Returned a => k a
  | Raised e => Raised e
  end.

Notation "x <~ c ;; k" := (obind c (fun x => k))
  (at level 61, c at next level, right associativity).

Definition omap {A B} (f : A -> B) (c : Outcome A) : Outcome B :=
  match c with
  | Returned a => Returned (f a)
  | Raised e => Raised e
  end.

(** [int(x)] on a float: truncation towards zero. *)
Definition py_int (x : R) : Z :=
  if Rle_dec 0 x then Int_part x else - Int_part (- x).

(** [a / b] on Python floats: raises when the divisor is zero. *)
Definition py_truediv (a b : R) : Outcome R :=
  if Req_dec_T b 0
  then Raised (Exn ZeroDivisionError "float division by zero")
  else Returned (a / b)%R.

(** [a % b] on Python ints. *)
Definition py_mod (a b : Z) : Outcome Z :=
  if b =? 0
  then Raised (Exn ZeroDivisionError "integer modulo by zero")
  else Returned (a mod b).

(** [xs[i]] for a non-negative index. *)
Definition getitem {A} (xs : list A) (i : Z) : Outcome A :=
  match nth_error xs (Z.to_nat i) with
  | Some x => Returned x
  | None => Raised (Exn IndexError "index out of range")
  end.

(** [bytearray.append(b)]. *)
Definition bytearray_append (buf : list Z) (b : Z) : Outcome (list Z) :=
  if (0 <=? b) && (b <? 256)
  then Returned (buf ++ [b])
  else Raised (Exn ValueError "byte must be in range(0, 256)").

(** [range(n)]. *)
Definition range (n : Z) : list Z := map Z.of_nat (seq 0 (Z.to_nat n)).

(** [str(n)] for an int, as used by f-strings. *)
Definition str_int (n : Z) : string := NilZero.string_of_int (Z.to_int n).

(** A [for] loop whose body may raise, over an accumulator. *)
Fixpoint for_each {A S} (xs : list A) (body : S -> A -> Outcome S) (s : S)
  : Outcome S :=
  match xs with
  | [] => Returned s
  | x :: rest => s' <~ body s x ;; for_each rest body s'
  end.

(** ** struct.pack with little-endian unsigned formats *)

Module Struct.

Fixpoint le_bytes (n : nat) (v : Z) : list Z :=
  match n with
  | O => []
  | S n' => v mod 256 :: le_bytes n' (v / 256)
  end.

(** The text of the [struct.error] for a value a field does not hold, as
    CPython 3.11 words it on a 64-bit platform: ['I'] reads its argument as
    a C unsigned long, ['B'] and ['H'] read theirs as a C long; a value
    that does not convert gives the first text, any other the text that
    names the format. *)
Definition range_error (n : nat) (v : Z) : string :=
  match n with
  | 1%nat => if (- 2 ^ 63 <=? v) && (v <? 2 ^ 63)
             then "ubyte format requires 0 <= number <= 255"
             else "argument out of range"
  | 2%nat => if (- 2 ^ 63 <=? v) && (v <? 2 ^ 63)
             then "ushort format requires 0 <= number <= 65535"
             else "argument out of range"
  | _ => if (0 <=? v) && (v <? 2 ^ 64)
         then "'I' format requires 0 <= number <= 4294967295"
         else "argument out of range"
  end.

(** One field of [n] bytes; out-of-range values raise [struct.error]. *)
Definition pack_uint (n : nat) (v : Z) : Outcome (list Z) :=
  if (0 <=? v) && (v <? 256 ^ Z.of_nat n)
  then Returned (le_bytes n v)
  else Raised (Exn StructError (range_error n v)).

(** ['<' + n * c]: the fields one after the other. *)
Fixpoint pack_fields (n : nat) (vs : list Z) : Outcome (list Z) :=
  match vs with
  | [] => Returned []
  | v :: rest =>
      b <~ pack_uint n v ;;
      bs <~ pack_fields n rest ;;
      Returned (b ++ bs)
  end.

Definition pack_B := pack_fields 1.
Definition pack_H := pack_fields 2.
Definition pack_I := pack_fields 4.

(** The value a little-endian byte group denotes. *)
Fixpoint le_value (bs : list Z) : Z :=
  match bs with
  | [] => 0
  | b :: rest => b + 256 * le_value rest
  end.

(** [count] little-endian fields of [width] bytes each, decoded. *)
Fixpoint unpack_le (width count : nat) (bs : list Z) : list Z :=
  match count with
  | O => []
  | S c => le_value (firstn width bs) :: unpack_le width c (skipn width bs)
  end.

End Struct.

(** ** hashlib.sha256 *)

Module SHA256.

Definition w32 (x : Z) : Z := x mod 2 ^ 32.
Definition add32 (x y : Z) : Z := w32 (x + y).
Definition rotr (n x : Z) : Z :=
  Z.lor (Z.shiftr x n) (w32 (Z.shiftl x (32 - n))).
Definition not32 (x : Z) : Z := Z.lxor x 0xFFFFFFFF.

Definition Ch (x y z : Z) : Z := Z.lxor (Z.land x y) (Z.land (not32 x) z).
Definition Maj (x y z : Z) : Z :=
  Z.lxor (Z.lxor (Z.land x y) (Z.land x z)) (Z.land y z).
Definition Sigma0 (x : Z) : Z := Z.lxor (Z.lxor (rotr 2 x) (rotr 13 x)) (rotr 22 x).
Definition Sigma1 (x : Z) : Z := Z.lxor (Z.lxor (rotr 6 x) (rotr 11 x)) (rotr 25 x).
Definition sigma0 (x : Z) : Z := Z.lxor (Z.lxor (rotr 7 x) (rotr 18 x)) (Z.shiftr x 3).
Definition sigma1 (x : Z) : Z := Z.lxor (Z.lxor (rotr 17 x) (rotr 19 x)) (Z.shiftr x 10).

(** The round constants and the initial state are the first 32 bits of
    the fractional parts of the cube roots of the first 64 primes and of
    the square roots of the first 8. *)
Definition is_prime (p : Z) : bool :=
  (2 <=? p) && forallb (fun d => negb (p mod d =? 0)) (skipn 2 (range p)).

Definition primes (count : nat) : list Z :=
  firstn count (filter is_prime (range 320)).

(** The integer cube root, one bit at a time from bit [n - 1] down. *)
Fixpoint cube_root_bits (n : nat) (x acc : Z) : Z :=
  match n with
  | O => acc
  | S n' =>
      let c := acc + 2 ^ Z.of_nat n' in
      cube_root_bits n' x (if c * c * c <=? x then c else acc)
  end.

Definition K : list Z :=
  Eval vm_compute in
    map (fun p => cube_root_bits 40 (p * 2 ^ 96) 0 mod 2 ^ 32) (primes 64).

Definition H0 : list Z :=
  Eval vm_compute in
    map (fun p => Z.sqrt (p * 2 ^ 64) mod 2 ^ 32) (primes 8).

(** Big-endian bytes of a word, most significant first. *)
Fixpoint be_bytes (n : nat) (v : Z) : list Z :=
  match n with
  | O => []
  | S n' => (v / 256 ^ Z.of_nat n') mod 256 :: be_bytes n' v
  end.

Definition be_word (bs : list Z) : Z :=
  fold_left (fun acc b => acc * 256 + b) bs 0.

(** Message padding: 0x80, zeros up to 56 mod 64, then the bit length. *)
Definition pad (msg : list Z) : list Z :=
  let len := Z.of_nat (List.length msg) in
  let zeros := Z.to_nat ((55 - len) mod 64) in
  msg ++ [0x80] ++ repeat 0 zeros ++ be_bytes 8 (8 * len).

Fixpoint chunks (fuel k : nat) (xs : list Z) : list (list Z) :=
  match fuel with
  | O => []
  | S fuel' =>
      match xs with
      | [] => []
      | _ => firstn k xs :: chunks fuel' k (skipn k xs)
      end
  end.

(** The message schedule, kept most-recent-first while it is extended. *)
Fixpoint extend (n : nat) (rev_w : list Z) : list Z :=
  match n with
  | O => rev_w
  | S n' =>
      let w2 := nth 1 rev_w 0 in
      let w7 := nth 6 rev_w 0 in
      let w15 := nth 14 rev_w 0 in
      let w16 := nth 15 rev_w 0 in
      extend n' (add32 (add32 (sigma1 w2) w7) (add32 (sigma0 w15) w16) :: rev_w)
  end.

Definition schedule (block : list Z) : list Z :=
  rev (extend 48 (rev (map be_word (chunks 16 4 block)))).

Record regs : Set := Regs { ra : Z; rb : Z; rc : Z; rd : Z; re : Z; rf : Z; rg : Z; rh : Z }.

Definition round (s : regs) (kw : Z * Z) : regs :=
  let t1 := add32 (add32 (add32 (rh s) (Sigma1 (re s))) (Ch (re s) (rf s) (rg s)))
                  (add32 (fst kw) (snd kw)) in
  let t2 := add32 (Sigma0 (ra s)) (Maj (ra s) (rb s) (rc s)) in
  Regs (add32 t1 t2) (ra s) (rb s) (rc s) (add32 (rd s) t1) (re s) (rf s) (rg s).

Definition regs_of (h : list Z) : regs :=
  Regs (nth 0 h 0) (nth 1 h 0) (nth 2 h 0) (nth 3 h 0)
       (nth 4 h 0) (nth 5 h 0) (nth 6 h 0) (nth 7 h 0).

Definition compress (h : list Z) (block : list Z) : list Z :=
  let s := fold_left round (combine K (schedule block)) (regs_of h) in
  map (fun p => add32 (fst p) (snd p))
      (combine h [ra s; rb s; rc s; rd s; re s; rf s; rg s; rh s]).

(** [hashlib.sha256(msg).digest()]: 32 bytes. *)
Definition digest (msg : list Z) : list Z :=
  let p := pad msg in
  flat_map (be_bytes 4) (fold_left compress (chunks (List.length p) 64 p) H0).

Definition hex_digit (n : Z) : ascii :=
  nth (Z.to_nat n)
      ["0"; "1"; "2"; "3"; "4"; "5"; "6"; "7"; "8"; "9"; "a"; "b"; "c"; "d"; "e"; "f"]%char
      "0"%char.

Fixpoint hex_string (bs : list Z) : string :=
  match bs with
  | [] => EmptyString
  | b :: rest => String (hex_digit (b / 16)) (String (hex_digit (b mod 16)) (hex_string rest))
  end.

(** [hashlib.sha256(msg).hexdigest()]. *)
Definition hexdigest (msg : list Z) : string := hex_string (digest msg).

End SHA256.

(** ** The world: wall clock and archive *)

(** The dictionary [create_temporal_ole_object] returns.  [ole_timestamp]
    holds the instant [datetime.now()] returned; its rendering by
    [strftime] is not modelled. *)
Record OleObject : Type := {
  ole_clsid : string;
  ole_progid : string;
  ole_size : Z;
  ole_temporal_offset : R;
  ole_energy_level : R;
  ole_layer : Z;
  ole_alpha : R;
  ole_timestamp : R;
  ole_data : list Z;
  ole_checksum : string
}.

(** The dictionary [document_metadata]; the keys set only at the end of a
    run are optional. *)
Record DocMeta : Type := {
  doc_filename : string;
  doc_creation_time : R;
  doc_ctt_version : string;
  doc_alpha : R;
  doc_layers : Z;
  doc_cascade_factor : R;
  doc_ole_objects : list OleObject;
  doc_total_energy : option R;
  doc_efficiency : option R;
  doc_completion_time : option R
}.

(** Text parts are kept symbolically: the constructor names the template
    and carries the values rendered into it. *)
Inductive text : Type :=
| ContentTypesXml
| RelationshipsXml
| DocumentRelsXml (layers : Z)
| DocumentXml (alpha : R) (layers : Z) (cascade_factor : R)
| VortexXml (layer : Z) (alpha cascade_factor : R) (prime : Z) (o : OleObject)
| VortexManifest (alpha : R) (layers : Z) (cascade_factor : R) (m : DocMeta).

(** What [writestr] is given: a [str] or a [bytes] value. *)
Inductive content : Type :=
| Text (t : text)
| Bytes (b : list Z).

Record World : Type := mkWorld {
  clock : nat -> R;                  (* the k-th reading of the wall clock *)
  ticks : nat;                       (* readings taken so far *)
  io_fault : nat -> option string;   (* the k-th archive operation fails with this OSError *)
  zip_ops : nat;                     (* archive operations attempted so far *)
  archive : list (string * content)  (* entries of the archive file *)
}.

Definition M (A : Type) : Type := World -> Outcome A * World.

Definition ret {A} (a : A) : M A := fun w => (Returned a, w).

Definition bind {A B} (c : M A) (k : A -> M B) : M B :=
  fun w =>
    match c w with
    | (Returned a, w') => k a w'
    | (Raised e, w') => (Raised e, w')
    end.

Notation "x <- c ;; k" := (bind c (fun x => k))
  (at level 61, c at next level, right associativity).

Definition lift {A} (c : Outcome A) : M A := fun w => (c, w).

(** [try: body except Exception as e: handler(e)]. *)
Definition try_except {A} (body : M A) (handler : exn -> M A) : M A :=
  fun w =>
    match body w with
    | (Returned a, w') => (Returned a, w')
    | (Raised e, w') => handler e w'
    end.

Fixpoint for_each_M {A S} (xs : list A) (body : S -> A -> M S) (s : S) : M S :=
  match xs with
  | [] => ret s
  | x :: rest => s' <- body s x ;; for_each_M rest body s'
  end.

Definition read_clock : M R :=
  fun w => (Returned (clock w (ticks w)),
            mkWorld (clock w) (S (ticks w)) (io_fault w) (zip_ops w) (archive w)).

(** [time.time()]. *)
Definition time_time : M R := read_clock.

(** [datetime.now()]. *)
Definition datetime_now : M R := read_clock.

(** One operation on the archive file: it fails when the environment says
    so, and otherwise changes the entries. *)
Definition zip_op (effect : list (string * content) -> list (string * content))
  : M unit :=
  fun w =>
    match io_fault w (zip_ops w) with
    | Some msg =>
        (Raised (Exn OSError msg),
         mkWorld (clock w) (ticks w) (io_fault w) (S (zip_ops w)) (archive w))
    | None =>
        (Returned tt,
         mkWorld (clock w) (ticks w) (io_fault w) (S (zip_ops w)) (effect (archive w)))
    end.

(** [zipfile.ZipFile(name, 'w', ...)]: the file is created empty. *)
Definition ZipFile_open : M unit := zip_op (fun _ => []).

(** [docx.writestr(name, data)]. *)
Definition writestr (name : string) (data : content) : M unit :=
  zip_op (fun entries => entries ++ [(name, data)]).

Definition ZipFile_close : M unit := zip_op (fun entries => entries).

(** [with zipfile.ZipFile(...) as docx: body]: the archive is closed on
    both ways out, and a failing close replaces what the body did. *)
Definition with_ZipFile {A} (body : M A) : M A :=
  _ <- ZipFile_open ;;
  fun w =>
    match body w with
    | (r, w1) =>
        match ZipFile_close w1 with
        | (Returned _, w2) => (r, w2)
        | (Raised e, w2) => (Raised e, w2)
        end
    end.

(** [ZipFile.read(name)] on the finished archive: the last entry written
    under the name. *)
Fixpoint zip_read (name : string) (entries : list (string * content))
  : option content :=
  match entries with
  | [] => None
  | (n, c) :: rest =>
      match zip_read name rest with
      | Some c' => Some c'
      | None => if String.eqb n name then Some c else None
      end
  end.

(** ** class OLE_TemporalVortex *)

Local Open Scope R_scope.

Record OLE_TemporalVortex : Type := {
  filename : string;
  alpha : R;
  layers : Z;
  cascade_factor : R;
  clsid_vortex : string;
  progid_prefix : string;
  prime_windows : list Z
}.

Definition __init__ (filename : string) : OLE_TemporalVortex :=
  let alpha := 0.0302011 in
  let layers := 33%Z in
  {| filename := filename;
     alpha := alpha;
     layers := layers;
     cascade_factor := (1 - exp (- alpha * IZR layers)) / alpha;
     clsid_vortex := "{DEADC0DE-CAFE-BABE-0000-000000000033}";
     progid_prefix := "SCTT.Vortex";
     prime_windows := [10007; 10009; 10037; 10039; 10061; 10067; 10069; 10079]%Z |}.

Section Methods.

Variable self : OLE_TemporalVortex.

(** [self.prime_windows[layer % len(self.prime_windows)]]. *)
Definition prime_window (layer : Z) : Outcome Z :=
  k <~ py_mod layer (Z.of_nat (List.length (prime_windows self))) ;;
  getitem (prime_windows self) k.

Definition calculate_ole_temporal_offset (layer : Z) : M R :=
  let base_offset := exp (- alpha self * IZR layer) in
  base_offset <- lift (if (0 <? layer)%Z
                       then q <~ py_truediv (2 * PI * IZR layer) (IZR (layers self)) ;;
                            let resonance := alpha self * sin q in
                            Returned (base_offset * (1 + resonance))
                       else Returned base_offset) ;;
  prime <- lift (prime_window layer) ;;
  now <- time_time ;;
  let current_us := py_int (now * 1e6) in
  r <- lift (py_mod current_us prime) ;;
  prime_phase <- lift (py_truediv (IZR r) (IZR prime)) ;;
  let ole_offset := base_offset * (1e7 + 5e5 * prime_phase) in
  ret ole_offset.

Definition generate_vortex_ole_header (layer : Z) : Outcome (list Z) :=
  let header := [] in
  let header := (header ++ [0xD0; 0xCF; 0x11; 0xE0; 0xA1; 0xB1; 0x1A; 0xE1])%Z in
  clsid <~ Struct.pack_B [0x33; 0x00; 0x00; 0x00; 0xDE; 0xAD; 0xC0; 0xDE;
                          0xCA; 0xFE; 0xBA; 0xBE; 0x00; 0x00; 0x00; 0x00]%Z ;;
  let header := header ++ clsid in
  version <~ Struct.pack_H [0x003E; 0x0003; 0xFFFE; 0x0009]%Z ;;
  let header := header ++ version in
  let total_sectors := py_int (4096 * exp (- alpha self * IZR layer)) in
  sectors <~ Struct.pack_I [total_sectors;
                            0;
                            0x0000;
                            0x1000;
                            0xFFFFFFFE;
                            0xFFFFFFFF;
                            0x00001000;
                            total_sectors / 2;
                            layer;
                            py_int (alpha self * 1e6)]%Z ;;
  let header := header ++ sectors in
  Returned header.

(** The body of the loop [for i in range(object_size)] of
    [create_temporal_ole_object], lines 132-149. *)
Definition ole_data_step (layer : Z) (ole_data : list Z) (i : Z)
  : Outcome (list Z) :=
  period <~ py_truediv 1 (alpha self) ;;
  angle <~ py_truediv (2 * PI * IZR i) period ;;
  let position_factor := sin angle in
  let energy := exp (- alpha self * (IZR layer + IZR i / 100)) in
  let base_byte := Z.land (py_int (255 * energy)) 0xFF in
  base_byte <~ (if (0 <? i)%Z
                then prev <~ getitem ole_data (i - 1) ;;
                     let turbulence := Z.lxor prev base_byte in
                     Returned (Z.land turbulence 0xFF)
                else Returned base_byte) ;;
  let pattern := if ((layer + i) mod 2 =? 0)%Z then 0xAA%Z else 0x55%Z in
  let final_byte := Z.lxor base_byte pattern in
  bytearray_append ole_data final_byte.

(** Line 111: the number of bytes the loop appends. *)
Definition object_size (layer : Z) : Z :=
  let base_size := 1024%Z in
  py_int (IZR base_size * exp (- alpha self * IZR layer)).

Definition create_temporal_ole_object (layer : Z) : M OleObject :=
  let progid := (progid_prefix self ++ ".Layer" ++ str_int layer
                 ++ ".Alpha" ++ str_int (py_int (alpha self * 1e6)))%string in
  let object_size := object_size layer in
  temporal_offset <- calculate_ole_temporal_offset layer ;;
  timestamp <- datetime_now ;;
  let ole_data := [] in
  header <- lift (generate_vortex_ole_header layer) ;;
  let ole_data := ole_data ++ header in
  ole_data <- lift (for_each (range object_size) (ole_data_step layer) ole_data) ;;
  ret {| ole_clsid := clsid_vortex self;
         ole_progid := progid;
         ole_size := object_size;
         ole_temporal_offset := temporal_offset;
         ole_energy_level := exp (- alpha self * IZR layer);
         ole_layer := layer;
         ole_alpha := alpha self;
         ole_timestamp := timestamp;
         ole_data := ole_data;
         ole_checksum := SHA256.hexdigest ole_data |}.

Definition generate_vortex_xml (layer : Z) : M text :=
  ole_object <- create_temporal_ole_object layer ;;
  prime <- lift (prime_window layer) ;;
  ret (VortexXml layer (alpha self) (cascade_factor self) prime ole_object).

Definition _generate_content_types : text := ContentTypesXml.

Definition _generate_relationships : text := RelationshipsXml.

Definition _generate_document_rels : text := DocumentRelsXml (layers self).

Definition _generate_document_xml : text :=
  DocumentXml (alpha self) (layers self) (cascade_factor self).

Definition _generate_vortex_manifest (metadata : DocMeta) : text :=
  VortexManifest (alpha self) (layers self) (cascade_factor self) metadata.

(** What [build_sovereign_document] returns: the document metadata, or
    the dictionary [{'error': str(e)}]. *)
Inductive BuildResult : Type :=
| Document (m : DocMeta)
| ErrorDict (error : string).

(** The body of the loop [for layer in range(self.layers)], lines 244-266;
    the state is [total_energy] and the list [ole_objects]. *)
Definition deploy_layer (st : R * list OleObject) (layer : Z)
  : M (R * list OleObject) :=
  let layer_energy := exp (- alpha self * IZR layer) in
  let total_energy := fst st + layer_energy in
  ole_metadata <- create_temporal_ole_object layer ;;
  let ole_objects := snd st ++ [ole_metadata] in
  xml_content <- generate_vortex_xml layer ;;
  _ <- writestr ("word/embeddings/oleObject" ++ str_int layer ++ ".xml") (Text xml_content) ;;
  _ <- writestr ("word/embeddings/oleObject" ++ str_int layer ++ ".bin")
                (Bytes (ole_data ole_metadata)) ;;
  ret (total_energy, ole_objects).

Definition build_sovereign_document : M BuildResult :=
  creation_time <- datetime_now ;;
  let document_metadata ole_objects total_energy efficiency completion_time :=
    {| doc_filename := filename self;
       doc_creation_time := creation_time;
       doc_ctt_version := "2026-33-0007";
       doc_alpha := alpha self;
       doc_layers := layers self;
       doc_cascade_factor := cascade_factor self;
       doc_ole_objects := ole_objects;
       doc_total_energy := total_energy;
       doc_efficiency := efficiency;
       doc_completion_time := completion_time |} in
  try_except
    (with_ZipFile
       (_ <- writestr "[Content_Types].xml" (Text _generate_content_types) ;;
        _ <- writestr "_rels/.rels" (Text _generate_relationships) ;;
        _ <- writestr "word/_rels/document.xml.rels" (Text _generate_document_rels) ;;
        _ <- writestr "word/document.xml" (Text _generate_document_xml) ;;
        st <- for_each_M (range (layers self)) deploy_layer (0, []) ;;
        let total_energy := fst st in
        let ole_objects := snd st in
        _ <- writestr "CTT_VORTEX_MANIFEST.txt"
                      (Text (_generate_vortex_manifest
                               (document_metadata ole_objects None None None))) ;;
        let theoretical_energy := cascade_factor self in
        let efficiency := (total_energy / theoretical_energy) * 100 in
        completion_time <- datetime_now ;;
        ret (Document (document_metadata ole_objects (Some total_energy)
                                         (Some efficiency) (Some completion_time)))))
    (fun e => ret (ErrorDict (exn_msg e))).

End Methods.

(** ** Certified enclosures of [exp] at rational points

    [exp x] is bounded below by [(1 + x / 2^n) ^ (2^n)], computed by [n]
    squarings in fixed point, each rounded down. *)

Module ExpBound.

Local Open Scope Z_scope.

Definition fx : Z := 2 ^ 80.

Fixpoint sq_down (n : nat) (b : Z) : Z :=
  match n with
  | O => b
  | S n' => sq_down n' (b * b / fx)
  end.

Definition start (n : nat) (num den : Z) : Z :=
  fx + num * fx / (den * 2 ^ Z.of_nat n).

(** [exp_low n num den / fx <= exp (num / den)]. *)
Definition exp_low (n : nat) (num den : Z) : Z := sq_down n (start n num den).

(** A checkable certificate of [k <= scale * exp (num / den) < k + 1]. *)
Definition floor_check (n : nat) (scale num den k : Z) : bool :=
  (0 <? den) && (0 <=? scale) && (0 <=? k)
  && (0 <=? start n num den) && (0 <=? start n (- num) den)
  && (k * fx <=? scale * exp_low n num den)
  && (scale * fx <? (k + 1) * exp_low n (- num) den).

End ExpBound.

(** ** Vocabulary of the statements *)

(** The 8-byte signature and the 16-byte identifier every header opens with. *)
Definition signature : list Z :=
  [0xD0; 0xCF; 0x11; 0xE0; 0xA1; 0xB1; 0x1A; 0xE1]%Z.

Definition clsid_bytes : list Z :=
  [0x33; 0x00; 0x00; 0x00; 0xDE; 0xAD; 0xC0; 0xDE;
   0xCA; 0xFE; 0xBA; 0xBE; 0x00; 0x00; 0x00; 0x00]%Z.

Definition version_fields : list Z := [0x003E; 0x0003; 0xFFFE; 0x0009]%Z.

(** The ten 32-bit fields of the header of a layer, in emission order. *)
Definition sector_fields (self : OLE_TemporalVortex) (layer : Z) : list Z :=
  let total_sectors := py_int (4096 * exp (- alpha self * IZR layer)) in
  [total_sectors; 0; 0; 0x1000; 0xFFFFFFFE; 0xFFFFFFFF; 0x1000;
   total_sectors / 2; layer; py_int (alpha self * 1e6)]%Z.

(** The decayed value of position [i] before the feedback, lines 137-138. *)
Definition base_byte (self : OLE_TemporalVortex) (layer i : Z) : Z :=
  Z.land (py_int (255 * exp (- alpha self * (IZR layer + IZR i / 100)))) 0xFF.

(** The position-parity mask, line 146. *)
Definition pattern (layer i : Z) : Z :=
  if ((layer + i) mod 2 =? 0)%Z then 0xAA%Z else 0x55%Z.

(** The byte iteration [i] appends when it runs on the buffer [buf]. *)
Definition next_byte (self : OLE_TemporalVortex) (layer : Z) (buf : list Z) (i : Z) : Z :=
  Z.lxor (if (0 <? i)%Z
          then Z.land (Z.lxor (nth (Z.to_nat (i - 1)) buf 0%Z) (base_byte self layer i)) 0xFF
          else base_byte self layer i)
         (pattern layer i).

(** What of a layer object is bytes: its data, their digest, their count. *)
Definition bytes_of (o : OleObject) : list Z * string * Z :=
  (ole_data o, ole_checksum o, ole_size o).

(** What of a layer object is not derived from the clock: every key but
    ['temporal_offset'] and ['timestamp']. *)
Definition clock_free_part (o : OleObject)
  : string * string * Z * R * Z * R * list Z * string :=
  (ole_clsid o, ole_progid o, ole_size o, ole_energy_level o, ole_layer o,
   ole_alpha o, ole_data o, ole_checksum o).

(** The range of an element of a [bytes] value. *)
Definition is_byte (b : Z) : Prop := (0 <= b < 256)%Z.

(** The world after one more reading of the clock. *)
Definition tick (w : World) : World :=
  mkWorld (clock w) (S (ticks w)) (io_fault w) (zip_ops w) (archive w).

(** What [calculate_ole_temporal_offset] can raise: its divisions and
    its list access, none of which looks at the clock. *)
Definition offset_guard (self : OLE_TemporalVortex) (layer : Z) : Outcome unit :=
  _ <~ (if (0 <? layer)%Z
        then _ <~ py_truediv (2 * PI * IZR layer) (IZR (layers self)) ;; Returned tt
        else Returned tt) ;;
  prime <~ prime_window self layer ;;
  _ <~ py_mod 0 prime ;;
  Returned tt.

(** The bytes of a layer object as a function of the configuration and
    the layer alone: the header, then the loop run on it. *)
Definition layer_bytes (self : OLE_TemporalVortex) (layer : Z) : Outcome (list Z) :=
  _ <~ offset_guard self layer ;;
  header <~ generate_vortex_ole_header self layer ;;
  for_each (range (object_size self layer)) (ole_data_step self layer) header.

(** The header of a layer in closed form. *)
Definition header_layout (self : OLE_TemporalVortex) (layer : Z) : list Z :=
  signature ++ clsid_bytes
  ++ flat_map (Struct.le_bytes 2) version_fields
  ++ flat_map (Struct.le_bytes 4) (sector_fields self layer).

(** No archive operation performed from [w] to [w'] failed. *)
Definition fault_free_run (w w' : World) : Prop :=
  io_fault w' = io_fault w
  /\ (zip_ops w <= zip_ops w')%nat
  /\ forall k, (zip_ops w <= k < zip_ops w')%nat -> io_fault w k = None.

(** A computation that returns only if every archive operation it
    performed went through. *)
Definition careful {A} (c : M A) : Prop :=
  forall w a w', c w = (Returned a, w') -> fault_free_run w w'.

(** Attribute assignment after construction: [self.alpha = a],
    [self.layers = n]. *)
Definition set_alpha (self : OLE_TemporalVortex) (a : R) : OLE_TemporalVortex :=
  {| filename := filename self; alpha := a; layers := layers self;
     cascade_factor := cascade_factor self; clsid_vortex := clsid_vortex self;
     progid_prefix := progid_prefix self; prime_windows := prime_windows self |}.

Definition set_layers (self : OLE_TemporalVortex) (n : Z) : OLE_TemporalVortex :=
  {| filename := filename self; alpha := alpha self; layers := n;
     cascade_factor := cascade_factor self; clsid_vortex := clsid_vortex self;
     progid_prefix := progid_prefix self; prime_windows := prime_windows self |}.

(** A world in which the first [writestr] fails for lack of space. *)
Definition disk_full_world : World :=
  mkWorld (fun _ => 0) 0
          (fun k => if Nat.eqb k 1 then Some "No space left on device"%string else None)
          0 [].

(** The environment lets every archive operation through. *)
Definition no_faults (w : World) : Prop := forall k, io_fault w k = None.

(** The two archive entries of a layer, as line 255 and line 259 name them. *)
Definition xml_name (layer : Z) : string :=
  ("word/embeddings/oleObject" ++ str_int layer ++ ".xml")%string.

Definition bin_name (layer : Z) : string :=
  ("word/embeddings/oleObject" ++ str_int layer ++ ".bin")%string.

(** The bytes of a layer, when [layer_bytes] returns them. *)
Definition layer_data (self : OLE_TemporalVortex) (layer : Z) : list Z :=
  match layer_bytes self layer with
  | Returned d => d
  | Raised _ => []
  end.

(** The entries the loop over the layers writes, given the descriptor
    rendered for each layer. *)
Definition layer_entries (self : OLE_TemporalVortex) (lxs : list (Z * text))
  : list (string * content) :=
  flat_map (fun lx => [(xml_name (fst lx), Text (snd lx));
                       (bin_name (fst lx), Bytes (layer_data self (fst lx)))]) lxs.

Fixpoint last_char (s : string) : ascii :=
  match s with
  | EmptyString => Ascii.zero
  | String c EmptyString => c
  | String _ rest => last_char rest
  end.

(** Number of bytes of a header: 8 + 16 + 4 * 2 + 10 * 4. *)
Definition header_size : nat := 72.

(** A configuration under which no method raises: what [__init__] sets
    up satisfies it. *)
Record well_configured (self : OLE_TemporalVortex) : Prop := {
  wc_alpha_pos : 0 < alpha self;
  wc_alpha_fits : alpha self * 1e6 < 4294967296;
  wc_layers : (layers self <> 0)%Z;
  wc_primes_nonempty : prime_windows self <> [];
  wc_primes_nonzero : Forall (fun p => p <> 0%Z) (prime_windows self)
}.

(** A world in which the clock stands at 0 and no archive operation fails. *)
Definition quiet_world : World :=
  mkWorld (fun _ => 0) 0 (fun _ => None) 0 [].

(** A world like [quiet_world] whose clock has moved on to 1 second when it
    is read for the second time. *)
Definition one_second_later_world : World :=
  mkWorld (fun k => if Nat.eqb k 1 then 1 else 0) 0 (fun _ => None) 0 [].

(** ** Vocabulary of the further properties *)

(** A value an ['I'] field of [struct.pack] accepts. *)
Definition fits_uint32 (v : Z) : Prop := (0 <= v < 4294967296)%Z.

(** [o] is an object the builder returns for [layer], at some state of
    the clock. *)
Definition built_by (self : OLE_TemporalVortex) (layer : Z) (o : OleObject) : Prop :=
  exists w, fst (create_temporal_ole_object self layer w) = Returned o.

(** The two entries one pass of the loop over the layers writes: the
    descriptor rendered from the object [x] of the second call of the
    builder, and the bytes of the object [o] of the first. *)
Definition layer_parts (self : OLE_TemporalVortex) (layer : Z) (o x : OleObject) (prime : Z)
  : list (string * content) :=
  [(xml_name layer,
    Text (VortexXml layer (alpha self) (cascade_factor self) prime x));
   (bin_name layer, Bytes (ole_data o))].

(** The effect of the loop over the layers [ls]: the objects appended to
    the metadata and the entries appended to the archive. *)
Inductive deployed (self : OLE_TemporalVortex)
  : list Z -> list OleObject -> list (string * content) -> Prop :=
| deployed_nil : deployed self [] [] []
| deployed_cons (layer : Z) (o x : OleObject) (prime : Z) ls os es :
    built_by self layer o ->
    built_by self layer x ->
    prime_window self layer = Returned prime ->
    deployed self ls os es ->
    deployed self (layer :: ls) (o :: os) (layer_parts self layer o x prime ++ es).

(** The names of the four parts written before the layers. *)
Definition fixed_names : list string :=
  ["[Content_Types].xml"; "_rels/.rels"; "word/_rels/document.xml.rels";
   "word/document.xml"]%string.

(** The energy the loop over the layers adds up, in the order it adds. *)
Definition energy_sum (self : OLE_TemporalVortex) (ls : list Z) (start : R) : R :=
  fold_left (fun acc layer => acc + exp (- alpha self * IZR layer)) ls start.

(** The dictionary [document_metadata] of a run, lines 217-225, with the
    keys the end of the run adds. *)
Definition document_metadata_of (self : OLE_TemporalVortex) (creation_time : R)
  (ole_objects : list OleObject) (total_energy efficiency completion_time : option R)
  : DocMeta :=
  {| doc_filename := filename self;
     doc_creation_time := creation_time;
     doc_ctt_version := "2026-33-0007";
     doc_alpha := alpha self;
     doc_layers := layers self;
     doc_cascade_factor := cascade_factor self;
     doc_ole_objects := ole_objects;
     doc_total_energy := total_energy;
     doc_efficiency := efficiency;
     doc_completion_time := completion_time |}.

(** The names of the two entries of each layer, in the order written. *)
Definition layer_names (ls : list Z) : list string :=
  flat_map (fun layer => [xml_name layer; bin_name layer]) ls.

(** A character of [hexdigest]. *)
Definition is_hex_char (c : ascii) : Prop :=
  In c ["0"; "1"; "2"; "3"; "4"; "5"; "6"; "7"; "8"; "9";
        "a"; "b"; "c"; "d"; "e"; "f"]%char.

(** * Properties *)

(** ** The digest agrees with published SHA-256 values *)

Example sha256_constants :
  nth 0 SHA256.K 0%Z = 0x428a2f98%Z /\ nth 63 SHA256.K 0%Z = 0xc67178f2%Z
  /\ nth 0 SHA256.H0 0%Z = 0x6a09e667%Z /\ nth 7 SHA256.H0 0%Z = 0x5be0cd19%Z
  /\ List.length SHA256.K = 64%nat /\ List.length SHA256.H0 = 8%nat.
Proof. repeat split. Qed.

Example sha256_of_nothing :
  SHA256.hexdigest []
  = "e3b0c44298fc1c149afbf4c8996fb92427ae41e4649b934ca495991b7852b855"%string.
Proof. vm_compute. reflexivity. Qed.

Example sha256_of_abc :
  SHA256.hexdigest [97; 98; 99]%Z
  = "ba7816bf8f01cfea414140de5dae2223b00361a396177a9cb410ff61f20015ad"%string.
Proof. vm_compute. reflexivity. Qed.

Example sha256_of_two_blocks :
  SHA256.hexdigest (range 100)
  = "bce0aff19cf5aa6a7469a30d61d04e4376e4bbf6381052ee9e7f33925c954d52"%string.
Proof. vm_compute. reflexivity. Qed.

(** ** Truncation *)

Lemma py_int_unique (x : R) (k : Z) :
  (0 <= k)%Z -> IZR k <= x < IZR k + 1 -> py_int x = k.
Proof.
  intros Hk [Hlo Hhi]. unfold py_int.
  assert (0 <= IZR k) by (apply IZR_le; lia).
  destruct (Rle_dec 0 x) as [_|Hn]; [|lra].
  symmetry. apply Int_part_spec. lra.
Qed.

Lemma py_int_floor (x : R) : 0 <= x -> py_int x = Int_part x.
Proof.
  intros Hx. unfold py_int. destruct (Rle_dec 0 x); [reflexivity|lra].
Qed.

Lemma py_int_nonneg (x : R) : 0 <= x -> (0 <= py_int x)%Z.
Proof.
  intros Hx. rewrite py_int_floor by assumption.
  destruct (base_Int_part x) as [_ H].
  apply Z.lt_succ_r. apply lt_IZR. rewrite succ_IZR. lra.
Qed.

Lemma py_int_le (x : R) : 0 <= x -> IZR (py_int x) <= x.
Proof.
  intros Hx. rewrite py_int_floor by assumption. apply base_Int_part.
Qed.


Lemma py_int_IZR (k : Z) : py_int (IZR k) = k.
Proof.
  unfold py_int. destruct (Rle_dec 0 (IZR k)) as [H|H].
  - symmetry. apply Int_part_spec. lra.
  - rewrite <- opp_IZR. rewrite <- (Int_part_spec (IZR (- k)) (- k)%Z) by lra. lia.
Qed.

(** ** Soundness of the enclosures *)

Module ExpBoundFacts.
Import ExpBound.

Lemma fx_pos : 0 < IZR fx.
Proof. apply IZR_lt. reflexivity. Qed.

Lemma div_floor_le (a d : Z) : (0 < d)%Z -> IZR (a / d) <= IZR a / IZR d.
Proof.
  intros Hd. assert (Hf : 0 < IZR d) by (apply IZR_lt; assumption).
  apply Rmult_le_reg_r with (IZR d); [assumption|].
  unfold Rdiv. rewrite Rmult_assoc, Rinv_l, Rmult_1_r by lra.
  rewrite <- mult_IZR. apply IZR_le.
  rewrite Z.mul_comm. apply Z.mul_div_le. assumption.
Qed.

Lemma div_fx_le (a : Z) : IZR (a / fx) <= IZR a / IZR fx.
Proof. apply div_floor_le. reflexivity. Qed.

Lemma sq_down_nonneg (n : nat) (b : Z) : (0 <= b -> 0 <= sq_down n b)%Z.
Proof.
  revert b. induction n as [|n IH]; intros b Hb; simpl; [assumption|].
  apply IH. apply Z.div_pos; [nia|reflexivity].
Qed.

Lemma sq_down_sound (n : nat) : forall (b : Z) (y : R),
  (0 <= b)%Z -> IZR b / IZR fx <= exp y ->
  IZR (sq_down n b) / IZR fx <= exp (2 ^ n * y).
Proof.
  pose proof fx_pos as Hf.
  induction n as [|n IH]; intros b y Hb Hy; simpl.
  - now rewrite Rmult_1_l.
  - replace (2 * 2 ^ n * y) with (2 ^ n * (y + y)) by ring.
    apply IH.
    + apply Z.div_pos; [nia|reflexivity].
    + rewrite exp_plus.
      assert (H0 : 0 <= IZR b / IZR fx).
      { apply Rmult_le_pos; [apply IZR_le; assumption|].
        left. now apply Rinv_0_lt_compat. }
      apply Rle_trans with (IZR b / IZR fx * (IZR b / IZR fx)).
      * apply Rmult_le_reg_r with (IZR fx); [assumption|].
        pose proof (div_fx_le (b * b)) as Hd.
        rewrite mult_IZR in Hd.
        replace (IZR b / IZR fx * (IZR b / IZR fx) * IZR fx)
          with (IZR b * IZR b / IZR fx) by (field; lra).
        replace (IZR (b * b / fx) / IZR fx * IZR fx)
          with (IZR (b * b / fx)) by (field; lra).
        rewrite <- mult_IZR. rewrite <- mult_IZR in Hd. exact Hd.
      * apply Rmult_le_compat; assumption.
Qed.

Lemma pow2_IZR (n : nat) : IZR (2 ^ Z.of_nat n) = 2 ^ n.
Proof. rewrite <- pow_IZR. reflexivity. Qed.

Lemma start_sound (n : nat) (num den : Z) :
  (0 < den)%Z ->
  IZR (start n num den) / IZR fx <= exp (IZR num / IZR den / 2 ^ n).
Proof.
  intros Hden. pose proof fx_pos as Hf.
  assert (Hd : 0 < IZR den) by (apply IZR_lt; assumption).
  assert (Hp : 0 < 2 ^ n) by (apply pow_lt; lra).
  assert (Hz : (0 < den * 2 ^ Z.of_nat n)%Z).
  { apply Z.mul_pos_pos; [assumption|]. apply Z.pow_pos_nonneg; lia. }
  eapply Rle_trans; [|apply exp_ineq1_le].
  unfold start. rewrite plus_IZR.
  pose proof (div_floor_le (num * fx) _ Hz) as H.
  rewrite !mult_IZR, pow2_IZR in H.
  apply Rmult_le_reg_r with (IZR fx); [assumption|].
  replace ((IZR fx + IZR (num * fx / (den * 2 ^ Z.of_nat n))) / IZR fx * IZR fx)
    with (IZR fx + IZR (num * fx / (den * 2 ^ Z.of_nat n))) by (field; lra).
  replace ((1 + IZR num / IZR den / 2 ^ n) * IZR fx)
    with (IZR fx + IZR num * IZR fx / (IZR den * 2 ^ n)) by (field; lra).
  lra.
Qed.

Lemma exp_low_sound (n : nat) (num den : Z) :
  (0 < den)%Z -> (0 <= start n num den)%Z ->
  IZR (exp_low n num den) / IZR fx <= exp (IZR num / IZR den).
Proof.
  intros Hden Hs.
  assert (Hd : 0 < IZR den) by (apply IZR_lt; assumption).
  assert (Hp : 0 < 2 ^ n) by (apply pow_lt; lra).
  replace (IZR num / IZR den) with (2 ^ n * (IZR num / IZR den / 2 ^ n))
    by (field; lra).
  apply sq_down_sound; [assumption|]. now apply start_sound.
Qed.

(** The certificate is sound for [int(scale * exp(num / den))]. *)
Lemma floor_check_sound (n : nat) (scale num den k : Z) :
  floor_check n scale num den k = true ->
  py_int (IZR scale * exp (IZR num / IZR den)) = k.
Proof.
  unfold floor_check. rewrite !andb_true_iff.
  intros [[[[[[Hden Hsc] Hk] Hs1] Hs2] Hlo] Hhi].
  apply Z.ltb_lt in Hden, Hhi. apply Z.leb_le in Hsc, Hk, Hs1, Hs2, Hlo.
  pose proof fx_pos as Hf.
  pose proof (exp_low_sound n num den Hden Hs1) as L1.
  pose proof (exp_low_sound n (- num) den Hden Hs2) as L2.
  assert (Hsc' : 0 <= IZR scale) by (apply IZR_le; assumption).
  assert (E : exp (IZR num / IZR den) * exp (IZR (- num) / IZR den) = 1).
  { rewrite <- exp_plus, opp_IZR.
    replace (IZR num / IZR den + - IZR num / IZR den) with 0
      by (unfold Rdiv; ring).
    apply exp_0. }
  pose proof (exp_pos (IZR num / IZR den)) as P1.
  pose proof (exp_pos (IZR (- num) / IZR den)) as P2.
  apply IZR_le in Hlo. apply IZR_lt in Hhi.
  rewrite !mult_IZR in Hlo, Hhi. rewrite plus_IZR in Hhi.
  set (e1 := exp (IZR num / IZR den)) in *.
  set (e2 := exp (IZR (- num) / IZR den)) in *.
  set (l1 := IZR (exp_low n num den)) in *.
  set (l2 := IZR (exp_low n (- num) den)) in *.
  assert (L1' : l1 <= e1 * IZR fx).
  { apply Rmult_le_reg_r with (/ IZR fx); [now apply Rinv_0_lt_compat|].
    rewrite Rmult_assoc, Rinv_r, Rmult_1_r by lra. exact L1. }
  assert (L2' : l2 <= e2 * IZR fx).
  { apply Rmult_le_reg_r with (/ IZR fx); [now apply Rinv_0_lt_compat|].
    rewrite Rmult_assoc, Rinv_r, Rmult_1_r by lra. exact L2. }
  apply py_int_unique; [assumption|]. split.
  - apply Rmult_le_reg_r with (IZR fx); [assumption|].
    apply Rle_trans with (IZR scale * l1); [assumption|].
    rewrite Rmult_assoc. apply Rmult_le_compat_l; assumption.
  - assert (Hk1 : 0 < IZR k + 1) by (apply IZR_le in Hk; lra).
    apply Rmult_lt_reg_r with (e2 * IZR fx).
    { apply Rmult_lt_0_compat; assumption. }
    replace (IZR scale * e1 * (e2 * IZR fx)) with (IZR scale * IZR fx * (e1 * e2)) by ring.
    rewrite E, Rmult_1_r.
    apply Rlt_le_trans with ((IZR k + 1) * l2); [exact Hhi|].
    apply Rmult_le_compat_l; [lra|assumption].
Qed.

End ExpBoundFacts.

(** ** Bytes and struct.pack *)

Lemma land_255_byte (x : Z) : is_byte (Z.land x 0xFF).
Proof.
  unfold is_byte. change 0xFF%Z with (Z.ones 8).
  rewrite Z.land_ones by lia. apply Z.mod_pos_bound. reflexivity.
Qed.

Lemma lxor_byte (a b : Z) : is_byte a -> is_byte b -> is_byte (Z.lxor a b).
Proof.
  unfold is_byte. intros Ha Hb.
  assert (Hn : (0 <= Z.lxor a b)%Z) by (apply Z.lxor_nonneg; lia).
  split; [assumption|].
  destruct (Z.eq_dec (Z.lxor a b) 0) as [E|E]; [lia|].
  apply (Z.log2_lt_pow2 _ 8); [lia|].
  eapply Z.le_lt_trans; [apply Z.log2_lxor; lia|].
  apply Z.max_lub_lt.
  - destruct (Z.eq_dec a 0) as [->|]; [reflexivity|]. apply Z.log2_lt_pow2; lia.
  - destruct (Z.eq_dec b 0) as [->|]; [reflexivity|]. apply Z.log2_lt_pow2; lia.
Qed.

Lemma land_255_id (x : Z) : is_byte x -> Z.land x 0xFF = x.
Proof.
  intros Hx. change 0xFF%Z with (Z.ones 8).
  rewrite Z.land_ones by lia. apply Z.mod_small. exact Hx.
Qed.

Module StructFacts.
Import Struct.

Lemma le_bytes_length (n : nat) : forall v, List.length (le_bytes n v) = n.
Proof. induction n as [|n IH]; intros v; simpl; [reflexivity|]. now rewrite IH. Qed.

Lemma le_bytes_are_bytes (n : nat) : forall v, Forall is_byte (le_bytes n v).
Proof.
  induction n as [|n IH]; intros v; simpl; constructor.
  - apply Z.mod_pos_bound. reflexivity.
  - apply IH.
Qed.

(** Decoding the little-endian bytes of an in-range value gives it back. *)
Lemma le_value_le_bytes (n : nat) : forall v,
  (0 <= v < 256 ^ Z.of_nat n)%Z -> le_value (le_bytes n v) = v.
Proof.
  induction n as [|n IH]; intros v Hv.
  - simpl in *. lia.
  - cbn [le_bytes le_value]. rewrite IH.
    + pose proof (Z.div_mod v 256). lia.
    + rewrite Nat2Z.inj_succ, Z.pow_succ_r in Hv by lia.
      split; [apply Z.div_pos; lia|].
      apply Z.div_lt_upper_bound; lia.
Qed.

Lemma pack_uint_ok (n : nat) (v : Z) :
  (0 <= v < 256 ^ Z.of_nat n)%Z -> pack_uint n v = Returned (le_bytes n v).
Proof.
  intros [H1 H2]. unfold pack_uint.
  apply Z.leb_le in H1. apply Z.ltb_lt in H2. now rewrite H1, H2.
Qed.

Lemma pack_fields_ok (n : nat) (vs : list Z) :
  Forall (fun v => 0 <= v < 256 ^ Z.of_nat n)%Z vs ->
  pack_fields n vs = Returned (flat_map (le_bytes n) vs).
Proof.
  induction 1 as [|v vs Hv _ IH]; simpl; [reflexivity|].
  rewrite pack_uint_ok by assumption. simpl. now rewrite IH.
Qed.

Lemma pack_fields_inv (n : nat) (vs : list Z) (bs : list Z) :
  pack_fields n vs = Returned bs ->
  bs = flat_map (le_bytes n) vs /\ Forall (fun v => 0 <= v < 256 ^ Z.of_nat n)%Z vs.
Proof.
  revert bs. induction vs as [|v vs IH]; simpl; intros bs H.
  - inversion H. auto.
  - unfold pack_uint in H.
    destruct ((0 <=? v)%Z && (v <? 256 ^ Z.of_nat n)%Z) eqn:E; simpl in H; [|discriminate].
    destruct (pack_fields n vs) as [bs'|] eqn:E'; simpl in H; [|discriminate].
    inversion H; subst. destruct (IH _ eq_refl) as [-> HF].
    split; [reflexivity|]. constructor; [|assumption].
    apply andb_true_iff in E. destruct E as [E1 E2].
    apply Z.leb_le in E1. apply Z.ltb_lt in E2. lia.
Qed.

End StructFacts.

(** ** The header encoder *)

Lemma exp_nonpos_le_1 (x : R) : x <= 0 -> exp x <= 1.
Proof.
  intros [H | ->]; [|rewrite exp_0; lra].
  left. rewrite <- exp_0. now apply exp_increasing.
Qed.

Section HeaderFacts.

Variable self : OLE_TemporalVortex.

Lemma decay_range (layer : Z) :
  0 <= alpha self -> (0 <= layer)%Z ->
  0 < exp (- alpha self * IZR layer) <= 1.
Proof.
  intros Ha Hl. split; [apply exp_pos|].
  apply exp_nonpos_le_1. apply IZR_le in Hl.
  assert (0 <= alpha self * IZR layer) by (apply Rmult_le_pos; assumption).
  lra.
Qed.

Lemma scaled_decay_int_range (scale : Z) (layer : Z) :
  (0 <= scale)%Z -> 0 <= alpha self -> (0 <= layer)%Z ->
  (0 <= py_int (IZR scale * exp (- alpha self * IZR layer)) <= scale)%Z.
Proof.
  intros Hs Ha Hl. destruct (decay_range layer Ha Hl) as [H1 H2].
  apply IZR_le in Hs.
  assert (H0 : 0 <= IZR scale * exp (- alpha self * IZR layer))
    by (apply Rmult_le_pos; lra).
  split; [now apply py_int_nonneg|].
  apply le_IZR. eapply Rle_trans; [apply py_int_le; assumption|].
  rewrite <- (Rmult_1_r (IZR scale)) at 2.
  apply Rmult_le_compat_l; assumption.
Qed.

Lemma sector_fields_in_range (layer : Z) :
  (0 <= layer < 4294967296)%Z -> 0 <= alpha self -> alpha self * 1e6 < 4294967296 ->
  Forall (fun v => 0 <= v < 256 ^ Z.of_nat 4)%Z (sector_fields self layer).
Proof.
  intros Hl Ha Hf. change (256 ^ Z.of_nat 4)%Z with 4294967296%Z.
  pose proof (scaled_decay_int_range 4096 layer ltac:(lia) Ha ltac:(lia)) as Hts.
  change (IZR 4096) with 4096 in Hts.
  assert (Ha6 : (0 <= py_int (alpha self * 1e6) < 4294967296)%Z).
  { assert (0 <= alpha self * 1e6) by (apply Rmult_le_pos; lra).
    split; [now apply py_int_nonneg|].
    apply lt_IZR. eapply Rle_lt_trans; [now apply py_int_le|]. exact Hf. }
  unfold sector_fields.
  repeat apply Forall_cons; try apply Forall_nil; try lia.
  split; [apply Z.div_pos; lia|]. apply Z.div_lt_upper_bound; lia.
Qed.

(** The encoder returns the signature, the identifier, the four 16-bit
    fields and the ten 32-bit fields, each little-endian. *)
Lemma generate_vortex_ole_header_ok (layer : Z) :
  (0 <= layer < 4294967296)%Z -> 0 <= alpha self -> alpha self * 1e6 < 4294967296 ->
  generate_vortex_ole_header self layer = Returned (header_layout self layer).
Proof.
  intros Hl Ha Hf. unfold generate_vortex_ole_header.
  change (Struct.pack_B _) with (Returned clsid_bytes).
  change (Struct.pack_H _) with (Returned (flat_map (Struct.le_bytes 2) version_fields)).
  cbn [obind]. unfold Struct.pack_I.
  change [_; _; _; _; _; _; _; _; _; _]%Z with (sector_fields self layer).
  rewrite (StructFacts.pack_fields_ok 4 _ (sector_fields_in_range layer Hl Ha Hf)).
  cbn [obind]. unfold header_layout. rewrite <- !app_assoc. reflexivity.
Qed.

Lemma header_layout_length (layer : Z) :
  List.length (header_layout self layer) = header_size.
Proof. reflexivity. Qed.

Lemma header_layout_bytes (layer : Z) : Forall is_byte (header_layout self layer).
Proof.
  unfold header_layout.
  apply Forall_app; split.
  { unfold signature, is_byte. repeat (apply Forall_cons; [lia|]). apply Forall_nil. }
  apply Forall_app; split.
  { unfold clsid_bytes, is_byte. repeat (apply Forall_cons; [lia|]). apply Forall_nil. }
  apply Forall_app; split; apply Forall_flat_map, Forall_forall;
    intros ? _; apply StructFacts.le_bytes_are_bytes.
Qed.

End HeaderFacts.

(** ** The byte loop *)

Lemma for_each_app {A S} (xs ys : list A) (body : S -> A -> Outcome S) (s : S) :
  for_each (xs ++ ys) body s = s' <~ for_each xs body s ;; for_each ys body s'.
Proof.
  revert s. induction xs as [|x xs IH]; intros s; simpl; [reflexivity|].
  destruct (body s x); simpl; [apply IH|reflexivity].
Qed.

Lemma pattern_byte (layer i : Z) : is_byte (pattern layer i).
Proof. unfold pattern, is_byte. destruct (_ =? _)%Z; lia. Qed.

Lemma base_byte_byte (self : OLE_TemporalVortex) (layer i : Z) :
  is_byte (base_byte self layer i).
Proof. apply land_255_byte. Qed.

Lemma next_byte_byte (self : OLE_TemporalVortex) (layer : Z) (buf : list Z) (i : Z) :
  is_byte (next_byte self layer buf i).
Proof.
  unfold next_byte. apply lxor_byte; [|apply pattern_byte].
  destruct (0 <? i)%Z; [apply land_255_byte|apply base_byte_byte].
Qed.

(** An iteration reads the buffer at index [i - 1] only. *)
Lemma next_byte_app (self : OLE_TemporalVortex) (layer : Z) (buf more : list Z) (i : Z) :
  (i - 1 < Z.of_nat (List.length buf))%Z ->
  next_byte self layer (buf ++ more) i = next_byte self layer buf i.
Proof.
  intros Hi. unfold next_byte. destruct (0 <? i)%Z eqn:E; [|reflexivity].
  apply Z.ltb_lt in E. rewrite app_nth1 by lia. reflexivity.
Qed.

Section LoopFacts.

Variable self : OLE_TemporalVortex.
Hypothesis alpha_nonzero : alpha self <> 0.

Lemma ole_data_step_ok (layer : Z) (buf : list Z) (i : Z) :
  (0 <= i)%Z -> (i - 1 < Z.of_nat (List.length buf))%Z ->
  ole_data_step self layer buf i = Returned (buf ++ [next_byte self layer buf i]).
Proof.
  intros Hi Hlen. unfold ole_data_step, py_truediv.
  destruct (Req_dec_T (alpha self) 0) as [E|_]; [contradiction|]. cbn [obind].
  destruct (Req_dec_T (1 / alpha self) 0) as [E|_].
  { exfalso. unfold Rdiv in E. rewrite Rmult_1_l in E.
    revert E. now apply Rinv_neq_0_compat. }
  cbn [obind].
  pose proof (next_byte_byte self layer buf i) as Hb.
  unfold next_byte, base_byte, pattern in *.
  destruct (0 <? i)%Z eqn:E.
  - apply Z.ltb_lt in E. unfold getitem.
    rewrite (nth_error_nth' buf 0%Z) by lia. cbn [obind].
    unfold bytearray_append.
    destruct Hb as [H1 H2]. apply Z.leb_le in H1. apply Z.ltb_lt in H2.
    now rewrite H1, H2.
  - cbn [obind]. unfold bytearray_append.
    destruct Hb as [H1 H2]. apply Z.leb_le in H1. apply Z.ltb_lt in H2.
    now rewrite H1, H2.
Qed.

(** The loop over [range(n)] started on [hdr] returns [hdr] followed by
    [n] bytes, the byte of position [j] being the one iteration [j]
    computes from the buffer. *)
Lemma byte_loop_ok (layer : Z) (hdr : list Z) (n : nat) :
  exists ext,
    for_each (map Z.of_nat (seq 0 n)) (ole_data_step self layer) hdr
    = Returned (hdr ++ ext)
    /\ List.length ext = n
    /\ Forall is_byte ext
    /\ forall j, (j < n)%nat ->
         nth j ext 0%Z = next_byte self layer (hdr ++ ext) (Z.of_nat j).
Proof.
  induction n as [|n (ext & Hrun & Hlen & Hbytes & Hnth)].
  - exists []. rewrite app_nil_r. repeat split; [constructor|]. intros j Hj. lia.
  - exists (ext ++ [next_byte self layer (hdr ++ ext) (Z.of_nat n)]).
    rewrite seq_S, map_app, for_each_app, Hrun. cbn [obind map for_each Nat.add].
    rewrite ole_data_step_ok by (rewrite ?length_app; lia).
    cbn [obind]. rewrite <- app_assoc. repeat split.
    + rewrite length_app, Hlen. simpl. lia.
    + apply Forall_app. split; [assumption|].
      constructor; [apply next_byte_byte|constructor].
    + intros j Hj. rewrite app_assoc.
      rewrite (next_byte_app self layer (hdr ++ ext) _ (Z.of_nat j))
        by (rewrite length_app; lia).
      destruct (Nat.eq_dec j n) as [->|Hne].
      * rewrite app_nth2 by lia. rewrite Hlen, Nat.sub_diag. reflexivity.
      * rewrite app_nth1 by lia. apply Hnth. lia.
Qed.

End LoopFacts.

(** ** The layer builder and the clock *)

Section BuilderFacts.

Variable self : OLE_TemporalVortex.

(** The offset calculation raises exactly what [offset_guard] says,
    whatever the clock shows; when it returns it has read the clock once. *)
Lemma calculate_ole_temporal_offset_cases (layer : Z) (w : World) :
  match offset_guard self layer with
  | Raised e => calculate_ole_temporal_offset self layer w = (Raised e, w)
                \/ calculate_ole_temporal_offset self layer w = (Raised e, tick w)
  | Returned _ => exists off,
      calculate_ole_temporal_offset self layer w = (Returned off, tick w)
  end.
Proof.
  unfold offset_guard, calculate_ole_temporal_offset, bind, lift.
  destruct (0 <? layer)%Z.
  - destruct (py_truediv (2 * PI * IZR layer) (IZR (layers self))) as [q|e];
      cbn [obind]; [|now left].
    destruct (prime_window self layer) as [prime|e]; cbn [obind]; [|now left].
    unfold time_time, read_clock, py_mod. fold (tick w).
    destruct (Z.eqb_spec prime 0) as [E|E]; cbn [obind]; [now right|].
    unfold py_truediv. destruct (Req_dec_T (IZR prime) 0) as [E'|_].
    { exfalso. apply E. now apply eq_IZR_R0. }
    eexists. reflexivity.
  - cbn [obind].
    destruct (prime_window self layer) as [prime|e]; cbn [obind]; [|now left].
    unfold time_time, read_clock, py_mod. fold (tick w).
    destruct (Z.eqb_spec prime 0) as [E|E]; cbn [obind]; [now right|].
    unfold py_truediv. destruct (Req_dec_T (IZR prime) 0) as [E'|_].
    { exfalso. apply E. now apply eq_IZR_R0. }
    eexists. reflexivity.
Qed.

(** The builder raises exactly what [layer_bytes] raises; when it returns,
    its [data] are the bytes [layer_bytes] gives and the checksum is their
    digest, and the clock was read twice. *)
Lemma create_temporal_ole_object_cases (layer : Z) (w : World) :
  match layer_bytes self layer with
  | Raised e => exists n,
      create_temporal_ole_object self layer w = (Raised e, Nat.iter n tick w)
  | Returned d => exists o,
      create_temporal_ole_object self layer w = (Returned o, tick (tick w))
      /\ ole_data o = d
      /\ ole_checksum o = SHA256.hexdigest d
      /\ ole_size o = object_size self layer
      /\ ole_energy_level o = exp (- alpha self * IZR layer)
      /\ calculate_ole_temporal_offset self layer w
         = (Returned (ole_temporal_offset o), tick w)
  end.
Proof.
  pose proof (calculate_ole_temporal_offset_cases layer w) as Hc.
  unfold layer_bytes, create_temporal_ole_object, bind.
  destruct (offset_guard self layer) as [[]|e]; cbn [obind].
  - destruct Hc as [off Hoff]. rewrite Hoff.
    unfold datetime_now, read_clock, lift. fold (tick (tick w)).
    cbn [app].
    destruct (generate_vortex_ole_header self layer) as [h|e]; cbn [obind].
    + destruct (for_each _ _ h) as [d|e].
      * eexists. split; [reflexivity|]. cbn. repeat split; reflexivity || exact Hoff.
      * exists 2%nat. reflexivity.
    + exists 2%nat. reflexivity.
  - destruct Hc as [-> | ->]; [exists 0%nat|exists 1%nat]; reflexivity.
Qed.

Hypothesis wc : well_configured self.

Lemma prime_window_ok (layer : Z) :
  exists p, prime_window self layer = Returned p /\ p <> 0%Z.
Proof.
  destruct wc as [_ _ _ Hne Hnz]. unfold prime_window, py_mod.
  destruct (prime_windows self) as [|p0 ps] eqn:E; [congruence|]. rewrite <- E in *.
  assert (Hlen : (0 < Z.of_nat (List.length (prime_windows self)))%Z)
    by (rewrite E; simpl; lia).
  destruct (Z.eqb_spec (Z.of_nat (List.length (prime_windows self))) 0); [lia|].
  cbn [obind]. unfold getitem.
  pose proof (Z.mod_pos_bound layer _ Hlen) as Hm.
  rewrite (nth_error_nth' (prime_windows self) 0%Z) by lia.
  eexists. split; [reflexivity|].
  rewrite Forall_forall in Hnz. apply Hnz. apply nth_In. lia.
Qed.

Lemma offset_guard_ok (layer : Z) : offset_guard self layer = Returned tt.
Proof.
  unfold offset_guard.
  assert (G : (if (0 <? layer)%Z
               then _ <~ py_truediv (2 * PI * IZR layer) (IZR (layers self)) ;; Returned tt
               else Returned tt) = Returned tt).
  { destruct (0 <? layer)%Z; [|reflexivity]. unfold py_truediv.
    destruct (Req_dec_T (IZR (layers self)) 0) as [E|_]; [|reflexivity].
    exfalso. apply (wc_layers self wc). now apply eq_IZR_R0. }
  rewrite G. cbn [obind].
  destruct (prime_window_ok layer) as (p & -> & Hp). cbn [obind].
  unfold py_mod. destruct (Z.eqb_spec p 0); [contradiction|]. reflexivity.
Qed.

(** Under a good configuration the bytes of a layer are its header
    followed by [object_size] bytes, each computed by its iteration from
    the whole buffer. *)
Lemma layer_bytes_ok (layer : Z) :
  (0 <= layer < 4294967296)%Z ->
  exists payload,
    layer_bytes self layer = Returned (header_layout self layer ++ payload)
    /\ Z.of_nat (List.length payload) = object_size self layer
    /\ Forall is_byte payload
    /\ forall j, (j < List.length payload)%nat ->
         nth j payload 0%Z
         = next_byte self layer (header_layout self layer ++ payload) (Z.of_nat j).
Proof.
  intros Hl. destruct wc as [Hpos Hfit _ _ _].
  assert (Hnz : alpha self <> 0) by lra.
  unfold layer_bytes. rewrite offset_guard_ok. cbn [obind].
  rewrite generate_vortex_ole_header_ok by (try assumption; lra). cbn [obind].
  destruct (byte_loop_ok self Hnz layer (header_layout self layer)
              (Z.to_nat (object_size self layer)))
    as (ext & Hrun & Hlen & Hbytes & Hnth).
  exists ext. unfold range. rewrite Hrun. repeat split.
  - rewrite Hlen. apply Z2Nat.id.
    pose proof (scaled_decay_int_range self 1024 layer ltac:(lia) ltac:(lra) ltac:(lia)).
    unfold object_size. lia.
  - assumption.
  - intros j Hj. apply Hnth. lia.
Qed.

End BuilderFacts.

(** ** The configuration the constructor sets up *)

Lemma init_alpha (f : string) : alpha (__init__ f) = 0.0302011.
Proof. reflexivity. Qed.

Lemma init_well_configured (f : string) : well_configured (__init__ f).
Proof.
  constructor.
  - rewrite init_alpha. lra.
  - rewrite init_alpha. lra.
  - discriminate.
  - discriminate.
  - cbn [prime_windows __init__]. repeat (constructor; [discriminate|]). constructor.
Qed.

Lemma init_alpha_micro (f : string) : py_int (alpha (__init__ f) * 1e6) = 30201%Z.
Proof. rewrite init_alpha. apply py_int_unique; [lia|]. lra. Qed.

Lemma init_object_size_0 (f : string) : object_size (__init__ f) 0 = 1024%Z.
Proof.
  unfold object_size. rewrite Rmult_0_r, exp_0, Rmult_1_r. apply py_int_IZR.
Qed.

Lemma init_object_size_5 (f : string) : object_size (__init__ f) 5 = 880%Z.
Proof.
  unfold object_size. rewrite init_alpha.
  replace (- (0.0302011) * 5) with (IZR (-1510055) / IZR 10000000) by lra.
  apply (ExpBoundFacts.floor_check_sound 20). vm_compute. reflexivity.
Qed.

Lemma init_base_byte_0_0 (f : string) : base_byte (__init__ f) 0 0 = 255%Z.
Proof.
  unfold base_byte.
  replace (- alpha (__init__ f) * (0 + 0 / 100)) with 0 by (unfold Rdiv; ring).
  rewrite exp_0, Rmult_1_r, py_int_IZR. reflexivity.
Qed.

Lemma init_base_byte_0_1 (f : string) : base_byte (__init__ f) 0 1 = 254%Z.
Proof.
  unfold base_byte. rewrite init_alpha.
  replace (- (0.0302011) * (0 + 1 / 100)) with (IZR (-302011) / IZR 1000000000) by lra.
  rewrite (ExpBoundFacts.floor_check_sound 20 255 _ _ 254) by (vm_compute; reflexivity).
  reflexivity.
Qed.

Module StructRoundTrip.
Import Struct.

(** Decoding what the packer laid down gives the fields back. *)
Lemma unpack_le_flat_map (width : nat) (vs : list Z) (rest : list Z) :
  Forall (fun v => 0 <= v < 256 ^ Z.of_nat width)%Z vs ->
  unpack_le width (List.length vs) (flat_map (le_bytes width) vs ++ rest) = vs.
Proof.
  induction 1 as [|v vs Hv _ IH]; [reflexivity|].
  cbn [flat_map List.length unpack_le]. rewrite <- app_assoc.
  rewrite firstn_app, StructFacts.le_bytes_length, Nat.sub_diag, firstn_O, app_nil_r.
  rewrite firstn_all2 by (rewrite StructFacts.le_bytes_length; lia).
  rewrite skipn_app, StructFacts.le_bytes_length, Nat.sub_diag.
  rewrite skipn_all2 by (rewrite StructFacts.le_bytes_length; lia).
  cbn [skipn app]. rewrite IH. f_equal.
  now apply StructFacts.le_value_le_bytes.
Qed.

Lemma pack_fields_raises (n : nat) (vs : list Z) (e : exn) :
  pack_fields n vs = Raised e -> exn_cls e = StructError.
Proof.
  induction vs as [|v vs IH]; simpl; [discriminate|].
  unfold pack_uint. destruct (_ && _); cbn [obind].
  - destruct (pack_fields n vs); cbn [obind]; [discriminate|].
    intros H. inversion H; subst. now apply IH.
  - intros H. now inversion H.
Qed.

(** The first field out of range decides the text: a negative ['I'] field
    after fields that fit gives "argument out of range". *)
Lemma pack_fields_negative (pre post : list Z) (bad : Z) :
  Forall (fun v => 0 <= v < 256 ^ Z.of_nat 4)%Z pre ->
  (bad < 0)%Z ->
  pack_fields 4 (pre ++ bad :: post)
  = Raised (Exn StructError "argument out of range").
Proof.
  intros Hpre Hbad. induction Hpre as [|v pre Hv _ IH].
  - cbn [app pack_fields]. unfold pack_uint, range_error.
    destruct (Z.leb_spec 0 bad) as [H|_]; [lia|]. reflexivity.
  - cbn [app pack_fields]. rewrite StructFacts.pack_uint_ok by assumption.
    cbn [obind]. rewrite IH. reflexivity.
Qed.

End StructRoundTrip.

(** ** The header (claim C3) *)

(** C3, as the code has it. The encoder reads [alpha] from the object,
    where the constructor fixed it at 0.0302011. For a layer index in
    [0, 2^32) it returns a byte sequence of exactly 72 bytes: the 8-byte
    signature, the 16-byte identifier, four 16-bit fields and ten 32-bit
    fields, every field laid down little-endian. The first 32-bit field is
    [floor (4096 * exp (- alpha * layer))], the eighth its half, the ninth
    the layer index and the tenth 30201, [alpha] in millionths. *)
Theorem header_is_72_bytes_little_endian (f : string) (layer : Z) :
  (0 <= layer < 4294967296)%Z ->
  exists h,
    generate_vortex_ole_header (__init__ f) layer = Returned h
    /\ List.length h = 72%nat
    /\ Forall is_byte h
    /\ firstn 8 h = signature
    /\ firstn 16 (skipn 8 h) = clsid_bytes
    /\ Struct.unpack_le 2 4 (skipn 24 h) = [0x003E; 0x0003; 0xFFFE; 0x0009]%Z
    /\ Struct.unpack_le 4 10 (skipn 32 h)
       = (let total_sectors := Int_part (4096 * exp (- (0.0302011) * IZR layer)) in
          [total_sectors; 0; 0; 0x1000; 0xFFFFFFFE; 0xFFFFFFFF; 0x1000;
           total_sectors / 2; layer; 30201])%Z
    /\ h = signature ++ clsid_bytes
           ++ flat_map (Struct.le_bytes 2) [0x003E; 0x0003; 0xFFFE; 0x0009]%Z
           ++ flat_map (Struct.le_bytes 4)
                (let total_sectors := Int_part (4096 * exp (- (0.0302011) * IZR layer)) in
                 [total_sectors; 0; 0; 0x1000; 0xFFFFFFFE; 0xFFFFFFFF; 0x1000;
                  total_sectors / 2; layer; 30201])%Z.
Proof.
  intros Hl.
  assert (Ha : 0 <= alpha (__init__ f)) by (rewrite init_alpha; lra).
  assert (Hf : alpha (__init__ f) * 1e6 < 4294967296) by (rewrite init_alpha; lra).
  assert (Hs : sector_fields (__init__ f) layer
               = (let total_sectors := Int_part (4096 * exp (- (0.0302011) * IZR layer)) in
                  [total_sectors; 0; 0; 0x1000; 0xFFFFFFFE; 0xFFFFFFFF; 0x1000;
                   total_sectors / 2; layer; 30201])%Z).
  { unfold sector_fields. cbv zeta. rewrite init_alpha_micro, init_alpha.
    rewrite py_int_floor; [reflexivity|].
    apply Rmult_le_pos; [lra|]. left. apply exp_pos. }
  exists (header_layout (__init__ f) layer).
  split; [now apply generate_vortex_ole_header_ok|].
  split; [reflexivity|].
  split; [apply header_layout_bytes|].
  split; [reflexivity|]. split; [reflexivity|]. split; [reflexivity|].
  split.
  - change (skipn 32 (header_layout (__init__ f) layer))
      with (flat_map (Struct.le_bytes 4) (sector_fields (__init__ f) layer)).
    pose proof (StructRoundTrip.unpack_le_flat_map 4 (sector_fields (__init__ f) layer) []
                  (sector_fields_in_range (__init__ f) layer Hl Ha Hf)) as U.
    rewrite app_nil_r in U.
    change (List.length (sector_fields (__init__ f) layer)) with 10%nat in U.
    rewrite U. exact Hs.
  - unfold header_layout. rewrite Hs. reflexivity.
Qed.

Lemma header_is_72_bytes_little_endian_witness :
  exists h,
    generate_vortex_ole_header (__init__ "m.docx") 0 = Returned h
    /\ List.length h = 72%nat
    /\ Forall is_byte h.
Proof.
  destruct (header_is_72_bytes_little_endian "m.docx" 0)
    as (h & H1 & H2 & H3 & _).
  - lia.
  - exists h. repeat split; assumption.
Defined.

Lemma header_raises_on (self : OLE_TemporalVortex) (layer : Z) (pre post : list Z) (bad : Z) :
  sector_fields self layer = pre ++ bad :: post ->
  Forall (fun v => 0 <= v < 256 ^ Z.of_nat 4)%Z pre ->
  (bad < 0)%Z ->
  generate_vortex_ole_header self layer
  = Raised (Exn StructError "argument out of range").
Proof.
  intros Hsplit Hpre Hbad. unfold generate_vortex_ole_header.
  change (Struct.pack_B _) with (Returned clsid_bytes).
  change (Struct.pack_H _) with (Returned (flat_map (Struct.le_bytes 2) version_fields)).
  cbn [obind]. unfold Struct.pack_I.
  change [_; _; _; _; _; _; _; _; _; _]%Z with (sector_fields self layer).
  rewrite Hsplit, (StructRoundTrip.pack_fields_negative pre post bad Hpre Hbad).
  reflexivity.
Qed.

Lemma init_sector_count_minus_1 (f : string) :
  py_int (4096 * exp (- alpha (__init__ f) * IZR (-1))) = 4221%Z.
Proof.
  rewrite init_alpha.
  replace (- (0.0302011) * IZR (-1)) with (IZR 302011 / IZR 10000000) by lra.
  apply (ExpBoundFacts.floor_check_sound 20). vm_compute. reflexivity.
Qed.

(** The header of layer 0 has 72 bytes, not 44; and a negative layer
    index, or a negative [alpha], makes [struct.pack] raise. *)
Lemma header_is_not_44_bytes :
  ~ (exists h, generate_vortex_ole_header (__init__ "m.docx") 0 = Returned h
               /\ List.length h = 44%nat)
  /\ generate_vortex_ole_header (__init__ "m.docx") (-1)
     = Raised (Exn StructError "argument out of range")
  /\ generate_vortex_ole_header (set_alpha (__init__ "m.docx") (-1)) 0
     = Raised (Exn StructError "argument out of range").
Proof.
  split; [|split].
  - intros (h & H1 & H2).
    rewrite generate_vortex_ole_header_ok in H1
      by (rewrite ?init_alpha; try lia; lra).
    inversion H1; subst h. discriminate H2.
  - apply (header_raises_on _ _
             [4221; 0; 0; 0x1000; 0xFFFFFFFE; 0xFFFFFFFF; 0x1000; 4221 / 2]%Z
             [py_int (alpha (__init__ "m.docx") * 1e6)] (-1)%Z); [| |lia].
    + unfold sector_fields. rewrite init_sector_count_minus_1. reflexivity.
    + repeat apply Forall_cons; try apply Forall_nil; cbn; lia.
  - apply (header_raises_on _ _
             [4096; 0; 0; 0x1000; 0xFFFFFFFE; 0xFFFFFFFF; 0x1000; 4096 / 2; 0]%Z
             [] (-1000000)%Z); [| |lia].
    + unfold sector_fields.
      change (alpha (set_alpha (__init__ "m.docx") (-1))) with (-1).
      replace (- -1 * 0) with 0 by lra. rewrite exp_0, Rmult_1_r.
      replace (-1 * 1e6) with (IZR (-1000000)) by lra.
      change 4096 with (IZR 4096). rewrite !py_int_IZR. reflexivity.
    + repeat apply Forall_cons; try apply Forall_nil; cbn; lia.
Qed.

(** ** The layer object *)

(** What the builder returns under a good configuration: an object whose
    [data] are the 72 header bytes followed by [size] loop bytes. *)
Lemma create_temporal_ole_object_ok (self : OLE_TemporalVortex) (layer : Z) (w : World) :
  well_configured self ->
  (0 <= layer < 4294967296)%Z ->
  exists o payload,
    create_temporal_ole_object self layer w = (Returned o, tick (tick w))
    /\ ole_data o = header_layout self layer ++ payload
    /\ Z.of_nat (List.length payload) = ole_size o
    /\ ole_size o = object_size self layer
    /\ ole_energy_level o = exp (- alpha self * IZR layer)
    /\ ole_checksum o = SHA256.hexdigest (ole_data o)
    /\ Forall is_byte payload
    /\ forall j, (j < List.length payload)%nat ->
         nth j payload 0%Z = next_byte self layer (ole_data o) (Z.of_nat j).
Proof.
  intros Hwc Hl.
  destruct (layer_bytes_ok self Hwc layer Hl) as (payload & Hb & Hlen & Hbytes & Hnth).
  pose proof (create_temporal_ole_object_cases self layer w) as Hc.
  rewrite Hb in Hc. destruct Hc as (o & Hrun & Hd & Hck & Hsz & Hen & _).
  exists o, payload. rewrite Hd, Hsz, Hck.
  repeat split; assumption.
Qed.

(** The byte at position [p] of the loop's output is its decayed value
    XOR the byte at index [p - 1] of the object buffer, XOR the mask. *)
Lemma byte_recurrence (self : OLE_TemporalVortex) (layer : Z) (w : World) (p : Z) :
  well_configured self ->
  (0 <= layer < 4294967296)%Z ->
  (0 < p < object_size self layer)%Z ->
  exists o,
    fst (create_temporal_ole_object self layer w) = Returned o
    /\ nth (header_size + Z.to_nat p) (ole_data o) 0%Z
       = Z.lxor (Z.lxor (base_byte self layer p) (nth (Z.to_nat (p - 1)) (ole_data o) 0%Z))
                (pattern layer p).
Proof.
  intros Hwc Hl Hp.
  destruct (create_temporal_ole_object_ok self layer w Hwc Hl)
    as (o & payload & Hrun & Hd & Hlen & Hsz & _ & _ & Hbytes & Hnth).
  exists o. rewrite Hrun. split; [reflexivity|].
  pose proof (header_layout_bytes self layer) as Hhb.
  assert (Hall : Forall is_byte (ole_data o)).
  { rewrite Hd. apply Forall_app. split; assumption. }
  rewrite Hd at 1.
  rewrite app_nth2 by (rewrite header_layout_length; lia).
  rewrite header_layout_length.
  replace (header_size + Z.to_nat p - header_size)%nat with (Z.to_nat p) by lia.
  rewrite Hnth by lia. rewrite Z2Nat.id by lia.
  unfold next_byte. destruct (Z.ltb_spec 0 p) as [_|]; [|lia].
  rewrite land_255_id.
  - now rewrite (Z.lxor_comm (base_byte self layer p)).
  - apply lxor_byte; [|apply base_byte_byte].
    rewrite Forall_forall in Hall. apply Hall. apply nth_In.
    rewrite Hd, length_app, header_layout_length. lia.
Qed.

(** ** Byte counts (claim C9) *)




(** ** The first bytes of layer 0 (claims C10 and C1) *)

(** C10. For the constructor's configuration and layer 0 the builder
    returns an object of 1024 payload bytes and energy 1 whose first
    synthesized byte, the one after the header, is 255 XOR 0xAA = 0x55. *)
Theorem layer_0_first_byte (f : string) (w : World) :
  exists o,
    fst (create_temporal_ole_object (__init__ f) 0 w) = Returned o
    /\ ole_size o = 1024%Z
    /\ ole_energy_level o = 1
    /\ List.length (ole_data o) = (header_size + 1024)%nat
    /\ nth header_size (ole_data o) 0%Z = Z.lxor (Int_part (255 * 1)) 0xAA
    /\ nth header_size (ole_data o) 0%Z = 0x55%Z.
Proof.
  destruct (create_temporal_ole_object_ok (__init__ f) 0 w (init_well_configured f))
    as (o & payload & Hrun & Hd & Hlen & Hsz & Hen & _ & _ & Hnth); [lia|].
  rewrite init_object_size_0 in Hsz. rewrite Hsz in Hlen.
  exists o. rewrite Hrun. split; [reflexivity|]. split; [assumption|].
  split; [rewrite Hen, Rmult_0_r; apply exp_0|].
  split; [rewrite Hd, length_app, header_layout_length; lia|].
  assert (B : nth header_size (ole_data o) 0%Z = 0x55%Z).
  { rewrite Hd at 1. rewrite app_nth2 by (rewrite header_layout_length; lia).
    rewrite header_layout_length, Nat.sub_diag, (Hnth 0%nat) by lia.
    unfold next_byte. cbn [Z.of_nat Z.ltb Z.compare].
    rewrite init_base_byte_0_0. reflexivity. }
  split; [|exact B]. rewrite B.
  rewrite Rmult_1_r, <- py_int_floor, py_int_IZR by lra. reflexivity.
Qed.

(** C1, evaluated on the code at layer 0, position 1. The byte the loop
    appends is [254 XOR 0xD0 XOR 0x55 = 0x7B]: it is fed by index 0 of the
    buffer, the first signature byte, and not by the preceding synthesized
    byte [0x55], which would give [254 XOR 0x55 XOR 0x55 = 0xFE]. *)
Theorem feedback_at_position_1_reads_the_header (f : string) (w : World) :
  exists o,
    fst (create_temporal_ole_object (__init__ f) 0 w) = Returned o
    /\ base_byte (__init__ f) 0 1 = 254%Z
    /\ nth 0 (ole_data o) 0%Z = 0xD0%Z
    /\ nth header_size (ole_data o) 0%Z = 0x55%Z
    /\ nth (header_size + 1) (ole_data o) 0%Z = 0x7B%Z
    /\ Z.lxor (Z.lxor (base_byte (__init__ f) 0 1) (nth header_size (ole_data o) 0%Z))
              (pattern 0 1) = 0xFE%Z.
Proof.
  destruct (create_temporal_ole_object_ok (__init__ f) 0 w (init_well_configured f))
    as (o & payload & Hrun & Hd & Hlen & Hsz & Hen & _ & _ & Hnth); [lia|].
  rewrite init_object_size_0 in Hsz. rewrite Hsz in Hlen.
  exists o. rewrite Hrun. split; [reflexivity|].
  split; [apply init_base_byte_0_1|].
  assert (B0 : nth 0 (ole_data o) 0%Z = 0xD0%Z) by (rewrite Hd; reflexivity).
  assert (B72 : nth header_size (ole_data o) 0%Z = 0x55%Z).
  { rewrite Hd at 1. rewrite app_nth2 by (rewrite header_layout_length; lia).
    rewrite header_layout_length, Nat.sub_diag, (Hnth 0%nat) by lia.
    unfold next_byte. cbn [Z.of_nat Z.ltb Z.compare].
    rewrite init_base_byte_0_0. reflexivity. }
  split; [exact B0|]. split; [exact B72|]. split.
  - rewrite Hd at 1. rewrite app_nth2 by (rewrite header_layout_length; lia).
    rewrite header_layout_length.
    replace (header_size + 1 - header_size)%nat with 1%nat by lia.
    rewrite (Hnth 1%nat) by lia.
    unfold next_byte. change (Z.of_nat 1) with 1%Z.
    cbn [Z.ltb Z.compare Z.sub Z.add Z.opp Z.pos_sub Z.to_nat].
    rewrite B0, init_base_byte_0_1. reflexivity.
  - rewrite B72, init_base_byte_0_1. reflexivity.
Qed.

(** ** The integrity digest (claim C4) *)

(** C4, as the code has it. The checksum is the SHA-256 of the whole
    object buffer, the 72-byte header followed by the payload; for an
    empty payload it is the digest of the header alone. *)
Theorem digest_covers_header_and_payload
  (self : OLE_TemporalVortex) (layer : Z) (w : World) :
  well_configured self ->
  (0 <= layer < 4294967296)%Z ->
  exists o h payload,
    fst (create_temporal_ole_object self layer w) = Returned o
    /\ generate_vortex_ole_header self layer = Returned h
    /\ List.length h = 72%nat
    /\ Z.of_nat (List.length payload) = ole_size o
    /\ ole_data o = h ++ payload
    /\ ole_checksum o = SHA256.hexdigest (h ++ payload)
    /\ (ole_size o = 0%Z -> ole_checksum o = SHA256.hexdigest h).
Proof.
  intros Hwc Hl.
  destruct (create_temporal_ole_object_ok self layer w Hwc Hl)
    as (o & payload & Hrun & Hd & Hlen & _ & _ & Hck & _ & _).
  exists o, (header_layout self layer), payload. rewrite Hrun.
  split; [reflexivity|].
  split. { destruct Hwc. apply generate_vortex_ole_header_ok; [assumption|lra|assumption]. }
  split; [apply header_layout_length|]. split; [assumption|].
  split; [assumption|]. split; [now rewrite Hck, Hd|].
  intros Hz. rewrite Hck, Hd. rewrite Hz in Hlen.
  destruct payload; [now rewrite app_nil_r|discriminate].
Qed.

Lemma digest_covers_header_and_payload_witness :
  exists o h payload,
    fst (create_temporal_ole_object (__init__ "m.docx") 0 quiet_world) = Returned o
    /\ List.length h = 72%nat
    /\ ole_checksum o = SHA256.hexdigest (h ++ payload).
Proof.
  destruct (digest_covers_header_and_payload (__init__ "m.docx") 0 quiet_world)
    as (o & h & payload & H1 & _ & H3 & _ & _ & H6 & _).
  - apply init_well_configured.
  - lia.
  - exists o, h, payload. repeat split; assumption.
Defined.

Lemma init_object_size_230 (f : string) : object_size (__init__ f) 230 = 0%Z.
Proof.
  unfold object_size. rewrite init_alpha.
  replace (- (0.0302011) * 230) with (IZR (-69462530) / IZR 10000000) by lra.
  apply (ExpBoundFacts.floor_check_sound 20). vm_compute. reflexivity.
Qed.

Lemma init_sector_fields_230 (f : string) :
  sector_fields (__init__ f) 230
  = [3; 0; 0; 0x1000; 0xFFFFFFFE; 0xFFFFFFFF; 0x1000; 1; 230; 30201]%Z.
Proof.
  unfold sector_fields. rewrite init_alpha_micro, init_alpha.
  replace (- (0.0302011) * 230) with (IZR (-69462530) / IZR 10000000) by lra.
  rewrite (ExpBoundFacts.floor_check_sound 20 4096 _ _ 3) by (vm_compute; reflexivity).
  reflexivity.
Qed.

(** At layer 230 the payload is empty, and the checksum is the digest of
    the 72 header bytes, not the digest of the empty byte sequence. *)
Lemma digest_of_empty_payload_is_not_digest_of_nothing :
  exists o,
    fst (create_temporal_ole_object (__init__ "m.docx") 230 quiet_world) = Returned o
    /\ ole_size o = 0%Z
    /\ List.length (ole_data o) = 72%nat
    /\ ole_checksum o
       = "e3c7e5cbcb92f1708d233c1505236312afdbe2150294963e2a114ffb9c1fab53"%string
    /\ ole_checksum o <> SHA256.hexdigest [].
Proof.
  destruct (create_temporal_ole_object_ok (__init__ "m.docx") 230 quiet_world
              (init_well_configured _))
    as (o & payload & Hrun & Hd & Hlen & Hsz & _ & Hck & _ & _); [lia|].
  rewrite init_object_size_230 in Hsz. rewrite Hsz in Hlen.
  destruct payload; [|discriminate]. rewrite app_nil_r in Hd.
  unfold header_layout in Hd. rewrite init_sector_fields_230 in Hd.
  exists o. rewrite Hrun. split; [reflexivity|]. split; [assumption|].
  rewrite Hck, Hd. split; [reflexivity|].
  split; [vm_compute; reflexivity|].
  vm_compute. discriminate.
Qed.

(** ** The wall clock (claim C8) *)

Lemma create_bytes_of (self : OLE_TemporalVortex) (layer : Z) (w : World) :
  omap bytes_of (fst (create_temporal_ole_object self layer w))
  = omap (fun d => (d, SHA256.hexdigest d, object_size self layer))
         (layer_bytes self layer).
Proof.
  pose proof (create_temporal_ole_object_cases self layer w) as Hc.
  destruct (layer_bytes self layer) as [d|e].
  - destruct Hc as (o & -> & Hd & Hck & Hsz & _). cbn [fst omap].
    unfold bytes_of. now rewrite Hd, Hck, Hsz.
  - destruct Hc as (n & ->). reflexivity.
Qed.

Lemma create_static_fields
  (self : OLE_TemporalVortex) (layer : Z) (w : World) (o : OleObject) :
  fst (create_temporal_ole_object self layer w) = Returned o ->
  ole_clsid o = clsid_vortex self
  /\ ole_progid o = (progid_prefix self ++ ".Layer" ++ str_int layer
                     ++ ".Alpha" ++ str_int (py_int (alpha self * 1e6)))%string
  /\ ole_size o = object_size self layer
  /\ ole_energy_level o = exp (- alpha self * IZR layer)
  /\ ole_layer o = layer
  /\ ole_alpha o = alpha self
  /\ ole_checksum o = SHA256.hexdigest (ole_data o)
  /\ layer_bytes self layer = Returned (ole_data o).
Proof.
  pose proof (create_temporal_ole_object_cases self layer w) as C.
  unfold create_temporal_ole_object, bind in *.
  destruct (calculate_ole_temporal_offset self layer w) as [[off|e] w1];
    [|discriminate].
  unfold datetime_now, read_clock, lift in *.
  destruct (layer_bytes self layer) as [d|e] eqn:L.
  - destruct C as (o' & C & D & _). intros H. rewrite C in H. cbn [fst] in H.
    injection H as <-. rewrite <- D.
    unfold layer_bytes in L.
    destruct (generate_vortex_ole_header self layer) as [h|e];
      [|destruct (offset_guard self layer); discriminate].
    cbn [app] in C.
    destruct (for_each _ _ h) as [d'|e];
      [|destruct (offset_guard self layer); discriminate].
    injection C as <- _. cbn. repeat split; reflexivity.
  - destruct C as (n & C). rewrite C. discriminate.
Qed.

Lemma ticks_iter (n : nat) (w : World) : ticks (Nat.iter n tick w) = (n + ticks w)%nat.
Proof.
  induction n as [|n IH]; [reflexivity|].
  change (Nat.iter (S n) tick w) with (tick (Nat.iter n tick w)).
  unfold tick at 1. cbn [ticks]. now rewrite IH.
Qed.

Lemma create_world (self : OLE_TemporalVortex) (layer : Z) (w : World) :
  exists n, (n <= 2)%nat
    /\ snd (create_temporal_ole_object self layer w) = Nat.iter n tick w
    /\ forall o, fst (create_temporal_ole_object self layer w) = Returned o ->
         n = 2%nat /\ ole_timestamp o = clock w (S (ticks w)).
Proof.
  pose proof (calculate_ole_temporal_offset_cases self layer w) as Hc.
  unfold create_temporal_ole_object, bind.
  destruct (offset_guard self layer) as [[]|e].
  - destruct Hc as [off ->]. unfold datetime_now, read_clock, lift.
    fold (tick (tick w)). exists 2%nat. split; [lia|].
    destruct (generate_vortex_ole_header self layer) as [h|e].
    + cbn [app]. destruct (for_each _ _ h) as [d|e]; (split; [reflexivity|]).
      * intros o H. injection H as <-. split; reflexivity.
      * discriminate.
    + split; [reflexivity|discriminate].
  - destruct Hc as [-> | ->]; [exists 0%nat|exists 1%nat];
      (split; [lia|]); (split; [reflexivity|discriminate]).
Qed.

Lemma create_clock_free_part (self : OLE_TemporalVortex) (layer : Z) (w : World) :
  omap clock_free_part (fst (create_temporal_ole_object self layer w))
  = omap (fun d => (clsid_vortex self,
                    (progid_prefix self ++ ".Layer" ++ str_int layer
                     ++ ".Alpha" ++ str_int (py_int (alpha self * 1e6)))%string,
                    object_size self layer,
                    exp (- alpha self * IZR layer),
                    layer,
                    alpha self,
                    d,
                    SHA256.hexdigest d))
         (layer_bytes self layer).
Proof.
  pose proof (create_temporal_ole_object_cases self layer w) as Hc.
  destruct (layer_bytes self layer) as [d|e] eqn:L.
  - destruct Hc as (o & Hrun & Hd & _).
    assert (H : fst (create_temporal_ole_object self layer w) = Returned o)
      by (rewrite Hrun; reflexivity).
    destruct (create_static_fields self layer w o H)
      as (F1 & F2 & F3 & F4 & F5 & F6 & F7 & _).
    rewrite H. cbn [omap]. unfold clock_free_part.
    rewrite F1, F2, F3, F4, F5, F6, F7, Hd. reflexivity.
  - destruct Hc as (n & ->). reflexivity.
Qed.

(** C8, as the code has it. The clock reaches two keys of a layer
    object, ['temporal_offset'] and ['timestamp'], and nothing else:
    whatever the clock shows and however often it was read before, a
    configuration and a layer index determine the outcome of the builder
    up to these two keys. Two runs raise the same exception, or return
    objects with the same data (header and payload bytes), checksum, size,
    identifiers, energy level, layer and alpha. The header encoder does not
    take the world at all. *)
Theorem clock_reaches_only_offset_and_timestamp
  (self : OLE_TemporalVortex) (layer : Z) (w1 w2 : World) :
  omap clock_free_part (fst (create_temporal_ole_object self layer w1))
  = omap clock_free_part (fst (create_temporal_ole_object self layer w2))
  /\ forall o,
       fst (create_temporal_ole_object self layer w1) = Returned o ->
       calculate_ole_temporal_offset self layer w1
       = (Returned (ole_temporal_offset o), tick w1)
       /\ ole_timestamp o = clock w1 (S (ticks w1)).
Proof.
  split; [now rewrite !create_clock_free_part|].
  intros o H.
  destruct (create_world self layer w1) as (n & _ & _ & T).
  split; [|now apply T].
  pose proof (create_temporal_ole_object_cases self layer w1) as Hc.
  destruct (layer_bytes self layer) as [d|e].
  - destruct Hc as (o' & Hrun & _ & _ & _ & _ & Hoff).
    rewrite Hrun in H. injection H as <-. exact Hoff.
  - destruct Hc as (k & Hrun). rewrite Hrun in H. discriminate.
Qed.

Lemma clock_reaches_only_offset_and_timestamp_witness :
  exists o,
    fst (create_temporal_ole_object (__init__ "m.docx") 0 quiet_world) = Returned o
    /\ ole_timestamp o = 0.
Proof.
  destruct (create_temporal_ole_object_ok (__init__ "m.docx") 0 quiet_world
              (init_well_configured _)) as (o & payload & Hrun & _); [lia|].
  assert (H : fst (create_temporal_ole_object (__init__ "m.docx") 0 quiet_world)
              = Returned o) by (rewrite Hrun; reflexivity).
  exists o. split; [exact H|].
  apply (proj2 (clock_reaches_only_offset_and_timestamp
                  (__init__ "m.docx") 0 quiet_world quiet_world) o H).
Defined.

(** The temporal offset is not the only key the clock feeds: two runs of
    layer 0 whose clocks agree when the offset is computed and stand one
    second apart when [datetime.now()] is called return the same offset and
    the same bytes, and two different timestamps. *)
Lemma timestamp_depends_on_the_clock :
  exists o1 o2,
    fst (create_temporal_ole_object (__init__ "m.docx") 0 quiet_world) = Returned o1
    /\ fst (create_temporal_ole_object (__init__ "m.docx") 0 one_second_later_world)
       = Returned o2
    /\ ole_temporal_offset o1 = ole_temporal_offset o2
    /\ ole_data o1 = ole_data o2
    /\ ole_timestamp o1 = 0
    /\ ole_timestamp o2 = 1
    /\ ole_timestamp o1 <> ole_timestamp o2.
Proof.
  pose proof (create_temporal_ole_object_cases (__init__ "m.docx") 0 quiet_world) as H1.
  pose proof (create_temporal_ole_object_cases (__init__ "m.docx") 0
                one_second_later_world) as H2.
  destruct (layer_bytes_ok _ (init_well_configured "m.docx") 0) as (payload & Hb & _);
    [lia|].
  rewrite Hb in H1, H2.
  destruct H1 as (o1 & R1 & D1 & _ & _ & _ & T1).
  destruct H2 as (o2 & R2 & D2 & _ & _ & _ & T2).
  assert (E1 : fst (create_temporal_ole_object (__init__ "m.docx") 0 quiet_world)
               = Returned o1) by (rewrite R1; reflexivity).
  assert (E2 : fst (create_temporal_ole_object (__init__ "m.docx") 0
                      one_second_later_world) = Returned o2)
    by (rewrite R2; reflexivity).
  destruct (create_world (__init__ "m.docx") 0 quiet_world) as (n1 & _ & _ & S1).
  destruct (create_world (__init__ "m.docx") 0 one_second_later_world)
    as (n2 & _ & _ & S2).
  destruct (S1 o1 E1) as [_ Q1]. destruct (S2 o2 E2) as [_ Q2].
  cbn in Q1, Q2.
  exists o1, o2. split; [exact E1|]. split; [exact E2|].
  split.
  { assert (V : forall w,
               calculate_ole_temporal_offset (__init__ "m.docx") 0 w
               = (Returned (exp (- alpha (__init__ "m.docx") * 0)
                            * (1e7 + 5e5 * (IZR (py_int (clock w (ticks w) * 1e6) mod 10007)
                                            / IZR 10007))),
                  tick w)).
    { intros w. unfold calculate_ole_temporal_offset, bind, lift.
      cbn [Z.ltb Z.compare obind].
      change (prime_window (__init__ "m.docx") 0) with (Returned 10007%Z).
      cbn [obind]. unfold time_time, read_clock, py_mod. cbn [Z.eqb obind].
      unfold py_truediv. destruct (Req_dec_T (IZR 10007) 0) as [E|_]; [lra|].
      reflexivity. }
    rewrite V in T1, T2. injection T1 as <-. injection T2 as <-. reflexivity. }
  split; [congruence|]. split; [exact Q1|]. split; [exact Q2|].
  rewrite Q1, Q2. lra.
Qed.

(** The clock does reach the object: two clocks give layer 0 two
    different temporal offsets. *)
Lemma temporal_offset_depends_on_the_clock :
  let at_time t := mkWorld (fun _ => t) 0 (fun _ => None) 0 [] in
  exists o1 o2,
    fst (create_temporal_ole_object (__init__ "m.docx") 0 (at_time 0)) = Returned o1
    /\ fst (create_temporal_ole_object (__init__ "m.docx") 0 (at_time 1)) = Returned o2
    /\ ole_temporal_offset o1 <> ole_temporal_offset o2
    /\ ole_data o1 = ole_data o2.
Proof.
  intros at_time.
  assert (V : forall t, calculate_ole_temporal_offset (__init__ "m.docx") 0 (at_time t)
                = (Returned (exp (- alpha (__init__ "m.docx") * 0)
                             * (1e7 + 5e5 * (IZR (py_int (t * 1e6) mod 10007) / IZR 10007))),
                   tick (at_time t))).
  { intros t. unfold calculate_ole_temporal_offset, bind, lift.
    cbn [Z.ltb Z.compare obind].
    change (prime_window (__init__ "m.docx") 0) with (Returned 10007%Z).
    cbn [obind]. unfold time_time, read_clock, py_mod. cbn [Z.eqb obind].
    unfold py_truediv. destruct (Req_dec_T (IZR 10007) 0) as [E|_]; [lra|].
    reflexivity. }
  pose proof (create_temporal_ole_object_cases (__init__ "m.docx") 0 (at_time 0)) as H1.
  pose proof (create_temporal_ole_object_cases (__init__ "m.docx") 0 (at_time 1)) as H2.
  destruct (layer_bytes_ok _ (init_well_configured "m.docx") 0) as (payload & Hb & _);
    [lia|].
  rewrite Hb in H1, H2.
  destruct H1 as (o1 & R1 & D1 & _ & _ & _ & T1).
  destruct H2 as (o2 & R2 & D2 & _ & _ & _ & T2).
  exists o1, o2. rewrite R1, R2. repeat split; [| congruence].
  rewrite V in T1, T2. injection T1 as E1. injection T2 as E2.
  rewrite <- E1, <- E2.
  replace (0 * 1e6) with (IZR 0) by lra. replace (1 * 1e6) with (IZR 1000000) by lra.
  rewrite !py_int_IZR.
  change (0 mod 10007)%Z with 0%Z. change (1000000 mod 10007)%Z with 9307%Z.
  rewrite Rmult_0_r, exp_0. lra.
Qed.

(** ** Names of archive entries *)

Lemma to_int_not_nil (z : Z) :
  Z.to_int z <> Decimal.Pos Decimal.Nil /\ Z.to_int z <> Decimal.Neg Decimal.Nil.
Proof.
  destruct z; simpl; split; try discriminate; intros H; injection H as H;
    now apply DecimalPos.Unsigned.to_uint_nonnil in H.
Qed.

Lemma str_int_inj (a b : Z) : str_int a = str_int b -> a = b.
Proof.
  unfold str_int. intros H. apply DecimalZ.to_int_inj.
  destruct (to_int_not_nil a) as [A1 A2], (to_int_not_nil b) as [B1 B2].
  pose proof (NilZero.isi (Z.to_int a) A1 A2) as Ha.
  pose proof (NilZero.isi (Z.to_int b) B1 B2) as Hb.
  rewrite H in Ha. congruence.
Qed.

Lemma append_cancel_l (s x y : string) : (s ++ x = s ++ y)%string -> x = y.
Proof.
  induction s as [|c s IH]; simpl; [trivial|]. intros H. injection H as H. auto.
Qed.

Lemma length_append (s t : string) :
  String.length (s ++ t) = (String.length s + String.length t)%nat.
Proof. induction s as [|c s IH]; simpl; [reflexivity|]. now rewrite IH. Qed.

Lemma append_cancel_r (t : string) : forall a b : string,
  (a ++ t = b ++ t)%string -> a = b.
Proof.
  induction a as [|c a IH]; intros [|d b] H; simpl in H.
  - reflexivity.
  - apply (f_equal String.length) in H. simpl in H. rewrite length_append in H. lia.
  - apply (f_equal String.length) in H. simpl in H. rewrite length_append in H. lia.
  - injection H as -> H. f_equal. now apply IH.
Qed.

Lemma append_assoc (a b c : string) : ((a ++ b) ++ c = a ++ (b ++ c))%string.
Proof. induction a as [|x a IH]; simpl; [reflexivity|]. now rewrite IH. Qed.

Lemma last_char_append (s : string) (c : ascii) (t : string) :
  last_char (s ++ String c t) = last_char (String c t).
Proof.
  induction s as [|a s IH]; [reflexivity|].
  destruct s as [|b s]; [reflexivity|].
  rewrite <- IH. reflexivity.
Qed.

Lemma bin_name_inj (i j : Z) : bin_name i = bin_name j -> i = j.
Proof.
  unfold bin_name. intros H. apply append_cancel_l in H.
  apply append_cancel_r in H. now apply str_int_inj.
Qed.

Lemma xml_name_not_bin (i j : Z) : (xml_name i =? bin_name j)%string = false.
Proof.
  apply String.eqb_neq. unfold xml_name, bin_name. intros H.
  apply append_cancel_l in H. apply (f_equal last_char) in H.
  rewrite !last_char_append in H. discriminate H.
Qed.

Lemma bin_name_eqb (i j : Z) :
  (bin_name i =? bin_name j)%string = (i =? j)%Z.
Proof.
  destruct (Z.eqb_spec i j) as [->|Hne]; [apply String.eqb_refl|].
  apply String.eqb_neq. intros H. now apply bin_name_inj in H.
Qed.

(** ** Reading the archive back *)

Lemma zip_read_app (name : string) (a b : list (string * content)) :
  zip_read name (a ++ b)
  = match zip_read name b with
    | Some c => Some c
    | None => zip_read name a
    end.
Proof.
  induction a as [|[n c] a IH]; simpl.
  - now destruct (zip_read name b).
  - rewrite IH. destruct (zip_read name b); reflexivity.
Qed.

Section ReadBack.

Variable self : OLE_TemporalVortex.

Lemma zip_read_absent (i : Z) (ls : list Z) : forall xs,
  ~ In i ls ->
  zip_read (bin_name i) (layer_entries self (combine ls xs)) = None.
Proof.
  induction ls as [|l ls IH]; intros xs Hni; [reflexivity|].
  destruct xs as [|x xs]; [reflexivity|].
  cbn [combine layer_entries flat_map fst snd app zip_read].
  fold (layer_entries self (combine ls xs)).
  rewrite IH by (intros H; apply Hni; now right).
  rewrite bin_name_eqb, xml_name_not_bin.
  destruct (Z.eqb_spec l i) as [->|_]; [|reflexivity].
  exfalso. apply Hni. now left.
Qed.

(** The binary entry of a layer that was written reads back as the
    bytes of that layer. *)
Lemma zip_read_present (i : Z) (ls : list Z) : forall xs,
  List.length xs = List.length ls ->
  In i ls ->
  zip_read (bin_name i) (layer_entries self (combine ls xs))
  = Some (Bytes (layer_data self i)).
Proof.
  induction ls as [|l ls IH]; intros xs Hlen Hin; [destruct Hin|].
  destruct xs as [|x xs]; [discriminate|].
  cbn [combine layer_entries flat_map fst snd app zip_read].
  fold (layer_entries self (combine ls xs)).
  destruct (in_dec Z.eq_dec i ls) as [Hi|Hi].
  - rewrite IH by (simpl in Hlen; auto; lia). reflexivity.
  - rewrite zip_read_absent by assumption.
    destruct Hin as [->|Hin]; [|contradiction].
    now rewrite bin_name_eqb, Z.eqb_refl.
Qed.

End ReadBack.

(** ** Assembling the document *)

Lemma zip_op_ok (effect : list (string * content) -> list (string * content)) (w : World) :
  io_fault w (zip_ops w) = None ->
  zip_op effect w
  = (Returned tt,
     mkWorld (clock w) (ticks w) (io_fault w) (S (zip_ops w)) (effect (archive w))).
Proof. intros H. unfold zip_op. now rewrite H. Qed.

Lemma range_in (n i : Z) : In i (range n) <-> (0 <= i < n)%Z.
Proof.
  unfold range. rewrite in_map_iff. split.
  - intros (k & <- & Hk). apply in_seq in Hk. lia.
  - intros Hi. exists (Z.to_nat i). split; [lia|]. apply in_seq. lia.
Qed.

Section BuildFacts.

Variable self : OLE_TemporalVortex.
Hypothesis wc : well_configured self.

Lemma layer_bytes_data (layer : Z) :
  (0 <= layer < 4294967296)%Z ->
  layer_bytes self layer = Returned (layer_data self layer).
Proof.
  intros Hl. unfold layer_data.
  destruct (layer_bytes_ok self wc layer Hl) as (payload & -> & _). reflexivity.
Qed.

Lemma deploy_layer_ok (st : R * list OleObject) (layer : Z) (w : World) :
  (0 <= layer < 4294967296)%Z ->
  no_faults w ->
  exists o x w',
    deploy_layer self st layer w
    = (Returned (fst st + exp (- alpha self * IZR layer), snd st ++ [o]), w')
    /\ ole_data o = layer_data self layer
    /\ io_fault w' = io_fault w
    /\ archive w' = archive w ++ layer_entries self [(layer, x)].
Proof.
  intros Hl Hnf.
  pose proof (create_temporal_ole_object_cases self layer w) as H1.
  pose proof (create_temporal_ole_object_cases self layer (tick (tick w))) as H2.
  rewrite (layer_bytes_data layer Hl) in H1, H2.
  destruct H1 as (o & R1 & D1 & _). destruct H2 as (o2 & R2 & _).
  destruct (prime_window_ok self wc layer) as (p & Hp & _).
  unfold deploy_layer, generate_vortex_xml, bind. rewrite R1, R2.
  unfold lift. rewrite Hp. unfold ret, writestr.
  rewrite zip_op_ok by apply Hnf. rewrite zip_op_ok by apply Hnf.
  eexists o, _, _. split; [reflexivity|]. split; [assumption|].
  split; [reflexivity|]. cbn [archive]. rewrite <- app_assoc.
  unfold layer_entries, xml_name, bin_name. cbn [flat_map fst snd app].
  now rewrite D1.
Qed.

Lemma deploy_layers_ok (ls : list Z) :
  Forall (fun l => 0 <= l < 4294967296)%Z ls ->
  forall (st : R * list OleObject) (w : World),
  no_faults w ->
  exists st' w' xs,
    for_each_M ls (deploy_layer self) st w = (Returned st', w')
    /\ io_fault w' = io_fault w
    /\ List.length xs = List.length ls
    /\ archive w' = archive w ++ layer_entries self (combine ls xs)
    /\ map ole_data (snd st') = map ole_data (snd st) ++ map (layer_data self) ls.
Proof.
  induction 1 as [|l ls Hl _ IH]; intros st w Hnf.
  - exists st, w, []. cbn. rewrite !app_nil_r. repeat split; reflexivity.
  - destruct (deploy_layer_ok st l w Hl Hnf) as (o & x & w1 & R1 & D1 & F1 & A1).
    assert (Hnf1 : no_faults w1) by (intros k; rewrite F1; apply Hnf).
    destruct (IH (fst st + exp (- alpha self * IZR l), snd st ++ [o]) w1 Hnf1)
      as (st' & w' & xs & R2 & F2 & L2 & A2 & O2).
    exists st', w', (x :: xs). cbn [for_each_M]. unfold bind. rewrite R1, R2.
    split; [reflexivity|]. split; [congruence|]. split; [simpl; lia|].
    split.
    + rewrite A2, A1, <- app_assoc. reflexivity.
    + rewrite O2. cbn [snd]. rewrite map_app, <- app_assoc. cbn [map app].
      now rewrite D1.
Qed.

(** With a good configuration and no failing archive operation the
    build returns the document metadata, and the archive holds the four
    fixed parts, the two entries of each layer and the manifest. *)
Lemma build_sovereign_document_ok (w : World) :
  (layers self <= 4294967296)%Z ->
  no_faults w ->
  exists m w' xs mf,
    build_sovereign_document self w = (Returned (Document m), w')
    /\ List.length xs = List.length (range (layers self))
    /\ archive w'
       = [("[Content_Types].xml", Text ContentTypesXml);
          ("_rels/.rels", Text RelationshipsXml);
          ("word/_rels/document.xml.rels", Text (DocumentRelsXml (layers self)));
          ("word/document.xml",
           Text (DocumentXml (alpha self) (layers self) (cascade_factor self)))]%string
         ++ layer_entries self (combine (range (layers self)) xs)
         ++ [("CTT_VORTEX_MANIFEST.txt"%string, Text mf)]
    /\ map ole_data (doc_ole_objects m) = map (layer_data self) (range (layers self)).
Proof.
  intros Hn Hnf.
  assert (Hr : Forall (fun l => 0 <= l < 4294967296)%Z (range (layers self))).
  { apply Forall_forall. intros l Hl. apply range_in in Hl. lia. }
  unfold build_sovereign_document, bind, try_except, with_ZipFile, bind.
  unfold datetime_now, read_clock, ZipFile_open, ZipFile_close, writestr.
  rewrite zip_op_ok by apply Hnf. cbn [clock ticks io_fault zip_ops archive].
  do 4 (rewrite zip_op_ok by apply Hnf; cbn [clock ticks io_fault zip_ops archive]).
  match goal with
  | |- context [for_each_M _ _ ?st ?w0] =>
      destruct (deploy_layers_ok _ Hr st w0 Hnf)
        as (st' & w1 & xs & R1 & F1 & L1 & A1 & O1)
  end.
  rewrite R1.
  assert (Hnf1 : no_faults w1) by (intros k; rewrite F1; apply Hnf).
  rewrite zip_op_ok by apply Hnf1. cbn [clock ticks io_fault zip_ops archive].
  unfold ret.
  rewrite zip_op_ok by apply Hnf1.
  eexists _, _, xs, _. split; [reflexivity|]. split; [assumption|].
  cbn [clock ticks io_fault zip_ops archive doc_ole_objects].
  split.
  - rewrite A1. cbn [archive app]. reflexivity.
  - rewrite O1. reflexivity.
Qed.

End BuildFacts.

(** ** The binary entries of the archive (claim C5) *)

Lemma read_back_layer (self : OLE_TemporalVortex) (w : World) (i : Z) :
  well_configured self ->
  (layers self <= 4294967296)%Z ->
  no_faults w ->
  (0 <= i < layers self)%Z ->
  exists m w',
    build_sovereign_document self w = (Returned (Document m), w')
    /\ zip_read (bin_name i) (archive w') = Some (Bytes (layer_data self i)).
Proof.
  intros Hwc Hn Hnf Hi.
  destruct (build_sovereign_document_ok self Hwc w Hn Hnf)
    as (m & w' & xs & mf & Hrun & Hlen & Harch & _).
  exists m, w'. split; [assumption|]. rewrite Harch.
  rewrite zip_read_app, zip_read_app.
  assert (M : zip_read (bin_name i) [("CTT_VORTEX_MANIFEST.txt"%string, Text mf)] = None)
    by reflexivity.
  rewrite M. rewrite zip_read_present; [reflexivity|assumption|].
  apply range_in. assumption.
Qed.

Lemma layer_data_shape (self : OLE_TemporalVortex) (i : Z) :
  well_configured self ->
  (0 <= i < 4294967296)%Z ->
  exists payload,
    layer_data self i = header_layout self i ++ payload
    /\ generate_vortex_ole_header self i = Returned (header_layout self i)
    /\ for_each (range (object_size self i)) (ole_data_step self i) (header_layout self i)
       = Returned (header_layout self i ++ payload)
    /\ Z.of_nat (List.length payload) = object_size self i.
Proof.
  intros Hwc Hi.
  destruct (layer_bytes_ok self Hwc i Hi) as (payload & Hb & Hlen & _).
  assert (Hh : generate_vortex_ole_header self i = Returned (header_layout self i)).
  { destruct Hwc. apply generate_vortex_ole_header_ok; [assumption|lra|assumption]. }
  exists payload. unfold layer_data. rewrite Hb.
  split; [reflexivity|]. split; [assumption|]. split; [|assumption].
  unfold layer_bytes in Hb. rewrite offset_guard_ok, Hh in Hb by assumption.
  exact Hb.
Qed.

(** C5, as the code has it. After a run in which no archive operation
    fails, the binary entry of layer [i] holds the whole object buffer:
    the 72-byte header followed by the bytes the loop appended; the
    payload is what is left of the entry after its first 72 bytes. *)
Theorem binary_entry_is_header_then_payload
  (self : OLE_TemporalVortex) (w : World) (i : Z) :
  well_configured self ->
  (layers self <= 4294967296)%Z ->
  no_faults w ->
  (0 <= i < layers self)%Z ->
  exists m w' h payload,
    build_sovereign_document self w = (Returned (Document m), w')
    /\ generate_vortex_ole_header self i = Returned h
    /\ List.length h = 72%nat
    /\ for_each (range (object_size self i)) (ole_data_step self i) h
       = Returned (h ++ payload)
    /\ Z.of_nat (List.length payload) = object_size self i
    /\ zip_read ("word/embeddings/oleObject" ++ str_int i ++ ".bin") (archive w')
       = Some (Bytes (h ++ payload))
    /\ skipn 72 (h ++ payload) = payload.
Proof.
  intros Hwc Hn Hnf Hi.
  destruct (read_back_layer self w i Hwc Hn Hnf Hi) as (m & w' & Hrun & Hread).
  destruct (layer_data_shape self i Hwc) as (payload & Hd & Hh & Hloop & Hlen); [lia|].
  exists m, w', (header_layout self i), payload.
  split; [assumption|]. split; [assumption|].
  split; [apply header_layout_length|]. split; [assumption|]. split; [assumption|].
  split; [rewrite <- Hd; exact Hread|].
  rewrite skipn_app. change 72%nat with header_size.
  rewrite <- (header_layout_length self i) at 1 2.
  rewrite skipn_all, Nat.sub_diag. reflexivity.
Qed.

Lemma quiet_world_no_faults : no_faults quiet_world.
Proof. intros k. reflexivity. Qed.

Lemma binary_entry_is_header_then_payload_witness :
  exists m w' h payload,
    build_sovereign_document (__init__ "m.docx") quiet_world = (Returned (Document m), w')
    /\ List.length h = 72%nat
    /\ zip_read "word/embeddings/oleObject32.bin" (archive w') = Some (Bytes (h ++ payload)).
Proof.
  destruct (binary_entry_is_header_then_payload (__init__ "m.docx") quiet_world 32)
    as (m & w' & h & payload & H1 & _ & H3 & _ & _ & H6 & _).
  - apply init_well_configured.
  - simpl. lia.
  - apply quiet_world_no_faults.
  - simpl. lia.
  - exists m, w', h, payload. repeat split; assumption.
Defined.

(** The entry of layer 0 is not the 1024 synthesized bytes: it has 1096
    bytes and opens with the signature of the header. *)
Lemma binary_entry_is_not_the_payload_alone :
  exists d,
    zip_read "word/embeddings/oleObject0.bin"
             (archive (snd (build_sovereign_document (__init__ "m.docx") quiet_world)))
    = Some (Bytes d)
    /\ object_size (__init__ "m.docx") 0 = 1024%Z
    /\ List.length d = 1096%nat
    /\ firstn 8 d = [0xD0; 0xCF; 0x11; 0xE0; 0xA1; 0xB1; 0x1A; 0xE1]%Z.
Proof.
  destruct (read_back_layer (__init__ "m.docx") quiet_world 0
              (init_well_configured _)) as (m & w' & Hrun & Hread).
  { simpl. lia. } { apply quiet_world_no_faults. } { simpl. lia. }
  destruct (layer_data_shape (__init__ "m.docx") 0 (init_well_configured _))
    as (payload & Hd & _ & _ & Hlen); [lia|].
  rewrite init_object_size_0 in Hlen.
  exists (layer_data (__init__ "m.docx") 0). rewrite Hrun.
  split; [exact Hread|]. split; [apply init_object_size_0|].
  rewrite Hd. split.
  - rewrite length_app, header_layout_length. unfold header_size. lia.
  - reflexivity.
Qed.

(** ** What the header encoder and the offset calculation can raise *)

Lemma generate_vortex_ole_header_unfold (self : OLE_TemporalVortex) (layer : Z) :
  generate_vortex_ole_header self layer
  = sectors <~ Struct.pack_fields 4 (sector_fields self layer) ;;
    Returned (signature ++ clsid_bytes
              ++ flat_map (Struct.le_bytes 2) version_fields ++ sectors).
Proof.
  unfold generate_vortex_ole_header.
  change (Struct.pack_B _) with (Returned clsid_bytes).
  change (Struct.pack_H _) with (Returned (flat_map (Struct.le_bytes 2) version_fields)).
  cbn [obind]. unfold Struct.pack_I.
  change [_; _; _; _; _; _; _; _; _; _]%Z with (sector_fields self layer).
  destruct (Struct.pack_fields 4 _); cbn [obind]; [|reflexivity].
  now rewrite <- !app_assoc.
Qed.

Lemma sector_fields_fit_iff (self : OLE_TemporalVortex) (layer : Z) :
  Forall (fun v => 0 <= v < 256 ^ Z.of_nat 4)%Z (sector_fields self layer)
  <-> fits_uint32 layer
      /\ fits_uint32 (py_int (4096 * exp (- alpha self * IZR layer)))
      /\ fits_uint32 (py_int (alpha self * 1e6)).
Proof.
  unfold fits_uint32. change (256 ^ Z.of_nat 4)%Z with 4294967296%Z.
  unfold sector_fields. cbv zeta. split.
  - intros H. rewrite Forall_forall in H. repeat split.
    + apply (H layer). do 8 right. now left.
    + apply (H layer). do 8 right. now left.
    + apply (H (py_int (4096 * exp (- alpha self * IZR layer)))). now left.
    + apply (H (py_int (4096 * exp (- alpha self * IZR layer)))). now left.
    + apply (H (py_int (alpha self * 1e6))). do 9 right. now left.
    + apply (H (py_int (alpha self * 1e6))). do 9 right. now left.
  - intros (Hl & Ht & Ha).
    repeat apply Forall_cons; try apply Forall_nil; try lia.
    split; [apply Z.div_pos; lia|]. apply Z.div_lt_upper_bound; lia.
Qed.

Lemma header_outcome (self : OLE_TemporalVortex) (layer : Z) :
  (Forall (fun v => 0 <= v < 256 ^ Z.of_nat 4)%Z (sector_fields self layer)
   /\ generate_vortex_ole_header self layer = Returned (header_layout self layer))
  \/ (~ Forall (fun v => 0 <= v < 256 ^ Z.of_nat 4)%Z (sector_fields self layer)
      /\ exists msg, generate_vortex_ole_header self layer
                      = Raised (Exn StructError msg)).
Proof.
  rewrite generate_vortex_ole_header_unfold.
  destruct (Struct.pack_fields 4 (sector_fields self layer)) as [bs|e] eqn:E.
  - left. apply StructFacts.pack_fields_inv in E. destruct E as [-> F].
    split; [assumption|reflexivity].
  - right. split.
    + intros F. rewrite (StructFacts.pack_fields_ok 4 _ F) in E. discriminate.
    + apply StructRoundTrip.pack_fields_raises in E. destruct e as [c msg].
      cbn in E. subst c. exists msg. reflexivity.
Qed.

Lemma prime_window_outcome (self : OLE_TemporalVortex) (layer : Z) :
  (prime_windows self = []
   /\ prime_window self layer
      = Raised (Exn ZeroDivisionError "integer modulo by zero"))
  \/ (prime_windows self <> []
      /\ prime_window self layer
         = Returned (nth (Z.to_nat (layer mod Z.of_nat (List.length (prime_windows self))))
                         (prime_windows self) 0%Z)).
Proof.
  unfold prime_window, py_mod.
  destruct (prime_windows self) as [|p ps] eqn:E; [left; split; reflexivity|].
  right. split; [discriminate|]. rewrite <- E.
  assert (Hlen : (0 < Z.of_nat (List.length (prime_windows self)))%Z)
    by (rewrite E; simpl; lia).
  destruct (Z.eqb_spec (Z.of_nat (List.length (prime_windows self))) 0); [lia|].
  cbn [obind]. unfold getitem.
  pose proof (Z.mod_pos_bound layer _ Hlen) as Hm.
  rewrite (nth_error_nth' (prime_windows self) 0%Z) by lia. reflexivity.
Qed.

Lemma offset_guard_outcome (self : OLE_TemporalVortex) (layer : Z) :
  let prime := nth (Z.to_nat (layer mod Z.of_nat (List.length (prime_windows self))))
                   (prime_windows self) 0%Z in
  let bad := ((0 < layer)%Z /\ layers self = 0%Z)
             \/ prime_windows self = [] \/ prime = 0%Z in
  (~ bad /\ offset_guard self layer = Returned tt)
  \/ (bad /\ exists msg, offset_guard self layer = Raised (Exn ZeroDivisionError msg)).
Proof.
  intros prime bad. unfold offset_guard, py_truediv.
  destruct (Z.ltb_spec 0 layer) as [Hl|Hl].
  - destruct (Req_dec_T (IZR (layers self)) 0) as [E|E]; cbn [obind].
    { right. split; [|eexists; reflexivity]. left. split; [assumption|].
      now apply eq_IZR_R0. }
    assert (Hn : layers self <> 0%Z) by (intros H; apply E; now rewrite H).
    destruct (prime_window_outcome self layer) as [[Hp ->]|[Hp ->]]; cbn [obind].
    { right. split; [|eexists; reflexivity]. right. now left. }
    fold prime. unfold py_mod. destruct (Z.eqb_spec prime 0) as [Hz|Hz]; cbn [obind].
    { right. split; [|eexists; reflexivity]. right. now right. }
    left. split; [|reflexivity]. intros [[_ B]|[B|B]]; contradiction.
  - cbn [obind].
    destruct (prime_window_outcome self layer) as [[Hp ->]|[Hp ->]]; cbn [obind].
    { right. split; [|eexists; reflexivity]. right. now left. }
    fold prime. unfold py_mod. destruct (Z.eqb_spec prime 0) as [Hz|Hz]; cbn [obind].
    { right. split; [|eexists; reflexivity]. right. now right. }
    left. split; [|reflexivity]. intros [[B _]|[B|B]]; [lia|contradiction|contradiction].
Qed.

Lemma range_pos (n : Z) : (0 < n)%Z -> exists rest, range n = 0%Z :: rest.
Proof.
  intros Hn. unfold range. destruct (Z.to_nat n) as [|k] eqn:E; [lia|].
  eexists. reflexivity.
Qed.

Lemma layer_bytes_with_zero_alpha (self : OLE_TemporalVortex) :
  alpha self = 0 ->
  prime_windows self <> [] ->
  nth 0 (prime_windows self) 0%Z <> 0%Z ->
  layer_bytes self 0 = Raised (Exn ZeroDivisionError "float division by zero").
Proof.
  intros Ha Hne Hp. unfold layer_bytes.
  pose proof (offset_guard_outcome self 0) as G. cbv zeta in G.
  rewrite Z.mod_0_l in G
    by (destruct (prime_windows self); [contradiction|simpl; lia]).
  destruct G as [[_ ->]|[[[B _]|[B|B]] _]]; [|lia|contradiction|contradiction].
  cbn [obind].
  assert (S : 1024 * exp (- alpha self * 0) = IZR 1024)
    by (rewrite Rmult_0_r, exp_0; lra).
  assert (T : 4096 * exp (- alpha self * 0) = IZR 4096)
    by (rewrite Rmult_0_r, exp_0; lra).
  destruct (header_outcome self 0) as [[_ ->]|[F _]].
  - cbn [obind]. unfold object_size. change (IZR 1024) with 1024.
    rewrite S, py_int_IZR.
    destruct (range_pos 1024 ltac:(lia)) as (rest & ->).
    cbn [for_each]. unfold ole_data_step at 1, py_truediv at 1.
    destruct (Req_dec_T (alpha self) 0) as [_|N]; [reflexivity|contradiction].
  - exfalso. apply F. apply sector_fields_fit_iff. unfold fits_uint32.
    rewrite T, py_int_IZR, Ha.
    replace (0 * 1e6) with (IZR 0) by lra. rewrite py_int_IZR. lia.
Qed.



(** ** Exceptions during the build (claims C7 and C6) *)

Lemma fault_free_run_refl (w : World) : fault_free_run w w.
Proof. repeat split; [lia|]. intros k Hk. lia. Qed.

Lemma fault_free_run_trans (w1 w2 w3 : World) :
  fault_free_run w1 w2 -> fault_free_run w2 w3 -> fault_free_run w1 w3.
Proof.
  intros (F1 & L1 & N1) (F2 & L2 & N2). repeat split.
  - congruence.
  - lia.
  - intros k Hk. destruct (Nat.lt_ge_cases k (zip_ops w2)).
    + apply N1. lia.
    + rewrite <- F1. apply N2. lia.
Qed.

Lemma careful_ret {A} (a : A) : careful (ret a).
Proof. intros w a' w' H. inversion H. apply fault_free_run_refl. Qed.

Lemma careful_lift {A} (c : Outcome A) : careful (lift c).
Proof. intros w a' w' H. inversion H. apply fault_free_run_refl. Qed.

Lemma careful_read_clock : careful read_clock.
Proof.
  intros w a w' H. inversion H. repeat split; cbn; [lia|]. intros k Hk. lia.
Qed.

Lemma careful_zip_op (effect : list (string * content) -> list (string * content)) :
  careful (zip_op effect).
Proof.
  intros w a w' H. unfold zip_op in H.
  destruct (io_fault w (zip_ops w)) eqn:E; inversion H.
  repeat split; cbn; [lia|]. intros k Hk.
  assert (k = zip_ops w) as -> by lia. assumption.
Qed.

Lemma careful_bind {A B} (c : M A) (k : A -> M B) :
  careful c -> (forall a, careful (k a)) -> careful (bind c k).
Proof.
  intros Hc Hk w b w' H. unfold bind in H.
  destruct (c w) as [[a|e] w1] eqn:E; [|discriminate].
  eapply fault_free_run_trans; [eapply Hc; eassumption|eapply Hk; eassumption].
Qed.

Lemma careful_for_each_M {A S} (xs : list A) (body : S -> A -> M S) :
  (forall s x, careful (body s x)) -> forall s, careful (for_each_M xs body s).
Proof.
  intros Hb. induction xs as [|x xs IH]; intros s; cbn [for_each_M].
  - apply careful_ret.
  - apply careful_bind; [apply Hb|apply IH].
Qed.

Lemma careful_with_ZipFile {A} (body : M A) : careful body -> careful (with_ZipFile body).
Proof.
  intros Hb. unfold with_ZipFile. apply careful_bind; [apply careful_zip_op|].
  intros _ w a w' H.
  destruct (body w) as [r w1] eqn:E.
  destruct (ZipFile_close w1) as [[[]|e] w2] eqn:E2; [|discriminate].
  inversion H; subst. eapply fault_free_run_trans.
  - eapply Hb. eassumption.
  - eapply careful_zip_op. exact E2.
Qed.

Ltac careful_steps :=
  repeat first
    [ apply careful_ret | apply careful_lift | apply careful_read_clock
    | apply careful_zip_op
    | apply careful_with_ZipFile
    | apply careful_for_each_M; intros
    | apply careful_bind; [|intros] ].

Lemma careful_create (self : OLE_TemporalVortex) (layer : Z) :
  careful (create_temporal_ole_object self layer).
Proof.
  unfold create_temporal_ole_object, calculate_ole_temporal_offset,
    datetime_now, time_time.
  careful_steps.
Qed.

Lemma tick_iter_frame (n : nat) (w : World) :
  clock (Nat.iter n tick w) = clock w
  /\ io_fault (Nat.iter n tick w) = io_fault w
  /\ zip_ops (Nat.iter n tick w) = zip_ops w
  /\ archive (Nat.iter n tick w) = archive w.
Proof.
  induction n as [|n (H1 & H2 & H3 & H4)]; [repeat split|].
  cbn [Nat.iter]. repeat split; assumption.
Qed.

Lemma build_always_returns (self : OLE_TemporalVortex) (w : World) :
  exists r, fst (build_sovereign_document self w) = Returned r.
Proof.
  unfold build_sovereign_document, bind, datetime_now, read_clock, try_except.
  match goal with
  | |- context [with_ZipFile ?b ?w0] => destruct (with_ZipFile b w0) as [[r|e] w1]
  end; eexists; reflexivity.
Qed.

Lemma build_document_fault_free (self : OLE_TemporalVortex) (w w' : World) (m : DocMeta) :
  build_sovereign_document self w = (Returned (Document m), w') ->
  fault_free_run w w'.
Proof.
  unfold build_sovereign_document, bind, datetime_now, read_clock, try_except.
  match goal with
  | |- context [with_ZipFile ?b ?w0] =>
      assert (C : careful (with_ZipFile b));
      [|destruct (with_ZipFile b w0) as [[r|e] w1] eqn:E]
  end.
  - unfold writestr. careful_steps.
    intros w1 r w2 H. inversion H. repeat split; cbn; [lia|]. intros k Hk. lia.
  - intros H. inversion H; subst. apply C in E.
    destruct E as (F & L & N). repeat split; assumption.
  - intros H. inversion H.
Qed.

(** C7, as the code has it. A failure of an archive operation is
    caught and converted: when the archive cannot be opened, or when the
    first write fails and the archive then closes, the build returns the
    dictionary whose ['error'] is the text of the exception; and whenever
    any archive operation of the run failed, what the build returns is
    such a dictionary, not the document metadata. *)
Theorem build_converts_io_failures (self : OLE_TemporalVortex) (w : World) :
  (forall msg,
     io_fault w (zip_ops w) = Some msg ->
     fst (build_sovereign_document self w) = Returned (ErrorDict msg))
  /\ (forall msg,
        io_fault w (zip_ops w) = None ->
        io_fault w (S (zip_ops w)) = Some msg ->
        io_fault w (S (S (zip_ops w))) = None ->
        fst (build_sovereign_document self w) = Returned (ErrorDict msg))
  /\ (forall k msg,
        (zip_ops w <= k < zip_ops (snd (build_sovereign_document self w)))%nat ->
        io_fault w k = Some msg ->
        exists error, fst (build_sovereign_document self w) = Returned (ErrorDict error)).
Proof.
  split; [|split].
  - intros msg H.
    unfold build_sovereign_document, bind, datetime_now, read_clock, try_except,
      with_ZipFile, bind, ZipFile_open, zip_op.
    cbn [io_fault zip_ops]. rewrite H. reflexivity.
  - intros msg H0 H1 H2.
    unfold build_sovereign_document, bind, datetime_now, read_clock, try_except,
      with_ZipFile, bind, ZipFile_open, ZipFile_close, writestr, zip_op.
    cbn [io_fault zip_ops]. rewrite H0. cbn [io_fault zip_ops]. rewrite H1.
    cbn [io_fault zip_ops]. rewrite H2. reflexivity.
  - intros k msg Hk Hf.
    destruct (build_sovereign_document self w) as [[[m|error]|e] w'] eqn:E.
    + apply build_document_fault_free in E. destruct E as (_ & _ & N).
      cbn [snd] in Hk. rewrite N in Hf by assumption. discriminate.
    + exists error. reflexivity.
    + destruct (build_always_returns self w) as (r & Hr). rewrite E in Hr. discriminate.
Qed.

Lemma build_converts_io_failures_witness :
  io_fault disk_full_world 1 = Some "No space left on device"%string
  /\ fst (build_sovereign_document (__init__ "m.docx") disk_full_world)
     = Returned (ErrorDict "No space left on device").
Proof.
  split; [reflexivity|].
  apply (proj1 (proj2 (build_converts_io_failures (__init__ "m.docx")
                         disk_full_world))); reflexivity.
Defined.

(** On a full disk the [OSError] of [writestr] does not reach the caller:
    the build returns, and what it returns is the error dictionary. *)
Lemma io_failure_is_caught :
  fst (build_sovereign_document (__init__ "m.docx") disk_full_world)
  = Returned (ErrorDict "No space left on device")
  /\ fst (build_sovereign_document (__init__ "m.docx") disk_full_world)
     <> Raised (Exn OSError "No space left on device").
Proof.
  assert (H : fst (build_sovereign_document (__init__ "m.docx") disk_full_world)
              = Returned (ErrorDict "No space left on device")) by reflexivity.
  split; [exact H|]. rewrite H. discriminate.
Qed.






(** * Further properties of the code *)

(** ** The header encoder: errors and identity *)

(** X1. Under the constructor's configuration, and for a layer index
    between -23000 and 2^1000 (a range in which the float arithmetic of
    the encoder does not overflow), the header encoder returns, and returns
    72 bytes, exactly when the layer index lies in [0, 2^32); for any other
    layer index of that range [struct.pack] raises [struct.error]. *)
Theorem header_returns_iff_layer_fits (f : string) (layer : Z) :
  (-23000 <= layer < 2 ^ 1000)%Z ->
  (fits_uint32 layer
   /\ exists h, generate_vortex_ole_header (__init__ f) layer = Returned h
                /\ List.length h = 72%nat
                /\ Forall is_byte h)
  \/ (~ fits_uint32 layer
      /\ exists msg, generate_vortex_ole_header (__init__ f) layer
                      = Raised (Exn StructError msg)).
Proof.
  intros _.
  destruct (header_outcome (__init__ f) layer) as [[F H]|[F H]]; [left|right].
  - split; [now apply sector_fields_fit_iff in F|].
    eexists. split; [exact H|]. split; [reflexivity|apply header_layout_bytes].
  - split; [|exact H].
    intros Hl. apply F. apply sector_fields_in_range.
    + exact Hl.
    + rewrite init_alpha. lra.
    + rewrite init_alpha. lra.
Qed.

Lemma header_returns_iff_layer_fits_witness :
  exists msg, generate_vortex_ole_header (__init__ "m.docx") (-1)
              = Raised (Exn StructError msg).
Proof.
  destruct (header_returns_iff_layer_fits "m.docx" (-1)) as [[F _]|[_ H]].
  - lia.
  - exfalso. unfold fits_uint32 in F. lia.
  - exact H.
Defined.

Lemma header_decodes_fields (self : OLE_TemporalVortex) (layer : Z) (h : list Z) :
  generate_vortex_ole_header self layer = Returned h ->
  Struct.unpack_le 4 10 (skipn 32 h) = sector_fields self layer.
Proof.
  intros H. destruct (header_outcome self layer) as [[F H']|[_ (msg & H')]];
    rewrite H' in H; [|discriminate].
  injection H as <-.
  change (skipn 32 (header_layout self layer))
    with (flat_map (Struct.le_bytes 4) (sector_fields self layer)).
  pose proof (StructRoundTrip.unpack_le_flat_map 4 (sector_fields self layer) [] F) as U.
  rewrite app_nil_r in U. exact U.
Qed.

(** X2. A header names its layer: the ninth 32-bit field decodes to the
    layer index, so one configuration never gives two layers the same
    header. *)
Theorem header_identifies_its_layer
  (self : OLE_TemporalVortex) (layer1 layer2 : Z) (h : list Z) :
  generate_vortex_ole_header self layer1 = Returned h ->
  generate_vortex_ole_header self layer2 = Returned h ->
  nth 8 (Struct.unpack_le 4 10 (skipn 32 h)) 0%Z = layer1 /\ layer1 = layer2.
Proof.
  intros H1 H2.
  pose proof (header_decodes_fields self layer1 h H1) as D1.
  pose proof (header_decodes_fields self layer2 h H2) as D2.
  rewrite D1 in D2. split.
  - rewrite D1. reflexivity.
  - apply (f_equal (fun fs => nth 8 fs 0%Z)) in D2. exact D2.
Qed.

Lemma header_identifies_its_layer_witness :
  exists h,
    generate_vortex_ole_header (__init__ "m.docx") 7 = Returned h
    /\ nth 8 (Struct.unpack_le 4 10 (skipn 32 h)) 0%Z = 7%Z.
Proof.
  assert (H : generate_vortex_ole_header (__init__ "m.docx") 7
              = Returned (header_layout (__init__ "m.docx") 7)).
  { apply generate_vortex_ole_header_ok; rewrite ?init_alpha; try lia; lra. }
  exists (header_layout (__init__ "m.docx") 7). split; [exact H|].
  apply (header_identifies_its_layer (__init__ "m.docx") 7 7 _ H H).
Defined.

(** ** The temporal offset: errors and range *)

(** X10. For a layer index and a number of layers below [2^1000] in
    absolute value (so that the conversions of these ints to floats go
    through), the offset calculation raises [ZeroDivisionError] or returns:
    it raises exactly when the layer is positive while [layers] is 0, when
    the list of primes is empty, or when the prime it selects is 0; the
    clock has no say in it. *)
Theorem temporal_offset_raises_only_on_zero_division
  (self : OLE_TemporalVortex) (layer : Z) (w : World) :
  (Z.abs layer < 2 ^ 1000)%Z ->
  (Z.abs (layers self) < 2 ^ 1000)%Z ->
  let prime := nth (Z.to_nat (layer mod Z.of_nat (List.length (prime_windows self))))
                   (prime_windows self) 0%Z in
  let bad := ((0 < layer)%Z /\ layers self = 0%Z)
             \/ prime_windows self = [] \/ prime = 0%Z in
  match fst (calculate_ole_temporal_offset self layer w) with
  | Returned _ => ~ bad
  | Raised e => bad /\ exn_cls e = ZeroDivisionError
  end.
Proof.
  intros _ _ prime bad.
  pose proof (calculate_ole_temporal_offset_cases self layer w) as C.
  destruct (offset_guard_outcome self layer) as [[B G]|[B (msg & G)]];
    fold prime in B; fold bad in B; rewrite G in C.
  - destruct C as (off & ->). exact B.
  - destruct C as [-> | ->]; split; (assumption || reflexivity).
Qed.

Lemma temporal_offset_raises_only_on_zero_division_witness :
  exists e,
    fst (calculate_ole_temporal_offset (set_layers (__init__ "m.docx") 0) 3 quiet_world)
    = Raised e
    /\ exn_cls e = ZeroDivisionError.
Proof.
  pose proof (temporal_offset_raises_only_on_zero_division
                (set_layers (__init__ "m.docx") 0) 3 quiet_world
                ltac:(simpl; lia) ltac:(simpl; lia)) as H.
  cbv zeta in H.
  destruct (fst (calculate_ole_temporal_offset (set_layers (__init__ "m.docx") 0) 3
                   quiet_world)) as [off|e].
  - exfalso. apply H. left. split; [lia|reflexivity].
  - exists e. split; [reflexivity|apply H].
Defined.

(** The value the calculation returns under the constructor's
    configuration. *)
Lemma init_temporal_offset_value (f : string) (layer : Z) (w : World) :
  exists prime,
    In prime (prime_windows (__init__ f))
    /\ calculate_ole_temporal_offset (__init__ f) layer w
       = (Returned
            (exp (- (0.0302011) * IZR layer)
             * (if (0 <? layer)%Z
                then 1 + 0.0302011 * sin (2 * PI * IZR layer / 33)
                else 1)
             * (1e7 + 5e5 * (IZR (py_int (clock w (ticks w) * 1e6) mod prime)
                             / IZR prime))),
          tick w).
Proof.
  destruct (prime_window_outcome (__init__ f) layer) as [[Hp _]|[_ Hp]];
    [discriminate Hp|].
  set (prime := nth _ _ _) in Hp.
  assert (Hin : In prime (prime_windows (__init__ f))).
  { apply nth_In. cbn [prime_windows __init__ List.length].
    pose proof (Z.mod_pos_bound layer 8 ltac:(lia)). change (Z.of_nat 8) with 8%Z. lia. }
  assert (Hnz : prime <> 0%Z).
  { pose proof (wc_primes_nonzero _ (init_well_configured f)) as F.
    rewrite Forall_forall in F. now apply F. }
  exists prime. split; [assumption|].
  unfold calculate_ole_temporal_offset, bind, lift. rewrite Hp.
  unfold time_time, read_clock, py_mod, py_truediv. fold (tick w).
  destruct (Z.eqb_spec prime 0) as [|_]; [contradiction|].
  destruct (Req_dec_T (IZR prime) 0) as [E|_]; [apply eq_IZR_R0 in E; contradiction|].
  rewrite init_alpha. cbn [layers __init__].
  destruct (Req_dec_T (IZR 33) 0) as [E|_]; [lra|].
  destruct (0 <? layer)%Z; cbn [obind]; [reflexivity|].
  now rewrite Rmult_1_r.
Qed.

(** X9. Under the constructor's configuration the offset of a layer
    [0 <= layer <= 20000] (a range in which the decay does not underflow)
    is positive and below [1.05e7 * (1 + alpha)]; for layer 0 it lies
    between [1e7] and [1.05e7], whatever the clock shows. *)
Theorem temporal_offset_range (f : string) (layer : Z) (w : World) :
  (0 <= layer <= 20000)%Z ->
  exists offset,
    calculate_ole_temporal_offset (__init__ f) layer w = (Returned offset, tick w)
    /\ 0 < offset < 10500000 * (1 + 0.0302011)
    /\ (layer = 0%Z -> 10000000 <= offset < 10500000).
Proof.
  intros [Hl _].
  destruct (init_temporal_offset_value f layer w) as (prime & Hin & ->).
  eexists. split; [reflexivity|].
  assert (Hp : (0 < prime)%Z).
  { cbn [prime_windows __init__ In] in Hin.
    repeat (destruct Hin as [<-|Hin]; [lia|]). destruct Hin. }
  set (r := (py_int (clock w (ticks w) * 1e6) mod prime)%Z).
  assert (Hr : (0 <= r < prime)%Z) by (apply Z.mod_pos_bound; assumption).
  assert (Hphase : 0 <= IZR r / IZR prime < 1).
  { assert (0 < IZR prime) by (apply IZR_lt; assumption).
    destruct Hr as [Hr1 Hr2]. apply IZR_le in Hr1. apply IZR_lt in Hr2.
    split.
    - apply Rmult_le_pos; [assumption|]. left. now apply Rinv_0_lt_compat.
    - apply Rmult_lt_reg_r with (IZR prime); [assumption|].
      unfold Rdiv. rewrite Rmult_assoc, Rinv_l, Rmult_1_r, Rmult_1_l by lra.
      assumption. }
  set (phase := IZR r / IZR prime) in *.
  assert (He : 0 < exp (- (0.0302011) * IZR layer) <= 1).
  { split; [apply exp_pos|]. apply exp_nonpos_le_1.
    apply IZR_le in Hl. nra. }
  set (e := exp (- (0.0302011) * IZR layer)) in *.
  assert (Hs : 1 - 0.0302011
               <= (if (0 <? layer)%Z
                   then 1 + 0.0302011 * sin (2 * PI * IZR layer / 33) else 1)
               <= 1 + 0.0302011).
  { destruct (0 <? layer)%Z; [|lra].
    pose proof (SIN_bound (2 * PI * IZR layer / 33)) as [S1 S2]. lra. }
  set (s := if (0 <? layer)%Z then _ else _) in *.
  assert (Hf : 10000000 <= 1e7 + 5e5 * phase < 10500000) by lra.
  set (g := 1e7 + 5e5 * phase) in *.
  split; [split|].
  - apply Rmult_lt_0_compat; [apply Rmult_lt_0_compat|]; lra.
  - apply Rle_lt_trans with (1 * (1 + 0.0302011) * g).
    + apply Rmult_le_compat_r; [lra|]. apply Rmult_le_compat; lra.
    + nra.
  - intros ->. subst e s. cbn [Z.ltb Z.compare].
    rewrite Rmult_0_r, exp_0. lra.
Qed.

Lemma temporal_offset_range_witness :
  exists offset,
    calculate_ole_temporal_offset (__init__ "m.docx") 3 quiet_world
    = (Returned offset, tick quiet_world)
    /\ 0 < offset < 10500000 * (1 + 0.0302011).
Proof.
  destruct (temporal_offset_range "m.docx" 3 quiet_world) as (offset & H1 & H2 & _).
  - lia.
  - exists offset. split; assumption.
Defined.

(** ** The layer object: fields, errors, effects *)

Lemma byte_loop_outcome (self : OLE_TemporalVortex) (layer : Z) (hdr : list Z) (n : Z) :
  (exists ext, for_each (range n) (ole_data_step self layer) hdr = Returned (hdr ++ ext)
               /\ Z.of_nat (List.length ext) = Z.max 0 n
               /\ Forall is_byte ext)
  \/ ((0 < n)%Z /\ alpha self = 0
      /\ for_each (range n) (ole_data_step self layer) hdr
         = Raised (Exn ZeroDivisionError "float division by zero")).
Proof.
  unfold range. destruct (Req_dec_T (alpha self) 0) as [E|E].
  - destruct (Z.to_nat n) as [|k] eqn:Hk.
    + left. exists []. rewrite app_nil_r. repeat split; [simpl; lia|constructor].
    + right. split; [lia|]. split; [assumption|].
      cbn [seq map for_each]. unfold ole_data_step at 1, py_truediv at 1.
      destruct (Req_dec_T (alpha self) 0) as [_|N]; [reflexivity|contradiction].
  - left. destruct (byte_loop_ok self E layer hdr (Z.to_nat n))
      as (ext & Hrun & Hlen & Hb & _).
    exists ext. repeat split; [assumption|lia|assumption].
Qed.

Lemma layer_bytes_outcome (self : OLE_TemporalVortex) (layer : Z) :
  match layer_bytes self layer with
  | Returned d =>
      exists payload, d = header_layout self layer ++ payload
                      /\ Z.of_nat (List.length payload) = Z.max 0 (object_size self layer)
                      /\ Forall is_byte payload
  | Raised e => exn_cls e = ZeroDivisionError \/ exn_cls e = StructError
  end.
Proof.
  unfold layer_bytes.
  pose proof (offset_guard_outcome self layer) as G. cbv zeta in G.
  destruct G as [[_ ->]|[_ (msg & ->)]]; cbn [obind]; [|now left].
  destruct (header_outcome self layer) as [[_ ->]|[_ (smsg & ->)]]; cbn [obind];
    [|now right].
  destruct (byte_loop_outcome self layer (header_layout self layer)
              (object_size self layer)) as [(ext & -> & Hl & Hb)|(_ & _ & ->)].
  - exists ext. repeat split; assumption.
  - now left.
Qed.

(** X4. The builder raises nothing but [ZeroDivisionError] and
    [struct.error], whatever the clock shows, the primes are and the layer
    count is: the index [i - 1] is always inside the buffer and every
    appended value is a byte, so neither [IndexError] nor [ValueError] can
    occur; and when it returns, all data are bytes. This is stated for
    [0 <= alpha <= 10^6], a layer index [0 <= layer < 2^1000] and a layer
    count below [2^1000] in absolute value, where no float of the builder
    overflows. *)
Theorem builder_raises_only_division_or_struct_errors
  (self : OLE_TemporalVortex) (layer : Z) (w : World) :
  0 <= alpha self <= 1000000 ->
  (0 <= layer < 2 ^ 1000)%Z ->
  (Z.abs (layers self) < 2 ^ 1000)%Z ->
  match fst (create_temporal_ole_object self layer w) with
  | Returned o => Forall is_byte (ole_data o)
  | Raised e => exn_cls e = ZeroDivisionError \/ exn_cls e = StructError
  end.
Proof.
  intros _ _ _.
  pose proof (create_temporal_ole_object_cases self layer w) as C.
  pose proof (layer_bytes_outcome self layer) as L.
  destruct (layer_bytes self layer) as [d|e].
  - destruct C as (o & -> & D & _). cbn [fst]. rewrite D.
    destruct L as (payload & -> & _ & Hb).
    apply Forall_app. split; [apply header_layout_bytes|assumption].
  - destruct C as (n & ->). exact L.
Qed.

Lemma builder_raises_only_division_or_struct_errors_witness :
  exists e,
    fst (create_temporal_ole_object (__init__ "m.docx") 4294967296 quiet_world) = Raised e
    /\ (exn_cls e = ZeroDivisionError \/ exn_cls e = StructError).
Proof.
  pose proof (builder_raises_only_division_or_struct_errors
                (__init__ "m.docx") 4294967296 quiet_world
                ltac:(rewrite init_alpha; lra) ltac:(lia) ltac:(simpl; lia)) as H.
  destruct (fst (create_temporal_ole_object (__init__ "m.docx") 4294967296 quiet_world))
    as [o|e] eqn:E.
  - exfalso.
    destruct (create_static_fields _ _ _ _ E) as (_ & _ & _ & _ & _ & _ & _ & L).
    unfold layer_bytes in L.
    destruct (offset_guard (__init__ "m.docx") 4294967296); [|discriminate L].
    cbn [obind] in L.
    destruct (header_outcome (__init__ "m.docx") 4294967296) as [[F _]|[_ (msg & G)]].
    + apply sector_fields_fit_iff in F. destruct F as [F _]. unfold fits_uint32 in F. lia.
    + rewrite G in L. discriminate L.
  - exists e. split; [reflexivity|exact H].
Defined.

(** X3. Under a good configuration and for a layer index in [0, 2^32)
    the builder returns; the data of the object are the 72 header bytes
    followed by [size] bytes, so [len(data) = size + 72]; the size lies
    between 0 and 1024; and every element of the data is a byte. *)
Theorem layer_object_shape (self : OLE_TemporalVortex) (layer : Z) (w : World) :
  well_configured self ->
  (0 <= layer < 4294967296)%Z ->
  exists o h,
    fst (create_temporal_ole_object self layer w) = Returned o
    /\ generate_vortex_ole_header self layer = Returned h
    /\ firstn 72 (ole_data o) = h
    /\ Z.of_nat (List.length (ole_data o)) = (ole_size o + 72)%Z
    /\ (0 <= ole_size o <= 1024)%Z
    /\ Forall is_byte (ole_data o).
Proof.
  intros Hwc Hl.
  destruct (create_temporal_ole_object_ok self layer w Hwc Hl)
    as (o & payload & Hrun & Hd & Hlen & Hsz & _ & _ & Hb & _).
  exists o, (header_layout self layer). rewrite Hrun. split; [reflexivity|].
  split. { destruct Hwc. apply generate_vortex_ole_header_ok; [assumption|lra|assumption]. }
  split.
  { rewrite Hd, firstn_app. change 72%nat with header_size.
    rewrite <- (header_layout_length self layer) at 1 2.
    rewrite firstn_all, Nat.sub_diag, firstn_O, app_nil_r. reflexivity. }
  split. { rewrite Hd, length_app, header_layout_length. unfold header_size. lia. }
  split.
  { rewrite Hsz. destruct Hwc as [Hpos _ _ _ _].
    apply (scaled_decay_int_range self 1024 layer); [lia|lra|lia]. }
  rewrite Hd. apply Forall_app. split; [apply header_layout_bytes|assumption].
Qed.

Lemma layer_object_shape_witness :
  exists o,
    fst (create_temporal_ole_object (__init__ "m.docx") 5 quiet_world) = Returned o
    /\ Z.of_nat (List.length (ole_data o)) = (ole_size o + 72)%Z.
Proof.
  destruct (layer_object_shape (__init__ "m.docx") 5 quiet_world)
    as (o & h & H1 & _ & _ & H4 & _).
  - apply init_well_configured.
  - lia.
  - exists o. split; assumption.
Defined.

(** X5. The builder has no effect but on the clock: it never touches the
    archive, it reads the clock at most twice, and exactly twice when it
    returns, the second reading being the timestamp of the object. *)
Theorem builder_only_reads_the_clock
  (self : OLE_TemporalVortex) (layer : Z) (w : World) :
  let r := fst (create_temporal_ole_object self layer w) in
  let w' := snd (create_temporal_ole_object self layer w) in
  archive w' = archive w
  /\ zip_ops w' = zip_ops w
  /\ io_fault w' = io_fault w
  /\ clock w' = clock w
  /\ (ticks w <= ticks w' <= ticks w + 2)%nat
  /\ match r with
     | Returned o => ticks w' = (ticks w + 2)%nat
                     /\ ole_timestamp o = clock w (S (ticks w))
     | Raised _ => True
     end.
Proof.
  intros r w'. subst r w'.
  destruct (create_world self layer w) as (n & Hn & Hw & Hr). rewrite Hw.
  destruct (tick_iter_frame n w) as (F1 & F2 & F3 & F4).
  rewrite ticks_iter. repeat split; try assumption; try lia.
  destruct (fst (create_temporal_ole_object self layer w)) as [o|e]; [|exact I].
  destruct (Hr o eq_refl) as [-> T]. split; [lia|assumption].
Qed.

(** X6. The byte of position [p] of the payload is its decayed value,
    XOR a feedback byte, XOR the parity mask. Position 0 has no feedback;
    positions 1 to 72 are fed by the header byte of index [p - 1]; from
    position 73 on the feedback is the payload byte 73 places back. *)
Theorem payload_feedback_regions
  (self : OLE_TemporalVortex) (layer : Z) (w : World) (p : Z) :
  well_configured self ->
  (0 <= layer < 4294967296)%Z ->
  (0 <= p < object_size self layer)%Z ->
  exists o h,
    fst (create_temporal_ole_object self layer w) = Returned o
    /\ generate_vortex_ole_header self layer = Returned h
    /\ let payload q := nth (72 + Z.to_nat q) (ole_data o) 0%Z in
       (p = 0%Z -> payload p = Z.lxor (base_byte self layer 0) (pattern layer 0))
       /\ ((1 <= p <= 72)%Z ->
           payload p = Z.lxor (Z.lxor (base_byte self layer p) (nth (Z.to_nat (p - 1)) h 0%Z))
                              (pattern layer p))
       /\ ((73 <= p)%Z ->
           payload p = Z.lxor (Z.lxor (base_byte self layer p) (payload (p - 73)%Z))
                              (pattern layer p)).
Proof.
  intros Hwc Hl Hp.
  destruct (create_temporal_ole_object_ok self layer w Hwc Hl)
    as (o & payload & Hrun & Hd & Hlen & Hsz & _ & _ & Hbytes & Hnth).
  exists o, (header_layout self layer). rewrite Hrun. split; [reflexivity|].
  split. { destruct Hwc. apply generate_vortex_ole_header_ok; [assumption|lra|assumption]. }
  cbv zeta. split; [|split].
  - intros ->. rewrite Hd at 1.
    rewrite app_nth2 by (rewrite header_layout_length; unfold header_size; lia).
    rewrite header_layout_length. change (72 + Z.to_nat 0 - header_size)%nat with 0%nat.
    rewrite (Hnth 0%nat) by lia. reflexivity.
  - intros Hp1.
    destruct (byte_recurrence self layer w p Hwc Hl ltac:(lia)) as (o' & Ho' & B).
    rewrite Hrun in Ho'. injection Ho' as <-.
    change header_size with 72%nat in B. rewrite B. do 2 f_equal.
    rewrite Hd. apply app_nth1. rewrite header_layout_length. unfold header_size. lia.
  - intros Hp1.
    destruct (byte_recurrence self layer w p Hwc Hl ltac:(lia)) as (o' & Ho' & B).
    rewrite Hrun in Ho'. injection Ho' as <-.
    change header_size with 72%nat in B. rewrite B. do 3 f_equal. lia.
Qed.

Lemma payload_feedback_regions_witness :
  exists o,
    fst (create_temporal_ole_object (__init__ "m.docx") 0 quiet_world) = Returned o
    /\ nth (72 + 100) (ole_data o) 0%Z
       = Z.lxor (Z.lxor (base_byte (__init__ "m.docx") 0 100)
                        (nth (72 + 27) (ole_data o) 0%Z))
                (pattern 0 100).
Proof.
  destruct (payload_feedback_regions (__init__ "m.docx") 0 quiet_world 100)
    as (o & h & H1 & _ & _ & _ & H3).
  - apply init_well_configured.
  - lia.
  - rewrite init_object_size_0. lia.
  - exists o. split; [exact H1|]. apply H3. lia.
Defined.

(** ** The checksum and the identifier *)

Module SHA256Facts.
Import SHA256.

Lemma compress_length (h block : list Z) :
  List.length (compress h block) = Nat.min (List.length h) 8.
Proof. unfold compress. now rewrite length_map, length_combine. Qed.

Lemma fold_compress_length (blocks : list (list Z)) : forall h,
  List.length h = 8%nat -> List.length (fold_left compress blocks h) = 8%nat.
Proof.
  induction blocks as [|b blocks IH]; intros h Hh; [assumption|].
  cbn [fold_left]. apply IH. now rewrite compress_length, Hh.
Qed.

Lemma be_bytes_length (n : nat) (v : Z) : List.length (be_bytes n v) = n.
Proof. induction n as [|n IH]; simpl; [reflexivity|]. now rewrite IH. Qed.

Lemma be_bytes_are_bytes (n : nat) (v : Z) : Forall is_byte (be_bytes n v).
Proof.
  induction n as [|n IH]; simpl; constructor; [|assumption].
  apply Z.mod_pos_bound. reflexivity.
Qed.

Lemma flat_be_bytes_length (ws : list Z) :
  List.length (flat_map (be_bytes 4) ws) = (4 * List.length ws)%nat.
Proof.
  induction ws as [|x ws IH]; [reflexivity|].
  cbn [flat_map]. rewrite length_app, be_bytes_length, IH. simpl. lia.
Qed.

(** A digest has 32 bytes. *)
Lemma digest_length (msg : list Z) : List.length (digest msg) = 32%nat.
Proof.
  unfold digest. rewrite flat_be_bytes_length, fold_compress_length; reflexivity.
Qed.

Lemma digest_bytes (msg : list Z) : Forall is_byte (digest msg).
Proof.
  unfold digest. apply Forall_flat_map, Forall_forall.
  intros x _. apply be_bytes_are_bytes.
Qed.

Lemma hex_string_length (bs : list Z) :
  String.length (hex_string bs) = (2 * List.length bs)%nat.
Proof. induction bs as [|b bs IH]; simpl; [reflexivity|]. rewrite IH. lia. Qed.

Lemma hex_digit_is_hex (n : Z) : (0 <= n < 16)%Z -> is_hex_char (hex_digit n).
Proof.
  intros Hn. unfold is_hex_char, hex_digit. apply nth_In. simpl. lia.
Qed.

Lemma hex_string_chars (bs : list Z) :
  Forall is_byte bs -> Forall is_hex_char (list_ascii_of_string (hex_string bs)).
Proof.
  induction 1 as [|b bs Hb _ IH]; simpl; [constructor|].
  unfold is_byte in Hb. constructor; [|constructor; [|assumption]].
  - apply hex_digit_is_hex. split; [apply Z.div_pos; lia|].
    apply Z.div_lt_upper_bound; lia.
  - apply hex_digit_is_hex. apply Z.mod_pos_bound. lia.
Qed.

Lemma hexdigest_format (msg : list Z) :
  String.length (hexdigest msg) = 64%nat
  /\ Forall is_hex_char (list_ascii_of_string (hexdigest msg)).
Proof.
  unfold hexdigest. rewrite hex_string_length, digest_length.
  split; [reflexivity|]. apply hex_string_chars, digest_bytes.
Qed.

End SHA256Facts.

(** X7. The checksum of every object the builder returns is the
    hexadecimal SHA-256 digest of the object's own data: 64 characters,
    each a lower-case hexadecimal digit. *)
Theorem checksum_is_64_hex_digits_of_the_data
  (self : OLE_TemporalVortex) (layer : Z) (w : World) :
  match fst (create_temporal_ole_object self layer w) with
  | Returned o =>
      ole_checksum o = SHA256.hexdigest (ole_data o)
      /\ String.length (ole_checksum o) = 64%nat
      /\ Forall is_hex_char (list_ascii_of_string (ole_checksum o))
  | Raised _ => True
  end.
Proof.
  destruct (fst (create_temporal_ole_object self layer w)) as [o|e] eqn:E; [|exact I].
  destruct (create_static_fields self layer w o E) as (_ & _ & _ & _ & _ & _ & Hck & _).
  rewrite Hck. split; [reflexivity|]. apply SHA256Facts.hexdigest_format.
Qed.

(** X8. The identifier of an object embeds its layer index in decimal
    between [".Layer"] and [".Alpha"], so under one configuration two
    objects with the same identifier belong to the same layer. *)
Theorem progid_identifies_the_layer
  (self : OLE_TemporalVortex) (layer1 layer2 : Z) (w1 w2 : World) (o1 o2 : OleObject) :
  fst (create_temporal_ole_object self layer1 w1) = Returned o1 ->
  fst (create_temporal_ole_object self layer2 w2) = Returned o2 ->
  ole_progid o1 = ole_progid o2 ->
  layer1 = layer2 /\ ole_layer o1 = layer1.
Proof.
  intros H1 H2 E.
  destruct (create_static_fields self layer1 w1 o1 H1) as (_ & P1 & _ & _ & L1 & _).
  destruct (create_static_fields self layer2 w2 o2 H2) as (_ & P2 & _).
  split; [|assumption].
  rewrite P1, P2 in E. apply append_cancel_l in E.
  cbn [append] in E. injection E as E.
  apply append_cancel_r in E. now apply str_int_inj.
Qed.

Lemma progid_identifies_the_layer_witness :
  exists o,
    fst (create_temporal_ole_object (__init__ "m.docx") 4 quiet_world) = Returned o
    /\ ole_layer o = 4%Z.
Proof.
  destruct (create_temporal_ole_object_ok (__init__ "m.docx") 4 quiet_world
              (init_well_configured _)) as (o & payload & Hrun & _); [lia|].
  assert (H : fst (create_temporal_ole_object (__init__ "m.docx") 4 quiet_world)
              = Returned o) by (rewrite Hrun; reflexivity).
  exists o. split; [exact H|].
  apply (progid_identifies_the_layer (__init__ "m.docx") 4 4 quiet_world quiet_world
           o o H H eq_refl).
Defined.

(** ** Energy, size and sector count *)

(** X11. Under the constructor's configuration, and for layer indices
    from 0 to 20000 (where the decay is far from underflow), the energy
    level recorded in an object falls strictly as the layer index grows,
    and lies in (0, 1]. *)
Theorem energy_level_decreases
  (f : string) (layer1 layer2 : Z) (w1 w2 : World) (o1 o2 : OleObject) :
  (0 <= layer1)%Z -> (layer1 < layer2)%Z -> (layer2 <= 20000)%Z ->
  fst (create_temporal_ole_object (__init__ f) layer1 w1) = Returned o1 ->
  fst (create_temporal_ole_object (__init__ f) layer2 w2) = Returned o2 ->
  ole_energy_level o2 < ole_energy_level o1
  /\ 0 < ole_energy_level o1 <= 1.
Proof.
  intros H0 Hlt _ H1 H2.
  destruct (create_static_fields _ layer1 w1 o1 H1) as (_ & _ & _ & -> & _).
  destruct (create_static_fields _ layer2 w2 o2 H2) as (_ & _ & _ & -> & _).
  rewrite init_alpha. split.
  - apply exp_increasing. apply IZR_lt in Hlt. nra.
  - rewrite <- (init_alpha f). apply decay_range; [rewrite init_alpha; lra|assumption].
Qed.

Lemma energy_level_decreases_witness :
  exists o1 o2,
    fst (create_temporal_ole_object (__init__ "m.docx") 1 quiet_world) = Returned o1
    /\ fst (create_temporal_ole_object (__init__ "m.docx") 2 quiet_world) = Returned o2
    /\ ole_energy_level o2 < ole_energy_level o1.
Proof.
  destruct (create_temporal_ole_object_ok (__init__ "m.docx") 1 quiet_world
              (init_well_configured _)) as (o1 & p1 & R1 & _); [lia|].
  destruct (create_temporal_ole_object_ok (__init__ "m.docx") 2 quiet_world
              (init_well_configured _)) as (o2 & p2 & R2 & _); [lia|].
  assert (H1 : fst (create_temporal_ole_object (__init__ "m.docx") 1 quiet_world)
               = Returned o1) by (rewrite R1; reflexivity).
  assert (H2 : fst (create_temporal_ole_object (__init__ "m.docx") 2 quiet_world)
               = Returned o2) by (rewrite R2; reflexivity).
  exists o1, o2. split; [exact H1|]. split; [exact H2|].
  apply (energy_level_decreases "m.docx" 1 2 quiet_world quiet_world o1 o2).
  - lia.
  - lia.
  - lia.
  - exact H1.
  - exact H2.
Defined.

Lemma py_int_upper (x : R) : 0 <= x -> x < IZR (py_int x) + 1.
Proof.
  intros Hx. rewrite py_int_floor by assumption.
  destruct (base_Int_part x) as [_ H]. lra.
Qed.

(** X12. The sector count stored in the header follows the size of the
    payload: it lies between four times the size and four times the size
    plus 3, and the half-sector field between twice the size and twice the
    size plus 1. *)
Theorem sector_count_tracks_size (self : OLE_TemporalVortex) (layer : Z) (w : World) :
  well_configured self ->
  (0 <= layer < 4294967296)%Z ->
  exists o h,
    fst (create_temporal_ole_object self layer w) = Returned o
    /\ generate_vortex_ole_header self layer = Returned h
    /\ let total_sectors := nth 0 (Struct.unpack_le 4 10 (skipn 32 h)) 0%Z in
       let half := nth 7 (Struct.unpack_le 4 10 (skipn 32 h)) 0%Z in
       (4 * ole_size o <= total_sectors <= 4 * ole_size o + 3)%Z
       /\ (2 * ole_size o <= half <= 2 * ole_size o + 1)%Z.
Proof.
  intros Hwc Hl.
  destruct (create_temporal_ole_object_ok self layer w Hwc Hl)
    as (o & payload & Hrun & _ & _ & Hsz & _).
  assert (Hh : generate_vortex_ole_header self layer = Returned (header_layout self layer)).
  { destruct Hwc. apply generate_vortex_ole_header_ok; [assumption|lra|assumption]. }
  exists o, (header_layout self layer). rewrite Hrun. split; [reflexivity|].
  split; [exact Hh|]. rewrite (header_decodes_fields self layer _ Hh).
  unfold sector_fields. cbv zeta. cbn [nth]. rewrite Hsz. unfold object_size.
  destruct Hwc as [Hpos _ _ _ _].
  destruct (decay_range self layer ltac:(lra) ltac:(lia)) as [E1 E2].
  set (e := exp (- alpha self * IZR layer)) in *.
  assert (X0 : 0 <= 1024 * e) by lra.
  pose proof (py_int_le _ X0) as A1. pose proof (py_int_upper _ X0) as A2.
  pose proof (py_int_nonneg _ X0) as A0.
  assert (Y0 : 0 <= 4096 * e) by lra.
  pose proof (py_int_le _ Y0) as B1. pose proof (py_int_upper _ Y0) as B2.
  change (IZR 1024) with 1024 in *.
  set (s := py_int (1024 * e)) in *. set (t := py_int (4096 * e)) in *.
  assert (T : (4 * s <= t <= 4 * s + 3)%Z).
  { split.
    - apply Z.lt_succ_r. apply lt_IZR. rewrite succ_IZR, mult_IZR. lra.
    - apply Z.lt_succ_r. apply lt_IZR. rewrite succ_IZR, plus_IZR, mult_IZR. lra. }
  split; [exact T|].
  split; [apply Z.div_le_lower_bound; lia|].
  apply Z.lt_succ_r. apply Z.div_lt_upper_bound; lia.
Qed.

Lemma sector_count_tracks_size_witness :
  exists o h,
    fst (create_temporal_ole_object (__init__ "m.docx") 5 quiet_world) = Returned o
    /\ generate_vortex_ole_header (__init__ "m.docx") 5 = Returned h
    /\ (4 * ole_size o <= nth 0 (Struct.unpack_le 4 10 (skipn 32 h)) 0 <= 4 * ole_size o + 3)%Z.
Proof.
  destruct (sector_count_tracks_size (__init__ "m.docx") 5 quiet_world)
    as (o & h & H1 & H2 & H3 & _).
  - apply init_well_configured.
  - lia.
  - exists o, h. repeat split; try assumption; apply H3.
Defined.

(** ** The build: what reaches the archive and the metadata *)

Section BuildMore.

Variable self : OLE_TemporalVortex.
Hypothesis wc : well_configured self.

Lemma deploy_layer_full (st : R * list OleObject) (layer : Z) (w : World) :
  (0 <= layer < 4294967296)%Z ->
  no_faults w ->
  exists o x prime w',
    deploy_layer self st layer w
    = (Returned (fst st + exp (- alpha self * IZR layer), snd st ++ [o]), w')
    /\ built_by self layer o
    /\ built_by self layer x
    /\ prime_window self layer = Returned prime
    /\ archive w' = archive w ++ layer_parts self layer o x prime
    /\ io_fault w' = io_fault w
    /\ clock w' = clock w
    /\ ticks w' = (ticks w + 4)%nat
    /\ zip_ops w' = (zip_ops w + 2)%nat.
Proof.
  intros Hl Hnf.
  destruct (create_temporal_ole_object_ok self layer w wc Hl) as (o & p1 & R1 & _).
  destruct (create_temporal_ole_object_ok self layer (tick (tick w)) wc Hl)
    as (x & p2 & R2 & _).
  destruct (prime_window_ok self wc layer) as (p & Hp & _).
  unfold deploy_layer, generate_vortex_xml, bind. rewrite R1, R2.
  unfold lift. rewrite Hp. unfold ret, writestr.
  rewrite zip_op_ok by apply Hnf. rewrite zip_op_ok by apply Hnf.
  exists o, x, p. eexists. split; [reflexivity|].
  split; [exists w; now rewrite R1|].
  split; [exists (tick (tick w)); now rewrite R2|].
  split; [reflexivity|]. cbn [archive io_fault clock ticks zip_ops tick].
  split; [now rewrite <- app_assoc|]. repeat split; lia.
Qed.

Lemma energy_sum_cons (layer : Z) (ls : list Z) (start : R) :
  energy_sum self (layer :: ls) start
  = energy_sum self ls (start + exp (- alpha self * IZR layer)).
Proof. reflexivity. Qed.

Lemma deploy_layers_full (ls : list Z) :
  Forall (fun l => 0 <= l < 4294967296)%Z ls ->
  forall (st : R * list OleObject) (w : World),
  no_faults w ->
  exists os es w',
    for_each_M ls (deploy_layer self) st w
    = (Returned (energy_sum self ls (fst st), snd st ++ os), w')
    /\ deployed self ls os es
    /\ archive w' = archive w ++ es
    /\ io_fault w' = io_fault w
    /\ clock w' = clock w
    /\ ticks w' = (ticks w + 4 * List.length ls)%nat
    /\ zip_ops w' = (zip_ops w + 2 * List.length ls)%nat.
Proof.
  induction 1 as [|l ls Hl _ IH]; intros st w Hnf.
  - exists [], [], w. cbn [for_each_M]. unfold ret. rewrite !app_nil_r.
    destruct st. repeat split; [constructor|simpl; lia|simpl; lia].
  - destruct (deploy_layer_full st l w Hl Hnf)
      as (o & x & p & w1 & R1 & Bo & Bx & Hp & A1 & F1 & C1 & T1 & Z1).
    assert (Hnf1 : no_faults w1) by (intros k; rewrite F1; apply Hnf).
    destruct (IH (fst st + exp (- alpha self * IZR l), snd st ++ [o]) w1 Hnf1)
      as (os & es & w' & R2 & D2 & A2 & F2 & C2 & T2 & Z2).
    exists (o :: os), (layer_parts self l o x p ++ es), w'.
    cbn [for_each_M]. unfold bind. rewrite R1, R2. cbn [fst snd].
    split. { rewrite energy_sum_cons, <- app_assoc. reflexivity. }
    split. { now constructor. }
    split. { rewrite A2, A1, <- app_assoc. reflexivity. }
    split; [congruence|]. split; [congruence|].
    cbn [List.length]. split; lia.
Qed.

(** A successful run, with everything it leaves behind. *)
Lemma build_full (w : World) :
  (layers self <= 4294967296)%Z ->
  no_faults w ->
  exists os es w',
    let n := List.length (range (layers self)) in
    let total := energy_sum self (range (layers self)) 0 in
    build_sovereign_document self w
    = (Returned (Document (document_metadata_of self (clock w (ticks w)) os
                             (Some total)
                             (Some (total / cascade_factor self * 100))
                             (Some (clock w (ticks w + 4 * n + 1)%nat)))),
       w')
    /\ deployed self (range (layers self)) os es
    /\ archive w'
       = [("[Content_Types].xml", Text ContentTypesXml);
          ("_rels/.rels", Text RelationshipsXml);
          ("word/_rels/document.xml.rels", Text (DocumentRelsXml (layers self)));
          ("word/document.xml",
           Text (DocumentXml (alpha self) (layers self) (cascade_factor self)))]%string
         ++ es
         ++ [("CTT_VORTEX_MANIFEST.txt"%string,
              Text (VortexManifest (alpha self) (layers self) (cascade_factor self)
                      (document_metadata_of self (clock w (ticks w)) os None None None)))]
    /\ ticks w' = (ticks w + 4 * n + 2)%nat
    /\ zip_ops w' = (zip_ops w + 2 * n + 7)%nat.
Proof.
  intros Hn Hnf.
  assert (Hr : Forall (fun l => 0 <= l < 4294967296)%Z (range (layers self))).
  { apply Forall_forall. intros l Hl. apply range_in in Hl. lia. }
  unfold build_sovereign_document, bind, try_except, with_ZipFile, bind.
  unfold datetime_now, read_clock, ZipFile_open, ZipFile_close, writestr.
  rewrite zip_op_ok by apply Hnf. cbn [clock ticks io_fault zip_ops archive].
  do 4 (rewrite zip_op_ok by apply Hnf; cbn [clock ticks io_fault zip_ops archive]).
  match goal with
  | |- context [for_each_M _ _ ?st ?w0] =>
      destruct (deploy_layers_full _ Hr st w0 Hnf)
        as (os & es & w1 & R1 & D1 & A1 & F1 & C1 & T1 & Z1)
  end.
  rewrite R1. cbn [fst snd app] in *. cbn [clock ticks io_fault zip_ops archive] in *.
  assert (Hnf1 : no_faults w1) by (intros k; rewrite F1; apply Hnf).
  rewrite zip_op_ok by apply Hnf1. cbn [clock ticks io_fault zip_ops archive].
  unfold ret.
  rewrite zip_op_ok by apply Hnf1. cbn [clock ticks io_fault zip_ops archive].
  exists os, es. eexists. cbv zeta.
  split.
  { rewrite C1, T1.
    replace (S (ticks w) + 4 * List.length (range (layers self)))%nat
      with (ticks w + 4 * List.length (range (layers self)) + 1)%nat by lia.
    reflexivity. }
  split; [assumption|]. cbn [clock ticks io_fault zip_ops archive].
  split. { rewrite A1. cbn [app]. reflexivity. }
  split; lia.
Qed.

End BuildMore.

Lemma xml_name_inj (i j : Z) : xml_name i = xml_name j -> i = j.
Proof.
  unfold xml_name. intros H. apply append_cancel_l in H.
  apply append_cancel_r in H. now apply str_int_inj.
Qed.

Lemma xml_name_eqb (i j : Z) : (xml_name i =? xml_name j)%string = (i =? j)%Z.
Proof.
  destruct (Z.eqb_spec i j) as [->|Hne]; [apply String.eqb_refl|].
  apply String.eqb_neq. intros H. now apply xml_name_inj in H.
Qed.

Lemma bin_name_not_xml (i j : Z) : (bin_name i =? xml_name j)%string = false.
Proof. rewrite String.eqb_sym. apply xml_name_not_bin. Qed.

Lemma range_NoDup (n : Z) : NoDup (range n).
Proof.
  unfold range. apply NoDup_map_NoDup_ForallPairs; [|apply seq_NoDup].
  intros a b _ _. apply Nat2Z.inj.
Qed.

Lemma range_length (n : Z) : List.length (range n) = Z.to_nat n.
Proof. unfold range. now rewrite length_map, length_seq. Qed.

Section DeployedFacts.

Variable self : OLE_TemporalVortex.

Lemma deployed_names ls os es :
  deployed self ls os es -> map fst es = layer_names ls.
Proof.
  induction 1 as [|l o x p ls os es _ _ _ _ IH]; [reflexivity|].
  rewrite map_app, IH. reflexivity.
Qed.

Lemma deployed_lengths ls os es :
  deployed self ls os es ->
  List.length os = List.length ls /\ List.length es = (2 * List.length ls)%nat.
Proof.
  induction 1 as [|l o x p ls os es _ _ _ _ [IH1 IH2]]; [split; reflexivity|].
  rewrite length_app. cbn [List.length layer_parts]. split; lia.
Qed.

Lemma deployed_objects ls os es :
  deployed self ls os es ->
  Forall2 (built_by self) ls os.
Proof. induction 1; constructor; assumption. Qed.

Lemma built_by_layer (layer : Z) (o : OleObject) :
  built_by self layer o -> ole_layer o = layer.
Proof.
  intros (w & H). now destruct (create_static_fields self layer w o H)
    as (_ & _ & _ & _ & L & _).
Qed.

(** Two objects built for one layer carry the same bytes. *)
Lemma built_by_same_bytes (layer : Z) (o x : OleObject) :
  built_by self layer o -> built_by self layer x -> bytes_of o = bytes_of x.
Proof.
  intros (w1 & H1) (w2 & H2).
  pose proof (create_bytes_of self layer w1) as B1.
  pose proof (create_bytes_of self layer w2) as B2.
  rewrite H1 in B1. rewrite H2 in B2. cbn [omap] in B1, B2.
  rewrite <- B2 in B1. congruence.
Qed.

Lemma deployed_layers ls os es :
  deployed self ls os es -> map ole_layer os = ls.
Proof.
  induction 1 as [|l o x p ls os es Bo _ _ _ IH]; [reflexivity|].
  cbn [map]. now rewrite IH, (built_by_layer l o Bo).
Qed.

Lemma deployed_absent (i : Z) ls os es :
  deployed self ls os es ->
  ~ In i ls ->
  zip_read (xml_name i) es = None /\ zip_read (bin_name i) es = None.
Proof.
  induction 1 as [|l o x p ls os es _ _ _ _ IH]; intros Hni; [split; reflexivity|].
  destruct IH as [IH1 IH2]; [intros H; apply Hni; now right|].
  assert (Hne : (l =? i)%Z = false) by (apply Z.eqb_neq; intros ->; apply Hni; now left).
  unfold layer_parts. cbn [app zip_read]. rewrite IH1, IH2.
  now rewrite xml_name_eqb, bin_name_eqb, bin_name_not_xml, xml_name_not_bin, Hne.
Qed.

(** Both entries of a deployed layer read back: the descriptor of one
    object of the layer, and the bytes of another. *)
Lemma deployed_read (i : Z) ls os es :
  deployed self ls os es ->
  In i ls ->
  exists o x prime,
    built_by self i o /\ built_by self i x
    /\ prime_window self i = Returned prime
    /\ In o os
    /\ zip_read (xml_name i) es
       = Some (Text (VortexXml i (alpha self) (cascade_factor self) prime x))
    /\ zip_read (bin_name i) es = Some (Bytes (ole_data o)).
Proof.
  induction 1 as [|l o x p ls os es Bo Bx Hp D IH]; intros Hin; [destruct Hin|].
  destruct (in_dec Z.eq_dec i ls) as [Hi|Hi].
  - destruct (IH Hi) as (o' & x' & p' & B1 & B2 & P & I & X & Y).
    exists o', x', p'. repeat split; try assumption; [now right| |].
    + unfold layer_parts. cbn [app zip_read]. now rewrite X.
    + unfold layer_parts. cbn [app zip_read]. now rewrite Y.
  - destruct Hin as [->|Hin]; [|contradiction].
    destruct (deployed_absent i ls os es D Hi) as [A1 A2].
    exists o, x, p. repeat split; try assumption; [now left| |].
    + unfold layer_parts. cbn [app zip_read].
      now rewrite A1, bin_name_not_xml, xml_name_eqb, Z.eqb_refl.
    + unfold layer_parts. cbn [app zip_read].
      now rewrite A2, bin_name_eqb, Z.eqb_refl.
Qed.

Lemma layer_names_in (name : string) (ls : list Z) :
  In name (layer_names ls) ->
  exists l, In l ls /\ (name = xml_name l \/ name = bin_name l).
Proof.
  unfold layer_names. rewrite in_flat_map. intros (l & Hl & [H|[H|[]]]);
    exists l; (split; [assumption|]); [left|right]; now symmetry.
Qed.

Lemma layer_names_NoDup (ls : list Z) : NoDup ls -> NoDup (layer_names ls).
Proof.
  induction 1 as [|l ls Hni _ IH]; [constructor|].
  cbn [layer_names flat_map app]. fold (layer_names ls).
  constructor; [|constructor; [|assumption]].
  - intros [H|H].
    + pose proof (xml_name_not_bin l l) as N. apply String.eqb_neq in N.
      now apply N.
    + apply layer_names_in in H. destruct H as (l' & Hl' & [H|H]).
      * apply xml_name_inj in H. now subst.
      * pose proof (xml_name_not_bin l l') as N. apply String.eqb_neq in N. now apply N.
  - intros H. apply layer_names_in in H. destruct H as (l' & Hl' & [H|H]).
    + pose proof (xml_name_not_bin l' l) as N. apply String.eqb_neq in N.
      now apply N.
    + apply bin_name_inj in H. now subst.
Qed.

End DeployedFacts.

Lemma layer_name_prefix (name : string) (ls : list Z) :
  In name (layer_names ls) ->
  exists rest, name = ("word/embeddings/oleObject" ++ rest)%string.
Proof.
  intros H. apply layer_names_in in H. destruct H as (l & _ & [-> | ->]);
    eexists; reflexivity.
Qed.

Lemma archive_names_NoDup (ls : list Z) :
  NoDup ls ->
  NoDup (fixed_names ++ layer_names ls ++ ["CTT_VORTEX_MANIFEST.txt"%string]).
Proof.
  intros Hls.
  assert (Hfix : forall name rest,
             name = ("word/embeddings/oleObject" ++ rest)%string ->
             ~ In name fixed_names /\ name <> "CTT_VORTEX_MANIFEST.txt"%string).
  { intros name rest ->. split.
    - unfold fixed_names. cbn [In append]. intros [H|[H|[H|[H|[]]]]]; discriminate H.
    - cbn [append]. discriminate. }
  assert (Hlm : NoDup (layer_names ls ++ ["CTT_VORTEX_MANIFEST.txt"%string])).
  { apply NoDup_app.
    - now apply layer_names_NoDup.
    - constructor; [intros []|constructor].
    - intros name H [<-|[]]. apply layer_name_prefix in H. destruct H as (rest & H).
      now apply (Hfix _ _ H). }
  apply NoDup_app.
  - unfold fixed_names. repeat constructor; cbn [In]; intuition discriminate.
  - exact Hlm.
  - intros name Hf Hin. apply in_app_or in Hin. destruct Hin as [Hin|[<-|[]]].
    + apply layer_name_prefix in Hin. destruct Hin as (rest & Hin).
      destruct (Hfix _ _ Hin) as [N _]. now apply N.
    + unfold fixed_names in Hf. cbn [In] in Hf. intuition discriminate.
Qed.

(** X13. After a run in which no archive operation fails, the archive
    holds, in this order, the four fixed parts, the descriptor and the
    binary entry of each layer in ascending order, and the manifest:
    [2 * N + 5] entries, no two under the same name. *)
Theorem archive_layout (self : OLE_TemporalVortex) (w : World) :
  well_configured self ->
  (layers self <= 4294967296)%Z ->
  no_faults w ->
  exists m w',
    build_sovereign_document self w = (Returned (Document m), w')
    /\ map fst (archive w')
       = fixed_names ++ layer_names (range (layers self))
         ++ ["CTT_VORTEX_MANIFEST.txt"%string]
    /\ NoDup (map fst (archive w'))
    /\ List.length (archive w') = (2 * Z.to_nat (layers self) + 5)%nat.
Proof.
  intros Hwc Hn Hnf.
  destruct (build_full self Hwc w Hn Hnf) as (os & es & w' & Hrun & D & A & _).
  cbv zeta in Hrun. eexists _, w'. split; [exact Hrun|].
  pose proof (deployed_names self _ _ _ D) as N.
  destruct (deployed_lengths self _ _ _ D) as [_ L].
  assert (E : map fst (archive w')
              = fixed_names ++ layer_names (range (layers self))
                ++ ["CTT_VORTEX_MANIFEST.txt"%string]).
  { rewrite A, map_app, map_app, N. reflexivity. }
  split; [exact E|]. split.
  - rewrite E. apply archive_names_NoDup, range_NoDup.
  - rewrite A, !length_app, L, range_length. simpl. lia.
Qed.

Lemma archive_layout_witness :
  exists m w',
    build_sovereign_document (__init__ "m.docx") quiet_world = (Returned (Document m), w')
    /\ NoDup (map fst (archive w'))
    /\ List.length (archive w') = 71%nat.
Proof.
  destruct (archive_layout (__init__ "m.docx") quiet_world)
    as (m & w' & H1 & _ & H3 & H4).
  - apply init_well_configured.
  - simpl. lia.
  - apply quiet_world_no_faults.
  - exists m, w'. repeat split; assumption.
Defined.

Lemma zip_read_in_archive (name : string) (fixed es : list (string * content))
  (mf : content) (c : content) :
  zip_read name es = Some c ->
  (name =? "CTT_VORTEX_MANIFEST.txt")%string = false ->
  zip_read name (fixed ++ es ++ [("CTT_VORTEX_MANIFEST.txt"%string, mf)]) = Some c.
Proof.
  intros H Hne. rewrite !zip_read_app. cbn [zip_read].
  rewrite String.eqb_sym, Hne. now rewrite H.
Qed.

(** X14. The descriptor and the binary entry of a layer agree, although
    they come from two calls of the builder: the checksum rendered into
    [oleObject<i>.xml] is the SHA-256 of the bytes stored in
    [oleObject<i>.bin], its size is their length less the 72 header bytes,
    and its layer is [i]. *)
Theorem descriptor_matches_binary_entry
  (self : OLE_TemporalVortex) (w : World) (i : Z) :
  well_configured self ->
  (layers self <= 4294967296)%Z ->
  no_faults w ->
  (0 <= i < layers self)%Z ->
  exists m w' x prime d,
    build_sovereign_document self w = (Returned (Document m), w')
    /\ zip_read ("word/embeddings/oleObject" ++ str_int i ++ ".xml") (archive w')
       = Some (Text (VortexXml i (alpha self) (cascade_factor self) prime x))
    /\ zip_read ("word/embeddings/oleObject" ++ str_int i ++ ".bin") (archive w')
       = Some (Bytes d)
    /\ ole_checksum x = SHA256.hexdigest d
    /\ ole_data x = d
    /\ Z.of_nat (List.length d) = (ole_size x + 72)%Z
    /\ ole_layer x = i
    /\ In prime (prime_windows self).
Proof.
  intros Hwc Hn Hnf Hi.
  destruct (build_full self Hwc w Hn Hnf) as (os & es & w' & Hrun & D & A & _).
  cbv zeta in Hrun.
  destruct (deployed_read self i _ _ _ D) as (o & x & p & Bo & Bx & Hp & _ & X & Y).
  { apply range_in. assumption. }
  pose proof (built_by_same_bytes self i o x Bo Bx) as S.
  unfold bytes_of in S. injection S as S1 S2 S3.
  destruct Bx as (wx & Hx).
  destruct (create_static_fields self i wx x Hx) as (_ & _ & Hsz & _ & Hly & _ & Hck & _).
  destruct (create_temporal_ole_object_ok self i wx Hwc ltac:(lia))
    as (x' & payload & Hrun' & Hd & Hlen & _).
  rewrite Hrun' in Hx. cbn [fst] in Hx. injection Hx as ->.
  eexists _, w', x, p, (ole_data o). split; [exact Hrun|]. rewrite A.
  split. { apply zip_read_in_archive; [exact X|reflexivity]. }
  split. { apply zip_read_in_archive; [exact Y|reflexivity]. }
  split; [rewrite S1; exact Hck|]. split; [now symmetry|].
  split. { rewrite S1, Hd, length_app, header_layout_length. unfold header_size. lia. }
  split; [assumption|].
  destruct (prime_window_outcome self i) as [[_ Q]|[Hne Q]];
    rewrite Q in Hp; [discriminate|].
  injection Hp as <-. apply nth_In.
  assert (0 < Z.of_nat (List.length (prime_windows self)))%Z.
  { destruct (prime_windows self); [contradiction|simpl; lia]. }
  pose proof (Z.mod_pos_bound i _ H). lia.
Qed.

Lemma descriptor_matches_binary_entry_witness :
  exists m w' x prime d,
    build_sovereign_document (__init__ "m.docx") quiet_world = (Returned (Document m), w')
    /\ zip_read "word/embeddings/oleObject9.xml" (archive w')
       = Some (Text (VortexXml 9 (alpha (__init__ "m.docx"))
                       (cascade_factor (__init__ "m.docx")) prime x))
    /\ zip_read "word/embeddings/oleObject9.bin" (archive w') = Some (Bytes d)
    /\ ole_checksum x = SHA256.hexdigest d.
Proof.
  destruct (descriptor_matches_binary_entry (__init__ "m.docx") quiet_world 9)
    as (m & w' & x & prime & d & H1 & H2 & H3 & H4 & _).
  - apply init_well_configured.
  - simpl. lia.
  - apply quiet_world_no_faults.
  - simpl. lia.
  - exists m, w', x, prime, d. repeat split; assumption.
Defined.

(** X15. The manifest stored in the archive is rendered before the run
    computes its totals: it is rendered from metadata that already list
    every layer object, in layer order, but have no [total_energy], no
    [efficiency] and no [completion_time], while the metadata the run
    returns have all three. *)
Theorem manifest_is_rendered_before_the_totals (self : OLE_TemporalVortex) (w : World) :
  well_configured self ->
  (layers self <= 4294967296)%Z ->
  no_faults w ->
  exists m w' md,
    build_sovereign_document self w = (Returned (Document m), w')
    /\ zip_read "CTT_VORTEX_MANIFEST.txt" (archive w')
       = Some (Text (VortexManifest (alpha self) (layers self) (cascade_factor self) md))
    /\ doc_ole_objects md = doc_ole_objects m
    /\ map ole_layer (doc_ole_objects m) = range (layers self)
    /\ doc_total_energy md = None
    /\ doc_efficiency md = None
    /\ doc_completion_time md = None
    /\ doc_total_energy m <> None
    /\ doc_efficiency m <> None
    /\ doc_completion_time m <> None.
Proof.
  intros Hwc Hn Hnf.
  destruct (build_full self Hwc w Hn Hnf) as (os & es & w' & Hrun & D & A & _).
  cbv zeta in Hrun. eexists _, w', _. split; [exact Hrun|]. split.
  { rewrite A, !zip_read_app. cbn [zip_read]. rewrite String.eqb_refl. reflexivity. }
  cbn [document_metadata_of doc_ole_objects doc_total_energy doc_efficiency
       doc_completion_time].
  split; [reflexivity|]. split; [exact (deployed_layers self _ _ _ D)|].
  repeat split; discriminate.
Qed.

Lemma manifest_is_rendered_before_the_totals_witness :
  exists m w' md,
    build_sovereign_document (__init__ "m.docx") quiet_world = (Returned (Document m), w')
    /\ zip_read "CTT_VORTEX_MANIFEST.txt" (archive w')
       = Some (Text (VortexManifest (alpha (__init__ "m.docx")) 33
                       (cascade_factor (__init__ "m.docx")) md))
    /\ doc_total_energy md = None
    /\ doc_total_energy m <> None.
Proof.
  destruct (manifest_is_rendered_before_the_totals (__init__ "m.docx") quiet_world)
    as (m & w' & md & H1 & H2 & _ & _ & H5 & _ & _ & H8 & _).
  - apply init_well_configured.
  - simpl. lia.
  - apply quiet_world_no_faults.
  - exists m, w', md. repeat split; assumption.
Defined.



Lemma init_cascade_factor_nonzero (f : string) : cascade_factor (__init__ f) <> 0.
Proof.
  cbn [cascade_factor __init__].
  assert (H : exp (- (0.0302011) * 33) < 1).
  { rewrite <- exp_0. apply exp_increasing. lra. }
  intros E. apply Rmult_eq_compat_r with (r := 0.0302011) in E.
  unfold Rdiv in E. rewrite Rmult_assoc, Rinv_l, Rmult_1_r, Rmult_0_l in E by lra.
  lra.
Qed.

(** X18. With no layers to build ([layers <= 0]) and a cascade factor
    that is not 0 the run still succeeds, whatever [alpha] and the primes
    are: the archive holds the four fixed parts and the manifest, the
    metadata list no object, and the total energy and the efficiency are
    0. *)
Theorem build_without_layers (self : OLE_TemporalVortex) (w : World) :
  (layers self <= 0)%Z ->
  cascade_factor self <> 0 ->
  no_faults w ->
  exists m w',
    build_sovereign_document self w = (Returned (Document m), w')
    /\ map fst (archive w') = fixed_names ++ ["CTT_VORTEX_MANIFEST.txt"%string]
    /\ doc_ole_objects m = []
    /\ doc_total_energy m = Some 0
    /\ doc_efficiency m = Some 0.
Proof.
  intros Hn Hc Hnf.
  unfold build_sovereign_document, bind, try_except, with_ZipFile, bind.
  unfold datetime_now, read_clock, ZipFile_open, ZipFile_close, writestr.
  rewrite zip_op_ok by apply Hnf. cbn [clock ticks io_fault zip_ops archive].
  do 4 (rewrite zip_op_ok by apply Hnf; cbn [clock ticks io_fault zip_ops archive]).
  assert (E : range (layers self) = []).
  { unfold range. replace (Z.to_nat (layers self)) with 0%nat by lia. reflexivity. }
  rewrite E. cbn [for_each_M]. unfold ret. cbn [fst snd].
  rewrite zip_op_ok by apply Hnf. cbn [clock ticks io_fault zip_ops archive].
  rewrite zip_op_ok by apply Hnf. cbn [clock ticks io_fault zip_ops archive].
  eexists _, _. split; [reflexivity|].
  cbn [archive doc_ole_objects doc_total_energy doc_efficiency].
  repeat split; try reflexivity.
  f_equal. unfold Rdiv. ring.
Qed.

Lemma build_without_layers_witness :
  exists m w',
    build_sovereign_document (set_layers (__init__ "m.docx") 0) quiet_world
    = (Returned (Document m), w')
    /\ doc_ole_objects m = [].
Proof.
  destruct (build_without_layers (set_layers (__init__ "m.docx") 0) quiet_world)
    as (m & w' & H1 & _ & H3 & _).
  - simpl. lia.
  - apply (init_cascade_factor_nonzero "m.docx").
  - apply quiet_world_no_faults.
  - exists m, w'. split; assumption.
Defined.

(** ** The totals of a run *)

Lemma range_succ (n : nat) : range (Z.of_nat (S n)) = range (Z.of_nat n) ++ [Z.of_nat n].
Proof. unfold range. rewrite !Nat2Z.id, seq_S, map_app. reflexivity. Qed.

(** The energies of the layers [0 .. n - 1] add up to a geometric sum. *)
Lemma energy_sum_geometric (self : OLE_TemporalVortex) (n : nat) :
  energy_sum self (range (Z.of_nat n)) 0 * (1 - exp (- alpha self))
  = 1 - exp (- alpha self * IZR (Z.of_nat n)).
Proof.
  induction n as [|n IH].
  - cbn [range Z.of_nat Z.to_nat seq map energy_sum fold_left].
    rewrite Rmult_0_r, exp_0. ring.
  - rewrite range_succ. unfold energy_sum in *. rewrite fold_left_app.
    cbn [fold_left]. rewrite Rmult_plus_distr_r, IH.
    rewrite Nat2Z.inj_succ, succ_IZR.
    replace (- alpha self * (IZR (Z.of_nat n) + 1))
      with (- alpha self * IZR (Z.of_nat n) + - alpha self) by ring.
    rewrite exp_plus. ring.
Qed.

Lemma init_decay_enclosure :
  970250 <= 1000000 * exp (- (0.0302011)) < 970251.
Proof.
  assert (F : py_int (IZR 1000000 * exp (IZR (-302011) / IZR 10000000)) = 970250%Z)
    by (apply (ExpBoundFacts.floor_check_sound 20); vm_compute; reflexivity).
  replace (IZR (-302011) / IZR 10000000) with (- (0.0302011)) in F by lra.
  assert (P : 0 <= 1000000 * exp (- (0.0302011))).
  { apply Rmult_le_pos; [lra|]. left. apply exp_pos. }
  pose proof (py_int_le _ P) as L. pose proof (py_int_upper _ P) as U.
  rewrite F in L, U. lra.
Qed.

(** X16. Under the constructor's configuration a successful run returns
    the total energy [(1 - exp(-33 alpha)) / (1 - exp(-alpha))] and the
    efficiency [100 * alpha / (1 - exp(-alpha))], which does not depend
    on the number of layers and lies above 100: between 101.5 and 101.6. *)
Theorem efficiency_exceeds_100_percent (f : string) (w : World) :
  no_faults w ->
  exists m w' total efficiency,
    build_sovereign_document (__init__ f) w = (Returned (Document m), w')
    /\ doc_total_energy m = Some total
    /\ doc_efficiency m = Some efficiency
    /\ total = (1 - exp (- (0.0302011) * 33)) / (1 - exp (- (0.0302011)))
    /\ efficiency = 100 * 0.0302011 / (1 - exp (- (0.0302011)))
    /\ 101.5 < efficiency < 101.6.
Proof.
  intros Hnf.
  destruct (build_full (__init__ f) (init_well_configured f) w) as
    (os & es & w' & Hrun & _); [simpl; lia|assumption|].
  cbv zeta in Hrun. eexists _, w', _, _. split; [exact Hrun|].
  cbn [document_metadata_of doc_total_energy doc_efficiency].
  split; [reflexivity|]. split; [reflexivity|].
  pose proof (energy_sum_geometric (__init__ f) 33) as G.
  change (range (Z.of_nat 33)) with (range (layers (__init__ f))) in G.
  change (IZR (Z.of_nat 33)) with 33 in G. rewrite init_alpha in G.
  set (total := energy_sum (__init__ f) (range (layers (__init__ f))) 0) in *.
  pose proof init_decay_enclosure as E.
  set (r := exp (- (0.0302011))) in *.
  assert (H33 : 0 < exp (- (0.0302011) * 33) < 1).
  { split; [apply exp_pos|]. rewrite <- exp_0. apply exp_increasing. lra. }
  set (r33 := exp (- (0.0302011) * 33)) in *.
  assert (T : total = (1 - r33) / (1 - r)).
  { apply Rmult_eq_reg_r with (1 - r); [|lra]. rewrite G. field. lra. }
  split; [exact T|].
  assert (Eff : total / cascade_factor (__init__ f) * 100 = 100 * 0.0302011 / (1 - r)).
  { cbn [cascade_factor __init__]. fold r33. rewrite T. field. lra. }
  split; [exact Eff|]. rewrite Eff.
  assert (D : 0 < 1 - r) by lra.
  split.
  - apply Rmult_lt_reg_r with (1 - r); [assumption|].
    unfold Rdiv. rewrite Rmult_assoc, Rinv_l, Rmult_1_r by lra. lra.
  - apply Rmult_lt_reg_r with (1 - r); [assumption|].
    unfold Rdiv. rewrite Rmult_assoc, Rinv_l, Rmult_1_r by lra. lra.
Qed.

Lemma efficiency_exceeds_100_percent_witness :
  exists m w' efficiency,
    build_sovereign_document (__init__ "m.docx") quiet_world = (Returned (Document m), w')
    /\ doc_efficiency m = Some efficiency
    /\ 101.5 < efficiency < 101.6.
Proof.
  destruct (efficiency_exceeds_100_percent "m.docx" quiet_world)
    as (m & w' & total & efficiency & H1 & _ & H3 & _ & _ & H6).
  - apply quiet_world_no_faults.
  - exists m, w', efficiency. repeat split; try assumption; apply H6.
Defined.

(** ** A zero [alpha] *)

(** X19. An object whose [alpha] is 0 cannot be built into a document:
    with at least one layer, the run writes the four fixed parts, the
    first iteration of the byte loop of layer 0 divides by zero, and the
    build returns the error dictionary with that message. *)
Theorem zero_alpha_aborts_at_layer_0 (self : OLE_TemporalVortex) (w : World) :
  alpha self = 0 ->
  (0 < layers self)%Z ->
  prime_windows self <> [] ->
  nth 0 (prime_windows self) 0%Z <> 0%Z ->
  no_faults w ->
  exists w',
    build_sovereign_document self w
    = (Returned (ErrorDict "float division by zero"), w')
    /\ map fst (archive w') = fixed_names
    /\ exists e, fst (create_temporal_ole_object self 0 w) = Raised e
                 /\ exn_cls e = ZeroDivisionError.
Proof.
  intros Ha Hn Hne Hp Hnf.
  pose proof (layer_bytes_with_zero_alpha self Ha Hne Hp) as L.
  unfold build_sovereign_document, bind, try_except, with_ZipFile, bind.
  unfold datetime_now, read_clock, ZipFile_open, ZipFile_close, writestr.
  rewrite zip_op_ok by apply Hnf. cbn [clock ticks io_fault zip_ops archive].
  do 4 (rewrite zip_op_ok by apply Hnf; cbn [clock ticks io_fault zip_ops archive]).
  destruct (range_pos (layers self) Hn) as (rest & ->).
  cbn [for_each_M]. unfold bind at 1. unfold deploy_layer at 1. unfold bind at 1.
  match goal with
  | |- context [create_temporal_ole_object self 0 ?w0] =>
      pose proof (create_temporal_ole_object_cases self 0 w0) as C
  end.
  rewrite L in C. destruct C as (n & C). rewrite C.
  match goal with
  | |- context [Nat.iter n tick ?w0] =>
      destruct (tick_iter_frame n w0) as (_ & F & _ & A)
  end.
  rewrite zip_op_ok by (rewrite F; apply Hnf).
  eexists. split; [reflexivity|]. cbn [archive]. rewrite A. cbn [archive app map fst].
  split; [reflexivity|].
  pose proof (create_temporal_ole_object_cases self 0 w) as C'.
  rewrite L in C'. destruct C' as (n' & C'). rewrite C'.
  eexists. split; reflexivity.
Qed.

Lemma zero_alpha_aborts_at_layer_0_witness :
  exists w',
    build_sovereign_document (set_alpha (__init__ "m.docx") 0) quiet_world
    = (Returned (ErrorDict "float division by zero"), w')
    /\ map fst (archive w') = fixed_names.
Proof.
  destruct (zero_alpha_aborts_at_layer_0 (set_alpha (__init__ "m.docx") 0) quiet_world)
    as (w' & H1 & H2 & _).
  - reflexivity.
  - simpl. lia.
  - discriminate.
  - simpl. lia.
  - apply quiet_world_no_faults.
  - exists w'. split; assumption.
Defined.

(** ** The descriptor of a layer *)

(** X20. The descriptor generator fails exactly as the builder does and
    adds no failure of its own: when the builder raises, it raises the
    same exception; when the builder returns an object, it returns the
    descriptor of that object, with a non-zero prime taken from the
    configured list. *)
Theorem descriptor_follows_the_builder
  (self : OLE_TemporalVortex) (layer : Z) (w : World) :
  match fst (create_temporal_ole_object self layer w) with
  | Returned o =>
      exists prime,
        fst (generate_vortex_xml self layer w)
        = Returned (VortexXml layer (alpha self) (cascade_factor self) prime o)
        /\ In prime (prime_windows self)
        /\ prime <> 0%Z
  | Raised e => fst (generate_vortex_xml self layer w) = Raised e
  end.
Proof.
  unfold generate_vortex_xml, bind.
  destruct (create_temporal_ole_object self layer w) as [[o|e] w1] eqn:E;
    cbn [fst]; [|reflexivity].
  assert (H : fst (create_temporal_ole_object self layer w) = Returned o)
    by (rewrite E; reflexivity).
  destruct (create_static_fields self layer w o H) as (_ & _ & _ & _ & _ & _ & _ & L).
  unfold layer_bytes in L.
  pose proof (offset_guard_outcome self layer) as G. cbv zeta in G.
  destruct G as [[B _]|[_ (msg & G)]]; [|rewrite G in L; discriminate].
  destruct (prime_window_outcome self layer) as [[Hp _]|[Hne Hp]].
  { exfalso. apply B. right. now left. }
  unfold lift. rewrite Hp. cbn [fst]. eexists. split; [reflexivity|]. split.
  - apply nth_In.
    assert (0 < Z.of_nat (List.length (prime_windows self)))%Z
      by (destruct (prime_windows self); [contradiction|simpl; lia]).
    pose proof (Z.mod_pos_bound layer _ H0). lia.
  - intros Hz. apply B. right. now right.
Qed.
